(** * WeatherApp: the station-to-observation workflow of [App.js]

    A shallow embedding of the two variants of the screen ([src/App.js],
    the unfiltered variant, and its sibling that keeps the four-letter
    K-stations) and the properties of the specification checked on it.

    JavaScript numbers are IEEE 754 binary64 values: they are modelled
    by [spec_float] with the standard library's reference operations at
    precision 53 and maximal exponent 1024.  The JSON payloads of the two
    endpoints are modelled by records whose fields are each absent
    ([Undefined]), [Null] or defined, the shape section 6 of the
    specification gives them; a field holding a value of another JSON
    type is outside the model.  The [async] handlers are modelled by an
    event-driven transition function: every [await] is a point where the
    handler is parked in a table of pending tasks until the event that
    resumes it arrives. *)

From Stdlib Require Import ZArith Lia Bool List String Ascii SpecFloat DecimalString.
From stdpp Require Import gmap.
Import ListNotations.

(** ** JavaScript values *)

Module JS.

(** A field of a JSON object as the code reads it: absent, [null], or
    holding a value. *)
Inductive nullable (A : Type) : Type :=
  | Undefined
  | Null
  | Def (a : A).
Arguments Undefined {A}.
Arguments Null {A}.
Arguments Def {A} a.

(** [x != null]: false exactly on [null] and [undefined]. *)
Definition neq_null {A} (x : nullable A) : bool :=
  match x with
  | Def _ => true
  | _ => false
  end.

(** [o?.f] *)
Definition optchain {A B} (o : nullable A) (f : A -> nullable B) : nullable B :=
  match o with
  | Def a => f a
  | _ => Undefined
  end.

(** Exceptions: the [TypeError] of a property read on [null] or
    [undefined] (it carries the property name), and the rejection of a
    collaborator's promise. *)
Inductive exn : Type :=
  | TypeError (property : string)
  | Rejection (reason : string).

Inductive result (A : Type) : Type :=
  | Ok (a : A)
  | Throw (e : exn).
Arguments Ok {A} a.
Arguments Throw {A} e.

Definition bind {A B} (r : result A) (k : A -> result B) : result B :=
  match r with
  | Ok a => k a
  | Throw e => Throw e
  end.

(** [o.f]: throws when [o] is [null] or [undefined]. *)
Definition get {A B} (o : nullable A) (property : string) (f : A -> B) : result B :=
  match o with
  | Def a => Ok (f a)
  | _ => Throw (TypeError property)
  end.

(** *** Numbers *)

Local Open Scope Z_scope.

Definition number : Type := spec_float.
Definition prec : Z := 53.
Definition emax : Z := 1024.

(** A numeric literal with an integer value. *)
Definition of_Z (z : Z) : number := binary_normalize prec emax z 0 false.
Definition mul : number -> number -> number := SFmul prec emax.
Definition div : number -> number -> number := SFdiv prec emax.
Definition add : number -> number -> number := SFadd prec emax.

(** The literal [2.237]: the double nearest to 2237/1000, which is the
    correctly rounded quotient of the two exact doubles. *)
Definition lit_2_237 : number := Eval vm_compute in div (of_Z 2237) (of_Z 1000).

(** The exact value [m * 2^e] of a finite number, given back in canonical
    form.  It is used where the result of an operation is representable
    (an integer below 2^53, a remainder), so that no rounding occurs. *)
Definition normalize (s : bool) (m : positive) (e : Z) : number :=
  let e' := fexp prec emax (Zpos (digits2_pos m) + e) in
  if e' <=? e then
    match Zpos m * 2 ^ (e - e') with
    | Zpos m' => S754_finite s m' e'
    | _ => S754_zero s
    end
  else
    match Zpos m / 2 ^ (e' - e) with
    | Zpos m' => S754_finite s m' e'
    | _ => S754_zero s
    end.

(** [z * 2^e] as a number; a zero result takes the sign [s]. *)
Definition of_dyadic (s : bool) (z : Z) (e : Z) : number :=
  match z with
  | Z0 => S754_zero s
  | Zpos m => normalize false m e
  | Zneg m => normalize true m e
  end.

(** The integer nearest to [m * 2^e], the larger one on a tie. *)
Definition round_half_up (m e : Z) : Z :=
  if 0 <=? e then m * 2 ^ e else (m + 2 ^ (- e - 1)) / 2 ^ (- e).

(** [Math.round]: NaN, the infinities, the zeros and the integral numbers
    are returned as they are; a value in [-0.5, 0) gives [-0]. *)
Definition Math_round (x : number) : number :=
  match x with
  | S754_finite s m e =>
      if 0 <=? e then x
      else of_dyadic s (round_half_up (cond_Zopp s (Zpos m)) e) 0
  | _ => x
  end.

(** [n % d] (Number::remainder): the remainder of the truncating
    division, with the sign of the dividend. *)
Definition js_rem (n d : number) : number :=
  match n, d with
  | S754_nan, _ | _, S754_nan => S754_nan
  | S754_infinity _, _ => S754_nan
  | _, S754_zero _ => S754_nan
  | _, S754_infinity _ => n
  | S754_zero _, _ => n
  | S754_finite sn mn en, S754_finite _ md ed =>
      let e := Z.min en ed in
      let N := cond_Zopp sn (Zpos mn) * 2 ^ (en - e) in
      let D := Zpos md * 2 ^ (ed - e) in
      of_dyadic sn (Z.rem N D) e
  end.

(** The integer a number denotes, when it denotes one. *)
Definition to_Z (x : number) : option Z :=
  match x with
  | S754_zero _ => Some 0
  | S754_finite s m e =>
      if 0 <=? e then Some (cond_Zopp s (Zpos m) * 2 ^ e)
      else if Zpos m mod 2 ^ (- e) =? 0
           then Some (cond_Zopp s (Zpos m / 2 ^ (- e)))
           else None
  | _ => None
  end.

(** [a[i]] on an array of [length] elements: the key [ToString(i)] names
    an element only when [i] is an integer in range ([-0] prints as
    ["0"]); every other key is absent from the array. *)
Definition array_get {A} (a : list A) (i : number) : nullable A :=
  match to_Z i with
  | Some z =>
      if z <? 0 then Undefined
      else match nth_error a (Z.to_nat z) with
           | Some v => Def v
           | None => Undefined
           end
  | None => Undefined
  end.

End JS.

(** ** Regular expressions

    The fragment the station filter needs, matched by derivatives.  A
    pattern between [^] and [$] (without the [m] flag) matches the whole
    subject and nothing else, so [test] on such a pattern is [matches]. *)

Module Regex.

Inductive re : Type :=
  | Nul
  | Eps
  | Chr (c : ascii)
  | Range (lo hi : ascii)
  | Cat (r1 r2 : re)
  | Alt (r1 r2 : re).

(** [r{n}] *)
Fixpoint rep (n : nat) (r : re) : re :=
  match n with
  | O => Eps
  | S n' => Cat r (rep n' r)
  end.

Definition in_range (lo hi c : ascii) : bool :=
  (nat_of_ascii lo <=? nat_of_ascii c)%nat && (nat_of_ascii c <=? nat_of_ascii hi)%nat.

Fixpoint nullable (r : re) : bool :=
  match r with
  | Nul => false
  | Eps => true
  | Chr _ => false
  | Range _ _ => false
  | Cat r1 r2 => nullable r1 && nullable r2
  | Alt r1 r2 => nullable r1 || nullable r2
  end.

Fixpoint deriv (c : ascii) (r : re) : re :=
  match r with
  | Nul => Nul
  | Eps => Nul
  | Chr c' => if Ascii.eqb c c' then Eps else Nul
  | Range lo hi => if in_range lo hi c then Eps else Nul
  | Cat r1 r2 =>
      if nullable r1 then Alt (Cat (deriv c r1) r2) (deriv c r2)
      else Cat (deriv c r1) r2
  | Alt r1 r2 => Alt (deriv c r1) (deriv c r2)
  end.

Fixpoint matches (r : re) (s : string) : bool :=
  match s with
  | EmptyString => nullable r
  | String c s' => matches (deriv c r) s'
  end.

End Regex.

(** ** The payloads of the two endpoints *)

Import JS.

(** The station directory: [{ features: [ { properties: {
    stationIdentifier, name }, geometry: { coordinates: [lon, lat] } } ] }]. *)
Module Stn.
Record props : Type :=
  { stationIdentifier : nullable string;
    name : nullable string }.
Record geom : Type :=
  { coordinates : nullable (list (nullable number)) }.
Record feature : Type :=
  { properties : nullable props;
    geometry : nullable geom }.
Record data : Type :=
  { features : nullable (list (nullable feature)) }.
End Stn.

(** The latest observation: [{ properties: { temperature: { value },
    textDescription, windSpeed: { value }, windDirection: { value },
    relativeHumidity: { value } } }]. *)
Module Obs.
Record quantity : Type :=
  { value : nullable number }.
Record props : Type :=
  { temperature : nullable quantity;
    textDescription : nullable string;
    windSpeed : nullable quantity;
    windDirection : nullable quantity;
    relativeHumidity : nullable quantity }.
Record data : Type :=
  { properties : nullable props }.
End Obs.

(** What [await axios.get(url)] gives: a response whose [data] is the
    parsed body, or a rejection (network error, status outside 2xx,
    unparsable body). *)
Inductive axios (D : Type) : Type :=
  | Resolved (data : nullable D)
  | Rejected (e : exn).
Arguments Resolved {D} data.
Arguments Rejected {D} e.

(** ** The view-model *)

Record Point : Type :=
  { x : number;
    y : number }.

Module Weather.
Record t : Type :=
  { temp : string;
    conditions : nullable string;
    windSpeed : nullable number;
    windDirection : nullable string;
    humidity : nullable number }.
End Weather.

(** The object passed to [setCalloutData]; a key the literal omits reads
    as [Undefined]. *)
Module Callout.
Record t : Type :=
  { stationName : nullable string;
    weather : nullable Weather.t;
    error : nullable string;
    loading : bool;
    position : Point }.
End Callout.

(** ** The unit conversions *)

Definition directions : list string :=
  ["N"; "NE"; "E"; "SE"; "S"; "SW"; "W"; "NW"]%string.

Definition degreesToCardinal (deg : nullable number) : nullable string :=
  match deg with
  | Def d => array_get directions (js_rem (Math_round (div d (of_Z 45))) (of_Z 8))
  | _ => Null
  end.

(** [props.windSpeed?.value != null ? Math.round(props.windSpeed.value * 2.237) : null] *)
Definition windSpeedMph (props : Obs.props) : nullable number :=
  match optchain (Obs.windSpeed props) Obs.value with
  | Def v => Def (Math_round (mul v lit_2_237))
  | _ => Null
  end.

Definition windDirectionCardinal (props : Obs.props) : nullable string :=
  degreesToCardinal (optchain (Obs.windDirection props) Obs.value).

(** [props.relativeHumidity?.value != null ? Math.round(props.relativeHumidity.value) : null] *)
Definition humidity (props : Obs.props) : nullable number :=
  match optchain (Obs.relativeHumidity props) Obs.value with
  | Def v => Def (Math_round v)
  | _ => Null
  end.

(** [c * 9/5 + 32] *)
Definition fahrenheit (c : number) : number :=
  add (div (mul c (of_Z 9)) (of_Z 5)) (of_Z 32).

(** ** The station filter *)

(** [/^K[A-Z]{3}$/] *)
Definition K_station : Regex.re :=
  Regex.Cat (Regex.Chr "K") (Regex.rep 3 (Regex.Range "A" "Z")).

(** The truth value of [id && /^K[A-Z]{3}$/.test(id)]: [null],
    [undefined] and the empty string are falsy. *)
Definition is_major (id : nullable string) : bool :=
  match id with
  | Def s =>
      match s with
      | EmptyString => false
      | _ => Regex.matches K_station s
      end
  | _ => false
  end.

(** ** The screen *)

Inductive variant : Type :=
  | Unfiltered   (* App.js: up to 500 stations, no filter *)
  | KFiltered.   (* the sibling: up to 2000 stations, K-stations only *)

Definition stations_url (v : variant) : string :=
  match v with
  | Unfiltered => "https://api.weather.gov/stations?limit=500"
  | KFiltered => "https://api.weather.gov/stations?limit=2000"
  end.

Definition MIN_CALLOUT_HEIGHT (v : variant) : number :=
  match v with
  | Unfiltered => of_Z 140
  | KFiltered => of_Z 120
  end.

Definition CALLOUT_WIDTH : number := of_Z 220.

(** A template literal prints [null] and [undefined] by name. *)
Definition template (id : nullable string) : string :=
  match id with
  | Def s => s
  | Null => "null"
  | Undefined => "undefined"
  end.

Definition observation_url (id : nullable string) : string :=
  ("https://api.weather.gov/stations/" ++ template id ++ "/observations/latest")%string.

(** [const [longitude, latitude] = c]: a [TypeError] when [c] is not
    iterable, [undefined] for a missing element. *)
Definition destructure2 {A} (c : nullable (list (nullable A))) : result (nullable A * nullable A) :=
  match c with
  | Def l => Ok (nth 0 l Undefined, nth 1 l Undefined)
  | _ => Throw (TypeError "Symbol(Symbol.iterator)")
  end.

(** What the handlers do to the outside, in the order they do it. *)
Inductive requester : Type :=
  | Directory
  | Task (tid : nat).

Inductive effect : Type :=
  | EGet (by_ : requester) (url : string)
  | EProject (tid : nat) (latitude longitude : nullable number)
  | ESetStations (v : nullable (list (nullable Stn.feature)))
  | ESetLoading (b : bool)
  | ESetCalloutData (by_ : option nat) (v : nullable Callout.t)
  | EConsoleError (message : string) (e : exn).

(** An invocation of [handleMarkerPress] parked at one of its two
    [await]s, with the variables it has bound so far. *)
Inductive task : Type :=
  | AwaitPoint (station : Stn.feature)
  | AwaitObservation (station : Stn.feature) (point : Point).

Record state : Type :=
  { stations : nullable (list (nullable Stn.feature));
    loading : bool;
    calloutData : nullable Callout.t;
    directory_pending : bool;
    tasks : gmap nat task;
    next_task : nat;
    trace : list effect }.

Definition emit (e : effect) (st : state) : state :=
  {| stations := stations st; loading := loading st; calloutData := calloutData st;
     directory_pending := directory_pending st; tasks := tasks st;
     next_task := next_task st; trace := trace st ++ [e] |}.

Definition setStations (v : nullable (list (nullable Stn.feature))) (st : state) : state :=
  emit (ESetStations v)
    {| stations := v; loading := loading st; calloutData := calloutData st;
       directory_pending := directory_pending st; tasks := tasks st;
       next_task := next_task st; trace := trace st |}.

Definition setLoading (b : bool) (st : state) : state :=
  emit (ESetLoading b)
    {| stations := stations st; loading := b; calloutData := calloutData st;
       directory_pending := directory_pending st; tasks := tasks st;
       next_task := next_task st; trace := trace st |}.

Definition setCalloutData (by_ : option nat) (v : nullable Callout.t) (st : state) : state :=
  emit (ESetCalloutData by_ v)
    {| stations := stations st; loading := loading st; calloutData := v;
       directory_pending := directory_pending st; tasks := tasks st;
       next_task := next_task st; trace := trace st |}.

Definition console_error (message : string) (e : exn) (st : state) : state :=
  emit (EConsoleError message e) st.

Definition set_tasks (f : gmap nat task -> gmap nat task) (st : state) : state :=
  {| stations := stations st; loading := loading st; calloutData := calloutData st;
     directory_pending := directory_pending st; tasks := f (tasks st);
     next_task := next_task st; trace := trace st |}.

(** The station filter's callback:
    [station => { const id = station.properties.stationIdentifier;
                  return id && /^K[A-Z]{3}$/.test(id); }] *)
Definition filter_callback (station : nullable Stn.feature) : result bool :=
  bind (get station "properties" Stn.properties) (fun p =>
  bind (get p "stationIdentifier" Stn.stationIdentifier) (fun id =>
  Ok (is_major id))).

(** [Array.prototype.filter] with a callback that may throw. *)
Fixpoint filter_array {A} (f : A -> result bool) (l : list A) : result (list A) :=
  match l with
  | [] => Ok []
  | a :: l' =>
      bind (f a) (fun keep =>
      bind (filter_array f l') (fun r =>
      Ok (if keep then a :: r else r)))
  end.

(** The [try] block of [fetchStations] / [fetchAndFilterStations] past
    its [await]: the value handed to [setStations]. *)
Definition stations_of_response (v : variant) (r : axios Stn.data)
  : result (nullable (list (nullable Stn.feature))) :=
  match r with
  | Rejected e => Throw e
  | Resolved d =>
      bind (get d "features" Stn.features) (fun fs =>
      match v with
      | Unfiltered => Ok fs
      | KFiltered =>
          bind (get fs "filter" (fun l => l)) (fun l =>
          bind (filter_array filter_callback l) (fun majorStations =>
          Ok (Def majorStations)))
      end)
  end.

(** [try { ... } catch (e) { console.error(...) } finally { setLoading(false) }] *)
Definition fetchStations_resume (v : variant) (r : axios Stn.data) (st : state) : state :=
  setLoading false
    match stations_of_response v r with
    | Ok s => setStations s st
    | Throw e => console_error "Failed to fetch station data:" e st
    end.

#[global] Instance result_mbind : MBind result := fun A B k r => bind r k.

(** [ToNumber] on a numeric field. *)
Definition to_number (v : nullable number) : number :=
  match v with
  | Def n => n
  | Null => S754_zero false
  | Undefined => S754_nan
  end.

Definition decimal (z : Z) : string :=
  NilZero.string_of_uint (N.to_uint (Z.to_N z)).

(** Whether [m * 2^e] reaches [10^21]. *)
Definition ge_1e21 (m : positive) (e : Z) : bool :=
  if (0 <=? e)%Z then (10 ^ 21 <=? Zpos m * 2 ^ e)%Z
  else (10 ^ 21 * 2 ^ (- e) <=? Zpos m)%Z.

Section Screen.

(** [Number::toString], the printer of the JavaScript runtime.  The
    code reaches it only through [toFixed], for magnitudes from [10^21]
    on. *)
Variable Number_toString : number -> string.

(** The variant of the screen. *)
Variable v : variant.

(** [x.toFixed(1)]: the sign, then the digits of the integer [n] nearest
    to [10 * |x|] (the larger one on a tie) with a point before the
    last. *)
Definition toFixed1 (x : number) : string :=
  match x with
  | S754_nan => "NaN"
  | S754_infinity s => if s then "-Infinity" else "Infinity"
  | S754_zero _ => "0.0"
  | S754_finite s m e =>
      let sign := if s then "-" else EmptyString in
      if ge_1e21 m e then sign ++ Number_toString (S754_finite false m e)
      else
        let n := round_half_up (Zpos m * 10) e in
        sign ++ decimal (n / 10) ++ "." ++ decimal (n mod 10)
  end%string.

(** [response.data && response.data.properties &&
     response.data.properties.temperature.value != null] *)
Definition has_temperature (d : nullable Obs.data) : result bool :=
  match d with
  | Def d' =>
      match Obs.properties d' with
      | Def p =>
          t ← get (Def p) "temperature" Obs.temperature;
          c ← get t "value" Obs.value;
          Ok (neq_null c)
      | _ => Ok false
      end
  | _ => Ok false
  end.

(** The [try] block of [handleMarkerPress] past [await axios.get]: the
    view-model it hands to [setCalloutData]. *)
Definition observation_callout (station : Stn.feature) (point : Point)
    (r : axios Obs.data) : result Callout.t :=
  match r with
  | Rejected e => Throw e
  | Resolved d =>
      ok ← has_temperature d;
      if ok : bool then
        props ← get d "properties" Obs.properties;
        windSpeedMph ← get props "windSpeed" windSpeedMph;
        windDirectionCardinal ← get props "windDirection" windDirectionCardinal;
        humidity ← get props "relativeHumidity" humidity;
        stationName ← get (Stn.properties station) "name" Stn.name;
        t ← get props "temperature" Obs.temperature;
        c ← get t "value" Obs.value;
        conditions ← get props "textDescription" Obs.textDescription;
        Ok {| Callout.stationName := stationName;
              Callout.weather :=
                Def {| Weather.temp := toFixed1 (fahrenheit (to_number c));
                       Weather.conditions := conditions;
                       Weather.windSpeed := windSpeedMph;
                       Weather.windDirection := windDirectionCardinal;
                       Weather.humidity := humidity |};
              Callout.error := Undefined;
              Callout.loading := false;
              Callout.position := point |}
      else
        stationName ← get (Stn.properties station) "name" Stn.name;
        Ok {| Callout.stationName := stationName;
              Callout.weather := Undefined;
              Callout.error := Def "No recent observation."%string;
              Callout.loading := false;
              Callout.position := point |}
  end.

(** The [catch] block of [handleMarkerPress]. *)
Definition observation_catch (tid : nat) (station : Stn.feature) (point : Point)
    (e : exn) (st : state) : state :=
  let st := console_error "Failed to fetch observation" e st in
  match get (Stn.properties station) "name" Stn.name with
  | Ok stationName =>
      setCalloutData (Some tid)
        (Def {| Callout.stationName := stationName;
                Callout.weather := Undefined;
                Callout.error := Def "Fetch failed."%string;
                Callout.loading := false;
                Callout.position := point |}) st
  | Throw _ => st
  end.

(** [handleMarkerPress] up to its first [await]: the coordinates are
    read and the projection is asked of the map.  An exception here
    rejects the promise of the handler, which nobody awaits. *)
Definition handleMarkerPress (station : Stn.feature) (st : state) : state :=
  match c ← get (Stn.geometry station) "coordinates" Stn.coordinates; destructure2 c with
  | Ok (longitude, latitude) =>
      let tid := next_task st in
      emit (EProject tid latitude longitude)
        {| stations := stations st; loading := loading st;
           calloutData := calloutData st;
           directory_pending := directory_pending st;
           tasks := <[tid := AwaitPoint station]> (tasks st);
           next_task := S tid; trace := trace st |}
  | Throw _ => st
  end.

(** [handleMarkerPress] from the point the projection gives to the
    second [await]. *)
Definition handleMarkerPress_projected (tid : nat) (station : Stn.feature)
    (r : result Point) (st : state) : state :=
  let st := set_tasks (delete tid) st in
  match r with
  | Throw _ => st
  | Ok point =>
      match get (Stn.properties station) "name" Stn.name with
      | Throw _ => st
      | Ok stationName =>
          let st :=
            setCalloutData (Some tid)
              (Def {| Callout.stationName := stationName;
                      Callout.weather := Undefined;
                      Callout.error := Undefined;
                      Callout.loading := true;
                      Callout.position := point |}) st in
          match get (Stn.properties station) "stationIdentifier" Stn.stationIdentifier with
          | Ok id =>
              emit (EGet (Task tid) (observation_url id))
                (set_tasks <[tid := AwaitObservation station point]> st)
          | Throw e => observation_catch tid station point e st
          end
      end
  end.

(** [handleMarkerPress] from the response of the observation endpoint to
    its end. *)
Definition handleMarkerPress_observed (tid : nat) (station : Stn.feature)
    (point : Point) (r : axios Obs.data) (st : state) : state :=
  let st := set_tasks (delete tid) st in
  match observation_callout station point r with
  | Ok c => setCalloutData (Some tid) (Def c) st
  | Throw e => observation_catch tid station point e st
  end.

(** What the component renders. *)
Record marker : Type :=
  { key : nullable string;
    coordinate : nullable number * nullable number;   (* latitude, longitude *)
    pressed : Stn.feature }.                            (* the station [onPress] passes on *)

Record callout_view : Type :=
  { left : number;
    top : number;
    content : Callout.t }.

Inductive screen : Type :=
  | LoadingScreen
  | MapScreen (markers : list marker) (callout : nullable callout_view).

Definition render_marker (station : nullable Stn.feature) : result marker :=
  g ← get station "geometry" Stn.geometry;
  c ← get g "coordinates" Stn.coordinates;
  '(longitude, latitude) ← destructure2 c;
  p ← get station "properties" Stn.properties;
  id ← get p "stationIdentifier" Stn.stationIdentifier;
  match station with
  | Def f => Ok {| key := id; coordinate := (latitude, longitude); pressed := f |}
  | _ => Throw (TypeError "geometry")
  end.

Fixpoint map_array {A B} (f : A -> result B) (l : list A) : result (list B) :=
  match l with
  | [] => Ok []
  | a :: l' => b ← f a; r ← map_array f l'; Ok (b :: r)
  end.

Definition render_callout (c : nullable Callout.t) : nullable callout_view :=
  match c with
  | Def d =>
      Def {| left := SFsub prec emax (x (Callout.position d)) (div CALLOUT_WIDTH (of_Z 2));
             top := SFsub prec emax
                      (SFsub prec emax (y (Callout.position d)) (MIN_CALLOUT_HEIGHT v))
                      (of_Z 45);
             content := d |}
  | Null => Null
  | Undefined => Undefined
  end.

Definition render (st : state) : result screen :=
  if loading st then Ok LoadingScreen
  else
    l ← get (stations st) "map" (fun l => l);
    markers ← map_array render_marker l;
    Ok (MapScreen markers (render_callout (calloutData st))).

(** ** Events *)

Inductive event : Type :=
  | StationsResponse (r : axios Stn.data)   (* the directory request settles *)
  | MarkerPress (i : nat)                   (* the i-th marker is tapped *)
  | Projected (tid : nat) (r : result Point)    (* [pointForCoordinate] settles *)
  | Observed (tid : nat) (r : axios Obs.data)   (* the observation request settles *)
  | MapPress.                                (* the map background is tapped *)

(** The state after the first render and its effect, which starts the
    directory request. *)
Definition init : state :=
  {| stations := Def []; loading := true; calloutData := Null;
     directory_pending := true; tasks := ∅; next_task := 0;
     trace := [EGet Directory (stations_url v)] |}.

Definition step (st : state) (ev : event) : state :=
  match ev with
  | StationsResponse r =>
      if directory_pending st then
        fetchStations_resume v r
          {| stations := stations st; loading := loading st;
             calloutData := calloutData st; directory_pending := false;
             tasks := tasks st; next_task := next_task st; trace := trace st |}
      else st
  | MarkerPress i =>
      match render st with
      | Ok (MapScreen markers _) =>
          match markers !! i with
          | Some mk => handleMarkerPress (pressed mk) st
          | None => st
          end
      | _ => st
      end
  | Projected tid r =>
      match tasks st !! tid with
      | Some (AwaitPoint station) => handleMarkerPress_projected tid station r st
      | _ => st
      end
  | Observed tid r =>
      match tasks st !! tid with
      | Some (AwaitObservation station point) =>
          handleMarkerPress_observed tid station point r st
      | _ => st
      end
  | MapPress =>
      match render st with
      | Ok (MapScreen _ _) => setCalloutData None Null st
      | _ => st
      end
  end.

Definition run (st : state) (evs : list event) : state := fold_left step evs st.

End Screen.

(** ** The specification's own wording of two functions *)

(** "[round(deg / 45) mod 8] into one of 8 ordered labels": the label
    the specification assigns to the rounded quotient [r], with the
    mathematical modulo. *)
Definition cardinal_label (r : Z) : string :=
  nth (Z.to_nat (r mod 8)) directions EmptyString.

Definition is_upper (c : ascii) : bool :=
  (65 <=? nat_of_ascii c)%nat && (nat_of_ascii c <=? 90)%nat.

(** "A non-null 4-character string of K followed by three uppercase
    letters". *)
Definition four_letter_K (id : nullable string) : bool :=
  match id with
  | Def (String k (String a (String b (String c EmptyString)))) =>
      Ascii.eqb k "K" && is_upper a && is_upper b && is_upper c
  | _ => false
  end.

(** A finite number that is not negative (the zero of either sign
    included): the domain of a compass bearing. *)
Definition nonneg_finite (x : number) : bool :=
  match x with
  | S754_zero _ => true
  | S754_finite false m e => bounded prec emax m e
  | _ => false
  end.

(** [station.properties.stationIdentifier] without the exceptions. *)
Definition identifier (station : nullable Stn.feature) : nullable string :=
  optchain (optchain station Stn.properties) Stn.stationIdentifier.

Definition has_properties (station : nullable Stn.feature) : Prop :=
  exists f p, station = Def f /\ Stn.properties f = Def p.

(** ** Sample data *)

Definition sample_station (id nm : string) (lon lat : Z) : Stn.feature :=
  {| Stn.properties := Def {| Stn.stationIdentifier := Def id; Stn.name := Def nm |};
     Stn.geometry := Def {| Stn.coordinates := Def [Def (of_Z lon); Def (of_Z lat)] |} |}.

Definition KJFK : Stn.feature := sample_station "KJFK" "New York, Kennedy International Airport" (-74) 41.
Definition KDEN : Stn.feature := sample_station "KDEN" "Denver International Airport" (-105) 40.
Definition PHNL : Stn.feature := sample_station "PHNL" "Honolulu International Airport" (-158) 21.

Definition sample_directory : axios Stn.data :=
  Resolved (Def {| Stn.features := Def [Def KJFK; Def PHNL; Def KDEN] |}).

Definition quantity (z : Z) : nullable Obs.quantity :=
  Def {| Obs.value := Def (of_Z z) |}.

(** An observation with every measurement present: 20 degrees Celsius,
    wind of 10 m/s from 270 degrees, 40 percent humidity. *)
Definition sample_props : Obs.props :=
  {| Obs.temperature := quantity 20;
     Obs.textDescription := Def "Clear"%string;
     Obs.windSpeed := quantity 10;
     Obs.windDirection := quantity 270;
     Obs.relativeHumidity := quantity 40 |}.

Definition with_temperature (t : nullable Obs.quantity) (p : Obs.props) : Obs.props :=
  {| Obs.temperature := t;
     Obs.textDescription := Obs.textDescription p;
     Obs.windSpeed := Obs.windSpeed p;
     Obs.windDirection := Obs.windDirection p;
     Obs.relativeHumidity := Obs.relativeHumidity p |}.

Definition with_windDirection (d : nullable Obs.quantity) (p : Obs.props) : Obs.props :=
  {| Obs.temperature := Obs.temperature p;
     Obs.textDescription := Obs.textDescription p;
     Obs.windSpeed := Obs.windSpeed p;
     Obs.windDirection := d;
     Obs.relativeHumidity := Obs.relativeHumidity p |}.

Definition observation (p : Obs.props) : axios Obs.data :=
  Resolved (Def {| Obs.properties := Def p |}).

Definition sample_point (a b : Z) : Point := {| x := of_Z a; y := of_Z b |}.

(** A stand-in for the printer of the runtime. *)
Definition sample_toString (n : number) : string := "1e+21".

(** ** Reading a trace *)

(** The projections asked for the task [tid]. *)
Definition is_project (tid : nat) (e : effect) : bool :=
  match e with
  | EProject t _ _ => Nat.eqb t tid
  | _ => false
  end.

Definition projections (tid : nat) (tr : list effect) : nat :=
  List.length (List.filter (is_project tid) tr).

(** The view-models the task [tid] has published. *)
Definition published_by (tid : nat) (e : effect) : list Callout.t :=
  match e with
  | ESetCalloutData (Some t) (Def c) => if Nat.eqb t tid then [c] else []
  | _ => []
  end.

Definition published (tid : nat) (tr : list effect) : list Callout.t :=
  flat_map (published_by tid) tr.

(** Whether an effect belongs to the task [tid]. *)
Definition of_task (tid : nat) (e : effect) : bool :=
  match e with
  | EProject t _ _ => Nat.eqb t tid
  | EGet (Task t) _ => Nat.eqb t tid
  | ESetCalloutData (Some t) _ => Nat.eqb t tid
  | _ => false
  end.

(** An effect of no task. *)
Definition neutral (e : effect) : bool :=
  match e with
  | EProject _ _ _ => false
  | EGet (Task _) _ => false
  | ESetCalloutData (Some _) _ => false
  | _ => true
  end.

(** [station.properties.name] without the exception. *)
Definition station_name (f : Stn.feature) : nullable string :=
  optchain (Stn.properties f) Stn.name.

(** The four view-models of a selection. *)
Inductive status : Type :=
  | Loading
  | Ready
  | NotAvailable
  | FetchFailed
  | Other.

Definition classify (c : Callout.t) : status :=
  match Callout.loading c, Callout.weather c, Callout.error c with
  | true, _, _ => Loading
  | false, Def _, _ => Ready
  | false, _, Def msg =>
      if String.eqb msg "No recent observation." then NotAvailable
      else if String.eqb msg "Fetch failed." then FetchFailed
      else Other
  | false, _, _ => Other
  end.

(** The view-model published when the projection has settled. *)
Definition loading_callout (sp : Stn.props) (p : Point) : Callout.t :=
  {| Callout.stationName := Stn.name sp;
     Callout.weather := Undefined;
     Callout.error := Undefined;
     Callout.loading := true;
     Callout.position := p |}.

(** The event, if any, by which the request of task [tid] settles. *)
Definition settle (tid : nat) (r : option (axios Obs.data)) : list event :=
  match r with
  | Some r' => [Observed tid r']
  | None => []
  end.

(** An effect the task [tid] may add once its anchor is [p]: an effect
    of no task, or one of the view-models of the selection, at [p]. *)
Definition own (tid : nat) (p : Point) (e : effect) : Prop :=
  neutral e = true \/
  exists c, e = ESetCalloutData (Some tid) (Def c) /\ Callout.position c = p /\
            classify c <> Other.


(** Every observation request of a trace comes after the one projection
    of its task and after a Loading view-model of that task. *)
Definition fetch_after_anchor (tr : list effect) : Prop :=
  forall tid pre url post,
    tr = pre ++ EGet (Task tid) url :: post ->
    projections tid pre = 1 /\
    exists c, In c (published tid pre) /\ classify c = Loading.

(** ** What one step may do to the tasks and the trace *)

Inductive shape (st st' : state) : Prop :=
  | shape_quiet (new : list effect) :
      (forall t k, tasks st' !! t = Some k -> tasks st !! t = Some k) ->
      next_task st' = next_task st ->
      trace st' = trace st ++ new ->
      Forall (fun e => neutral e = true) new ->
      shape st st'
  | shape_press (f : Stn.feature) (latitude longitude : nullable number) :
      tasks st' = <[next_task st := AwaitPoint f]> (tasks st) ->
      next_task st' = S (next_task st) ->
      trace st' = trace st ++ [EProject (next_task st) latitude longitude] ->
      shape st st'
  | shape_load (tid : nat) (f : Stn.feature) (p : Point) (c : Callout.t) (url : string) :
      tasks st !! tid = Some (AwaitPoint f) ->
      tasks st' = <[tid := AwaitObservation f p]> (delete tid (tasks st)) ->
      next_task st' = next_task st ->
      trace st' = trace st ++ [ESetCalloutData (Some tid) (Def c); EGet (Task tid) url] ->
      Callout.position c = p ->
      classify c = Loading ->
      shape st st'
  | shape_end (tid : nat) (k : task) (p : Point) (new : list effect) :
      tasks st !! tid = Some k ->
      (forall f p', k = AwaitObservation f p' -> p' = p) ->
      tasks st' = delete tid (tasks st) ->
      next_task st' = next_task st ->
      trace st' = trace st ++ new ->
      Forall (own tid p) new ->
      shape st st'.

(** The invariant of the screen: task identifiers are fresh, every
    started task has asked for exactly one projection, a task waiting for
    its point has done nothing else, and the view-models of a task all
    sit at the point the task holds. *)
Record Inv (st : state) : Prop :=
  { inv_fresh_task : forall tid, next_task st <= tid -> tasks st !! tid = None;
    inv_fresh_trace : forall tid e,
      next_task st <= tid -> In e (trace st) -> of_task tid e = false;
    inv_once : forall tid, tid < next_task st -> projections tid (trace st) = 1;
    inv_await_point : forall tid f e,
      tasks st !! tid = Some (AwaitPoint f) -> In e (trace st) ->
      of_task tid e = true -> is_project tid e = true;
    inv_await_observation : forall tid f p c,
      tasks st !! tid = Some (AwaitObservation f p) ->
      In c (published tid (trace st)) -> Callout.position c = p;
    inv_same_anchor : forall tid c c',
      In c (published tid (trace st)) -> In c' (published tid (trace st)) ->
      Callout.position c = Callout.position c';
    inv_status : forall tid c,
      In c (published tid (trace st)) -> classify c <> Other;
    inv_order : fetch_after_anchor (trace st) }.

(** ** Reference functions for the conversions *)

(** The label of the 45-degree sector around each direction, for a whole
    bearing [d]: N up to 22 degrees, NE from 23 to 67, and so on round
    the compass. *)
Definition sector_label (d : Z) : string :=
  nth (Z.to_nat (((d + 22) / 45) mod 8)) directions EmptyString.

(** A number of tenths written with one decimal digit. *)
Definition tenths (t : Z) : string :=
  ((if (t <? 0)%Z then "-" else EmptyString)
   ++ decimal (Z.abs t / 10) ++ "." ++ decimal (Z.abs t mod 10))%string.

(** The whole numbers from [lo], [n] of them. *)
Definition Zrange (lo : Z) (n : nat) : list Z :=
  List.map (fun k => (lo + Z.of_nat k)%Z) (seq 0 n).

Definition with_humidity (h : nullable Obs.quantity) (p : Obs.props) : Obs.props :=
  {| Obs.temperature := Obs.temperature p;
     Obs.textDescription := Obs.textDescription p;
     Obs.windSpeed := Obs.windSpeed p;
     Obs.windDirection := Obs.windDirection p;
     Obs.relativeHumidity := h |}.

Definition with_windSpeed (s : nullable Obs.quantity) (p : Obs.props) : Obs.props :=
  {| Obs.temperature := Obs.temperature p;
     Obs.textDescription := Obs.textDescription p;
     Obs.windSpeed := s;
     Obs.windDirection := Obs.windDirection p;
     Obs.relativeHumidity := Obs.relativeHumidity p |}.

(** ** Reading the directory load and the outcome of a request *)

Definition is_response (ev : event) : bool :=
  match ev with
  | StationsResponse _ => true
  | _ => false
  end.

(** An effect of the directory load: its request and the two setters
    only [fetchStations] calls. *)
Definition of_directory (e : effect) : bool :=
  match e with
  | EGet Directory _ => true
  | ESetStations _ => true
  | ESetLoading _ => true
  | _ => false
  end.

(** The station a parked task holds. *)
Definition station_of (k : task) : Stn.feature :=
  match k with
  | AwaitPoint station => station
  | AwaitObservation station _ => station
  end.

(** The view-model a settled observation request leads to, read off the
    response alone. *)
Definition outcome (r : axios Obs.data) : status :=
  match r with
  | Rejected _ => FetchFailed
  | Resolved d =>
      match optchain d Obs.properties with
      | Def p =>
          match Obs.temperature p with
          | Def q => if neq_null (Obs.value q) then Ready else NotAvailable
          | _ => FetchFailed
          end
      | _ => NotAvailable
      end
  end.

(** The invariant of the filtering variant: every station of the
    collection, every station a task holds and every observation URL on
    the trace carries a four-letter K identifier. *)
Record Kinv (st : state) : Prop :=
  { k_stations : exists l, stations st = Def l /\
                           Forall (fun s => four_letter_K (identifier s) = true) l;
    k_tasks : forall tid k, tasks st !! tid = Some k ->
                four_letter_K (identifier (Def (station_of k))) = true;
    k_urls : forall tid url, In (EGet (Task tid) url) (trace st) ->
               exists id, four_letter_K (Def id) = true /\ url = observation_url (Def id) }.

(** ** The body of the callout *)

(** The children of a [<Text>]: the literal text of the JSX and the
    values of the expressions between braces. *)
Inductive child : Type :=
  | Lit (s : string)
  | Str (s : nullable string)
  | Num (n : number).

(** What the JSX of the callout evaluates to.  React renders nothing
    for [false], [null] and [undefined]; a string left by [&&] stays a
    bare string. *)
#[warnings="-register-all"] Inductive element : Type :=
  | Text (children : list child)
  | ActivityIndicator
  | View (children : list element)
  | Nothing
  | Bare (s : string).

(** The truthiness of a string-valued field. *)
Definition truthy (s : nullable string) : bool :=
  match s with
  | Def s' => negb (String.eqb s' EmptyString)
  | _ => false
  end.

(** [calloutData.weather && (<View> ... </View>)], for a weather object.
    The sibling has no Conditions line. *)
Definition weather_block (v : variant) (w : Weather.t) : element :=
  View
    ([Text [Lit "Temp: "; Str (Def (Weather.temp w)); Lit " °F"]]
     ++ match v with
        | Unfiltered =>
            [if truthy (Weather.conditions w)
             then Text [Lit "Conditions: "; Str (Weather.conditions w)]
             else Text [Lit "Conditions: Not available"]]
        | KFiltered => []
        end
     ++ [match Weather.windSpeed w with
         | Def n =>
             Text [Lit "Wind: "; Num n; Lit " mph from the "; Str (Weather.windDirection w)]
         | _ => Nothing
         end;
         match Weather.humidity w with
         | Def n => Text [Lit "Humidity: "; Num n; Lit "%"]
         | _ => Nothing
         end]).

(** The children of the callout's [<View>]: the title, then
    [loading && ...], [error && ...] and [weather && ...]. *)
Definition callout_children (v : variant) (c : Callout.t) : list element :=
  [Text [Str (Callout.stationName c)];
   if Callout.loading c then ActivityIndicator else Nothing;
   match Callout.error c with
   | Def s => if String.eqb s EmptyString then Bare s else Text [Str (Def s)]
   | _ => Nothing
   end;
   match Callout.weather c with
   | Def w => weather_block v w
   | _ => Nothing
   end].

(** The four ways the handler fills a view-model. *)
Definition presentable (c : Callout.t) : Prop :=
  (Callout.loading c = true /\ Callout.weather c = Undefined /\
   Callout.error c = Undefined) \/
  (Callout.loading c = false /\ (exists w, Callout.weather c = Def w) /\
   Callout.error c = Undefined) \/
  (Callout.loading c = false /\ Callout.weather c = Undefined /\
   (Callout.error c = Def "No recent observation."%string \/
    Callout.error c = Def "Fetch failed."%string)).

Definition shown (st : state) : Prop :=
  calloutData st = Null \/ exists c, calloutData st = Def c /\ presentable c.

(** ** What a selection publishes *)

Definition final (c : Callout.t) : Prop :=
  classify c = Ready \/ classify c = NotAvailable \/ classify c = FetchFailed.

(** The view-models of each task, by the point the task has reached:
    none before its projection settles, the Loading one while its request
    is in flight, and either none or the Loading one and one result when
    it is over. *)
Record Pub (st : state) : Prop :=
  { pub_fresh : forall tid, next_task st <= tid ->
      tasks st !! tid = None /\ published tid (trace st) = [];
    pub_point : forall tid f,
      tasks st !! tid = Some (AwaitPoint f) -> published tid (trace st) = [];
    pub_observation : forall tid f p,
      tasks st !! tid = Some (AwaitObservation f p) ->
      (exists sp, Stn.properties f = Def sp) /\
      exists c, published tid (trace st) = [c] /\ classify c = Loading;
    pub_done : forall tid,
      tasks st !! tid = None ->
      published tid (trace st) = [] \/
      exists c c', published tid (trace st) = [c; c'] /\ classify c = Loading /\ final c' }.

(** ** The events of one selection *)

(** Whether an event settles one of the two [await]s of the task
    [tid]. *)
Definition addressed (tid : nat) (ev : event) : bool :=
  match ev with
  | Projected t _ => Nat.eqb t tid
  | Observed t _ => Nat.eqb t tid
  | _ => false
  end.

(** * Properties *)

(** Runs the error monad of the handlers in the goal and the hypotheses. *)
Ltac unbind := cbn [mbind result_mbind bind get] in *.

(** ** Facts about numbers *)

Section NumberFacts.
Local Open Scope Z_scope.

Lemma cond_Zopp_mul (s : bool) (a b : Z) : cond_Zopp s a * b = cond_Zopp s (a * b).
Proof. destruct s; simpl; lia. Qed.

Lemma digits2_pos_size (p : positive) : digits2_pos p = Pos.size p.
Proof. induction p as [p IH | p IH |]; simpl; congruence. Qed.

Lemma digits2_pos_log2 (p : positive) : Zpos (digits2_pos p) = Z.log2 (Zpos p) + 1.
Proof.
  rewrite digits2_pos_size.
  destruct p as [p | p |]; simpl; lia.
Qed.

Lemma pow2_pos (k : Z) : 0 <= k -> 0 < 2 ^ k.
Proof. intros Hk. apply Z.pow_pos_nonneg; lia. Qed.

(** The canonical finite number of exponent [e'] that denotes the
    positive integer [a]. *)
Lemma to_Z_canonical (s : bool) (a e' : Z) :
  0 < a -> e' <= 0 ->
  to_Z (S754_finite s (Z.to_pos (a * 2 ^ (- e'))) e') = Some (cond_Zopp s a).
Proof.
  intros Ha He. unfold to_Z.
  assert (Hp : 0 < 2 ^ (- e')) by (apply pow2_pos; lia).
  assert (Hm : 0 < a * 2 ^ (- e')) by nia.
  rewrite Z2Pos.id by exact Hm.
  destruct (Z.leb_spec 0 e') as [H0 | H0].
  - assert (e' = 0) by lia. subst e'. simpl. f_equal. destruct s; simpl; lia.
  - rewrite Z.mod_mul by lia. simpl. rewrite Z.div_mul by lia. reflexivity.
Qed.

(** [normalize] on a mantissa and exponent that denote the integer [a],
    below [2^53]. *)
Lemma normalize_integer (s : bool) (m : positive) (e a : Z) :
  0 < a -> a < 2 ^ 53 ->
  (0 <= e /\ a = Zpos m * 2 ^ e) \/ (e < 0 /\ Zpos m = a * 2 ^ (- e)) ->
  exists e', e' <= 0 /\ normalize s m e = S754_finite s (Z.to_pos (a * 2 ^ (- e'))) e'.
Proof.
  intros Ha Hlt Hval.
  assert (Hlog : Z.log2 a < 53) by (apply Z.log2_lt_pow2; assumption).
  assert (Hdig : Zpos (digits2_pos m) + e = Z.log2 a + 1).
  { rewrite digits2_pos_log2. destruct Hval as [[He ->] | [He Hm]].
    - rewrite Z.log2_mul_pow2 by lia. lia.
    - rewrite Hm, Z.log2_mul_pow2 by lia. lia. }
  unfold normalize. rewrite Hdig.
  set (e' := fexp prec emax (Z.log2 a + 1)).
  assert (He' : e' <= 0).
  { unfold e', fexp, SpecFloat.emin, prec, emax. lia. }
  exists e'. split; [exact He' |].
  assert (Hp : 0 < 2 ^ (- e')) by (apply pow2_pos; lia).
  assert (Hpos : 0 < a * 2 ^ (- e')) by nia.
  destruct (Z.leb_spec e' e) as [Hle | Hgt].
  - assert (Heq : Zpos m * 2 ^ (e - e') = a * 2 ^ (- e')).
    { destruct Hval as [[He ->] | [He Hm]].
      - replace (e - e') with (e + - e') by lia. rewrite Z.pow_add_r by lia. lia.
      - rewrite Hm. replace (- e') with (- e + (e - e')) by lia.
        rewrite (Z.pow_add_r 2 (- e)) by lia. lia. }
    rewrite Heq. destruct (a * 2 ^ (- e')) as [| p | p] eqn:E; try lia. reflexivity.
  - destruct Hval as [[He _] | [He Hm]]; [lia |].
    assert (Heq : Zpos m / 2 ^ (e' - e) = a * 2 ^ (- e')).
    { rewrite Hm. replace (- e) with (- e' + (e' - e)) by lia.
      rewrite Z.pow_add_r by lia. rewrite Z.mul_assoc, Z.div_mul; [reflexivity |].
      assert (0 < 2 ^ (e' - e)) by (apply pow2_pos; lia). lia. }
    rewrite Heq. destruct (a * 2 ^ (- e')) as [| p | p] eqn:E; try lia. reflexivity.
Qed.

(** [of_dyadic] on a multiple [r * 2^k] of a power of two, for a small
    integer [r], denotes [r]. *)
Lemma to_Z_of_dyadic (s : bool) (r k : Z) :
  0 <= k -> Z.abs r < 2 ^ 53 ->
  to_Z (of_dyadic s (r * 2 ^ k) (- k)) = Some r.
Proof.
  intros Hk Hr.
  assert (Hp : 0 < 2 ^ k) by (apply pow2_pos; lia).
  unfold of_dyadic.
  destruct (r * 2 ^ k) as [| p | p] eqn:E.
  - simpl. f_equal. nia.
  - assert (Hr0 : 0 < r) by nia.
    destruct (normalize_integer false p (- k) r) as (e' & He' & ->); [lia | lia | |].
    + destruct (Z.eq_dec k 0) as [-> | Hk0].
      * left. split; [lia |]. simpl in *. lia.
      * right. split; [lia |]. rewrite Z.opp_involutive. lia.
    + rewrite to_Z_canonical by lia. reflexivity.
  - assert (Hr0 : 0 < - r) by nia.
    destruct (normalize_integer true p (- k) (- r)) as (e' & He' & ->); [lia | lia | |].
    + destruct (Z.eq_dec k 0) as [-> | Hk0].
      * left. split; [lia |]. simpl in *. lia.
      * right. split; [lia |]. rewrite Z.opp_involutive. lia.
    + rewrite to_Z_canonical by lia. simpl. f_equal. lia.
Qed.

Lemma of_Z_8 : of_Z 8 = S754_finite false 4503599627370496 (-49).
Proof. reflexivity. Qed.

(** The integer a finite number denotes, scaled to a common exponent. *)
Lemma to_Z_scaled (s : bool) (m : positive) (e z k : Z) :
  to_Z (S754_finite s m e) = Some z -> 0 <= k -> 0 <= e + k ->
  cond_Zopp s (Zpos m) * 2 ^ (e + k) = z * 2 ^ k.
Proof.
  unfold to_Z. intros Hz Hk Hek.
  destruct (Z.leb_spec 0 e) as [He | He].
  - injection Hz as <-. rewrite Z.pow_add_r by lia. lia.
  - destruct (Z.eqb_spec (Zpos m mod 2 ^ (- e)) 0) as [Hmod | Hmod]; [| discriminate].
    injection Hz as <-.
    assert (Hp : 0 < 2 ^ (- e)) by (apply pow2_pos; lia).
    assert (Hm : Zpos m = Zpos m / 2 ^ (- e) * 2 ^ (- e)).
    { rewrite (Z.div_mod (Zpos m) (2 ^ (- e))) at 1 by lia. lia. }
    rewrite !cond_Zopp_mul. f_equal.
    rewrite Hm at 1. replace k with (- e + (e + k)) at 2 by lia.
    rewrite (Z.pow_add_r 2 (- e)) by lia. lia.
Qed.

(** [r % 8] on a number that denotes the integer [z] denotes the
    remainder of the truncating division of [z] by 8. *)
Lemma js_rem_8 (r : number) (z : Z) :
  to_Z r = Some z -> to_Z (js_rem r (of_Z 8)) = Some (Z.rem z 8).
Proof.
  intros Hz. rewrite of_Z_8.
  destruct r as [s | s | | s m e]; try discriminate.
  - simpl in *. injection Hz as <-. reflexivity.
  - unfold js_rem.
    set (e0 := Z.min e (-49)).
    assert (He0 : e0 <= -49 /\ e0 <= e) by (unfold e0; lia).
    pose proof (to_Z_scaled s m e z (- e0) Hz) as HN.
    replace (e + - e0) with (e - e0) in HN by lia.
    rewrite HN by lia.
    assert (HD : 4503599627370496 * 2 ^ (-49 - e0) = 8 * 2 ^ (- e0)).
    { replace (- e0) with (49 + (-49 - e0)) by lia.
      rewrite (Z.pow_add_r 2 49) by lia. lia. }
    rewrite HD.
    assert (Hp : 0 < 2 ^ (- e0)) by (apply pow2_pos; lia).
    rewrite Z.mul_rem_distr_r by lia.
    replace e0 with (- (- e0)) at 2 by lia.
    apply to_Z_of_dyadic; [lia |].
    pose proof (Z.rem_bound_abs z 8 ltac:(lia)). lia.
Qed.


(** [Math.round] gives the integer nearest to its argument, the larger
    one on a tie: for a double [x = (-1)^s * m * 2^e] with a fractional
    part, the result denotes the [z] with [z - 1/2 <= x < z + 1/2]. *)
Lemma Math_round_nearest (s : bool) (m : positive) (e : Z) :
  e < 0 -> Zpos m < 2 ^ 53 ->
  exists z, to_Z (Math_round (S754_finite s m e)) = Some z /\
            (2 * z - 1) * 2 ^ (- e) <= 2 * cond_Zopp s (Zpos m) < (2 * z + 1) * 2 ^ (- e).
Proof.
  intros He Hm. unfold Math_round.
  destruct (Z.leb_spec 0 e) as [H | _]; [lia |].
  set (x := cond_Zopp s (Zpos m)).
  exists (round_half_up x e).
  assert (Hp : 0 < 2 ^ (- e - 1)) by (apply pow2_pos; lia).
  assert (H2 : 2 ^ (- e) = 2 * 2 ^ (- e - 1)).
  { replace (- e) with (1 + (- e - 1)) at 1 by lia. rewrite Z.pow_add_r by lia. lia. }
  assert (Hx : Z.abs x = Zpos m) by (unfold x; destruct s; simpl; lia).
  assert (Hz : round_half_up x e = (x + 2 ^ (- e - 1)) / 2 ^ (- e)).
  { unfold round_half_up. destruct (Z.leb_spec 0 e); [lia | reflexivity]. }
  pose proof (Z.div_mod (x + 2 ^ (- e - 1)) (2 ^ (- e)) ltac:(lia)) as Hdiv.
  pose proof (Z.mod_pos_bound (x + 2 ^ (- e - 1)) (2 ^ (- e)) ltac:(lia)) as Hmod.
  rewrite <- Hz in Hdiv.
  split.
  - replace (round_half_up x e) with (round_half_up x e * 2 ^ 0) at 1 by (simpl; lia).
    change 0 with (- 0) at 2. apply to_Z_of_dyadic; [lia |].
    assert (Z.abs (round_half_up x e) <= Z.abs x); [| lia].
    rewrite Hx. nia.
  - nia.
Qed.

(** *** The division by 45 *)

Lemma shr_1_m (mrs : shr_record) :
  0 <= shr_m mrs -> shr_m (shr_1 mrs) = shr_m mrs / 2.
Proof.
  destruct mrs as [m r s]. cbn [shr_m]. intros Hm.
  destruct m as [| p | p]; [reflexivity | | lia].
  destruct p as [p | p |]; cbn [shr_1 shr_m].
  - apply (Z.div_unique (Zpos p~1) 2 (Zpos p) 1); lia.
  - apply (Z.div_unique (Zpos p~0) 2 (Zpos p) 0); lia.
  - reflexivity.
Qed.

Lemma iter_pos_shr_1 (n : positive) (mrs : shr_record) :
  0 <= shr_m mrs -> shr_m (SpecFloat.iter_pos shr_1 n mrs) = shr_m mrs / 2 ^ Zpos n.
Proof.
  revert mrs. induction n as [n IH | n IH |]; intros mrs Hm; cbn [SpecFloat.iter_pos].
  - assert (H1 : 0 <= shr_m (shr_1 mrs)) by (rewrite shr_1_m by lia; apply Z.div_pos; lia).
    assert (Hp : 0 < 2 ^ Zpos n) by (apply pow2_pos; lia).
    assert (H2 : 0 <= shr_m (SpecFloat.iter_pos shr_1 n (shr_1 mrs)))
      by (rewrite IH by lia; apply Z.div_pos; lia).
    rewrite IH, IH, shr_1_m by lia.
    rewrite !Z.div_div by lia. f_equal.
    assert (E : 2 ^ Zpos n~1 = 2 * (2 ^ Zpos n * 2 ^ Zpos n)).
    { rewrite <- Z.pow_add_r, <- Z.pow_succ_r by lia. f_equal. lia. }
    lia.
  - assert (Hp : 0 < 2 ^ Zpos n) by (apply pow2_pos; lia).
    assert (H2 : 0 <= shr_m (SpecFloat.iter_pos shr_1 n mrs))
      by (rewrite IH by lia; apply Z.div_pos; lia).
    rewrite IH, IH by lia.
    rewrite !Z.div_div by lia. f_equal.
    rewrite <- Z.pow_add_r by lia. f_equal. lia.
  - rewrite shr_1_m by lia. reflexivity.
Qed.

(** The right shift of the rounding procedure divides the mantissa by a
    power of two and raises the exponent by as much. *)
Lemma shr_spec (mrs : shr_record) (e n : Z) :
  0 <= shr_m mrs ->
  shr_m (fst (shr mrs e n)) = shr_m mrs / 2 ^ Z.max n 0 /\
  snd (shr mrs e n) = e + Z.max n 0.
Proof.
  intros Hm. destruct n as [| p | p]; cbn [shr fst snd].
  - rewrite Z.div_1_r. split; [reflexivity | cbn; lia].
  - rewrite iter_pos_shr_1 by lia. split; f_equal; lia.
  - replace (Z.max (Zneg p) 0) with 0 by lia.
    rewrite Z.div_1_r. split; [reflexivity | lia].
Qed.

Lemma shr_record_of_loc_m (m : Z) (l : location) : shr_m (shr_record_of_loc m l) = m.
Proof. destruct l as [| []]; reflexivity. Qed.

Lemma shr_fexp_spec (m e : Z) (l : location) :
  0 <= m ->
  shr_m (fst (shr_fexp prec emax m e l))
    = m / 2 ^ Z.max (fexp prec emax (Zdigits2 m + e) - e) 0 /\
  snd (shr_fexp prec emax m e l) = e + Z.max (fexp prec emax (Zdigits2 m + e) - e) 0.
Proof.
  intros Hm. unfold shr_fexp.
  pose proof (shr_spec (shr_record_of_loc m l) e (fexp prec emax (Zdigits2 m + e) - e)) as H.
  rewrite shr_record_of_loc_m in H. apply H. exact Hm.
Qed.

Lemma Zdigits2_nonneg (m : Z) : 0 <= Zdigits2 m.
Proof. destruct m; cbn; lia. Qed.

Lemma Zdigits2_lt (m : Z) : 0 <= m -> m < 2 ^ Zdigits2 m.
Proof.
  intros Hm. destruct m as [| p | p]; [reflexivity | | lia].
  cbn [Zdigits2]. rewrite digits2_pos_log2.
  pose proof (Z.log2_spec (Zpos p) ltac:(lia)) as H.
  replace (Z.log2 (Zpos p) + 1) with (Z.succ (Z.log2 (Zpos p))) by lia. lia.
Qed.

Lemma Zdigits2_le (m k : Z) : 0 <= m -> 0 <= k -> m < 2 ^ k -> Zdigits2 m <= k.
Proof.
  intros Hm Hk Hlt. destruct m as [| p | p]; [cbn; lia | | lia].
  cbn [Zdigits2]. rewrite digits2_pos_log2.
  apply Z.log2_lt_pow2 in Hlt; lia.
Qed.

Lemma round_nearest_even_bounds (m : Z) (l : location) :
  m <= round_nearest_even m l <= m + 1.
Proof.
  destruct l as [| []]; cbn [round_nearest_even]; try lia.
  destruct (Z.even m); lia.
Qed.

Lemma fexp_64 (a : Z) : fexp prec emax a = Z.max (a - 53) (-1074).
Proof. reflexivity. Qed.

Lemma div_pow2_lt (m d n : Z) :
  0 <= m -> 0 <= d -> 0 <= n -> m < 2 ^ d -> m / 2 ^ n < 2 ^ Z.max (d - n) 0.
Proof.
  intros Hm Hd Hn Hlt.
  assert (Hp : 0 < 2 ^ n) by (apply pow2_pos; lia).
  apply Z.div_lt_upper_bound; [lia |].
  rewrite <- Z.pow_add_r by lia.
  assert (2 ^ d <= 2 ^ (n + Z.max (d - n) 0)); [| lia].
  apply Z.pow_le_mono_r; lia.
Qed.

(** The rounding procedure on a non-negative mantissa well inside the
    range gives a zero or a finite number with a 53-bit mantissa. *)
Lemma binary_round_aux_finite (s : bool) (mx ex : Z) (lx : location) :
  0 <= mx -> Zdigits2 mx + ex <= 1023 -> ex <= 971 ->
  binary_round_aux prec emax s mx ex lx = S754_zero s \/
  exists m e, binary_round_aux prec emax s mx ex lx = S754_finite s m e /\
              Zpos m < 2 ^ 53.
Proof.
  intros Hm Hd He. unfold binary_round_aux.
  pose proof (shr_fexp_spec mx ex lx Hm) as [Hm' He'].
  destruct (shr_fexp prec emax mx ex lx) as [mrs' e']. cbn [fst snd] in Hm', He'.
  pose proof (Zdigits2_nonneg mx) as Hdx. pose proof (Zdigits2_lt mx Hm) as Hltx.
  rewrite fexp_64 in Hm', He'.
  set (n1 := Z.max (Z.max (Zdigits2 mx + ex - 53) (-1074) - ex) 0) in *.
  assert (Hn1 : 0 <= n1) by (unfold n1; lia).
  assert (Hp1 : 0 < 2 ^ n1) by (apply pow2_pos; lia).
  assert (Hm'0 : 0 <= shr_m mrs') by (rewrite Hm'; apply Z.div_pos; lia).
  pose proof (round_nearest_even_bounds (shr_m mrs') (loc_of_shr_record mrs')) as Hr.
  set (m1 := round_nearest_even (shr_m mrs') (loc_of_shr_record mrs')) in *.
  assert (Hm1 : 0 <= m1) by lia.
  pose proof (shr_fexp_spec m1 e' loc_Exact Hm1) as [Hm2 He2].
  destruct (shr_fexp prec emax m1 e' loc_Exact) as [mrs'' e'']. cbn [fst snd] in Hm2, He2.
  rewrite fexp_64 in Hm2, He2.
  pose proof (Zdigits2_nonneg m1) as Hd1. pose proof (Zdigits2_lt m1 Hm1) as Hlt1.
  set (n2 := Z.max (Z.max (Zdigits2 m1 + e' - 53) (-1074) - e') 0) in *.
  assert (Hn2 : 0 <= n2) by (unfold n2; lia).
  assert (Hp2 : 0 < 2 ^ n2) by (apply pow2_pos; lia).
  (* the size of the rounded mantissa *)
  assert (Hsize : Zdigits2 m1 <= Z.max (Zdigits2 mx - n1) 0 + 1).
  { apply Zdigits2_le; [lia | lia |].
    pose proof (div_pow2_lt mx (Zdigits2 mx) n1 Hm Hdx Hn1 Hltx) as H.
    rewrite <- Hm' in H.
    rewrite Z.pow_add_r by lia. change (2 ^ 1) with 2.
    assert (0 < 2 ^ Z.max (Zdigits2 mx - n1) 0) by (apply pow2_pos; lia). lia. }
  assert (He'' : e'' <= 971) by (unfold n2 in He2; unfold n1 in He', Hsize; lia).
  assert (Hmant : shr_m mrs'' < 2 ^ 53).
  { rewrite Hm2. apply Z.div_lt_upper_bound; [lia |].
    rewrite <- Z.pow_add_r by lia.
    assert (2 ^ Zdigits2 m1 <= 2 ^ (n2 + 53)); [| lia].
    apply Z.pow_le_mono_r; [lia |]. unfold n2. lia. }
  assert (Hm2' : 0 <= shr_m mrs'') by (rewrite Hm2; apply Z.div_pos; lia).
  destruct (shr_m mrs'') as [| p | p]; [left; reflexivity | right | lia].
  exists p, e''. split; [| exact Hmant].
  destruct (Z.leb_spec e'' (emax - prec)) as [_ | H]; [reflexivity |].
  unfold emax, prec in H. lia.
Qed.

Lemma of_Z_45 : of_Z 45 = S754_finite false 6333186975989760 (-47).
Proof. reflexivity. Qed.

Lemma bounded_64 (m : positive) (e : Z) :
  bounded prec emax m e = true ->
  Zpos (digits2_pos m) <= 53 /\ e <= 971.
Proof.
  unfold bounded, canonical_mantissa. rewrite andb_true_iff, fexp_64.
  intros [H1 H2]. apply Z.eqb_eq in H1. apply Z.leb_le in H2.
  unfold emax, prec in H2. lia.
Qed.

(** The quotient by 45 of a non-negative double is a zero or a positive
    double: the division neither overflows nor leaves the numbers. *)
Lemma div_45_finite (m : positive) (e : Z) :
  bounded prec emax m e = true ->
  div (S754_finite false m e) (of_Z 45) = S754_zero false \/
  exists m' e', div (S754_finite false m e) (of_Z 45) = S754_finite false m' e' /\
                Zpos m' < 2 ^ 53.
Proof.
  intros Hb. apply bounded_64 in Hb. destruct Hb as [Hd He].
  rewrite of_Z_45. unfold div, SFdiv. cbn [xorb].
  unfold SFdiv_core_binary.
  change (Zdigits2 6333186975989760) with 53.
  cbn [Zdigits2]. rewrite fexp_64.
  set (d1 := Zpos (digits2_pos m)) in *.
  set (e0 := Z.min (Z.max (d1 + e - (53 + -47) - 53) (-1074)) (e - -47)).
  set (sh := e - -47 - e0).
  assert (Hsh : 0 <= sh) by (unfold sh, e0; lia).
  set (m0 := match sh with
             | 0 => Zpos m
             | Zpos _ => Z.shiftl (Zpos m) sh
             | Zneg _ => 0
             end).
  assert (Hm0 : m0 = Zpos m * 2 ^ sh).
  { unfold m0. destruct sh as [| p | p] eqn:E; [rewrite Z.mul_1_r; reflexivity | | lia].
    apply Z.shiftl_mul_pow2. lia. }
  assert (Hps : 0 < 2 ^ sh) by (apply pow2_pos; lia).
  pose proof (Z.div_eucl_eq m0 6333186975989760 ltac:(lia)) as Hdiv.
  pose proof (Z.mod_pos_bound m0 6333186975989760 ltac:(lia)) as Hmod.
  unfold Z.modulo in Hmod.
  destruct (Z.div_eucl m0 6333186975989760) as [q r].
  assert (Hq0 : 0 <= q) by nia.
  apply binary_round_aux_finite; [exact Hq0 | | unfold e0; lia].
  (* the size of the quotient *)
  pose proof (Zdigits2_lt (Zpos m) ltac:(lia)) as Hlt. cbn [Zdigits2] in Hlt. fold d1 in Hlt.
  assert (Hqs : Zdigits2 q <= Z.max (d1 + sh - 52) 0).
  { apply Zdigits2_le; [exact Hq0 | lia |].
    assert (Hq : q * 4503599627370496 < 2 ^ (d1 + sh)).
    { rewrite Z.pow_add_r by lia. nia. }
    assert (Hle : 2 ^ (d1 + sh) <= 4503599627370496 * 2 ^ Z.max (d1 + sh - 52) 0).
    { change 4503599627370496 with (2 ^ 52). rewrite <- Z.pow_add_r by lia.
      apply Z.pow_le_mono_r; lia. }
    clear - Hq Hle. lia. }
  assert (He0 : e0 <= 965) by (unfold e0; lia).
  assert (Hsum : d1 + sh - 52 + e0 = d1 + e - 5) by (unfold sh; lia).
  clearbody e0 sh. lia.
Qed.

(** [Math.round] of a positive double denotes a non-negative integer. *)
Lemma Math_round_positive (m : positive) (e : Z) :
  Zpos m < 2 ^ 53 ->
  exists z, 0 <= z /\ to_Z (Math_round (S754_finite false m e)) = Some z.
Proof.
  intros Hm. destruct (Z.leb_spec 0 e) as [He | He].
  - exists (Zpos m * 2 ^ e). split.
    + assert (0 < 2 ^ e) by (apply pow2_pos; lia). nia.
    + unfold Math_round, to_Z. apply Z.leb_le in He. rewrite !He. reflexivity.
  - destruct (Math_round_nearest false m e He Hm) as (z & Hz & _ & Hup).
    exists z. split; [| exact Hz].
    assert (0 < 2 ^ (- e)) by (apply pow2_pos; lia).
    cbn [cond_Zopp] in Hup. nia.
Qed.

(** The rounded quotient by 45 of a finite double that is not negative
    denotes a non-negative integer. *)
Lemma rounded_quotient_nonneg (deg : number) :
  nonneg_finite deg = true ->
  exists z, 0 <= z /\ to_Z (Math_round (div deg (of_Z 45))) = Some z.
Proof.
  destruct deg as [s | s | | [|] m e]; try discriminate; intros H.
  - exists 0. split; [lia |]. rewrite of_Z_45. reflexivity.
  - destruct (div_45_finite m e H) as [-> | (m' & e' & -> & Hm')].
    + exists 0. split; [lia | reflexivity].
    + exact (Math_round_positive m' e' Hm').
Qed.

Lemma nth_error_directions (i : Z) :
  0 <= i < 8 -> exists l, nth_error directions (Z.to_nat i) = Some l.
Proof.
  intros Hi. assert (Hn : (Z.to_nat i < 8)%nat) by lia.
  destruct (nth_error directions (Z.to_nat i)) as [l |] eqn:E; [eauto |].
  apply nth_error_None in E. simpl in E. lia.
Qed.

(** The shape of every result of [degreesToCardinal] whose rounded
    quotient denotes an integer. *)
Lemma degreesToCardinal_integer (deg : number) (z : Z) :
  to_Z (Math_round (div deg (of_Z 45))) = Some z ->
  to_Z (js_rem (Math_round (div deg (of_Z 45))) (of_Z 8)) = Some (Z.rem z 8) /\
  degreesToCardinal (Def deg) =
    if Z.rem z 8 <? 0 then Undefined
    else match nth_error directions (Z.to_nat (Z.rem z 8)) with
         | Some l => Def l
         | None => Undefined
         end.
Proof.
  intros Hz. pose proof (js_rem_8 _ _ Hz) as Hrem. split; [exact Hrem |].
  unfold degreesToCardinal, array_get. rewrite Hrem. reflexivity.
Qed.

Lemma degreesToCardinal_nonneg (deg : number) (z : Z) :
  to_Z (Math_round (div deg (of_Z 45))) = Some z -> 0 <= z ->
  exists l, nth_error directions (Z.to_nat (z mod 8)) = Some l /\
            degreesToCardinal (Def deg) = Def l.
Proof.
  intros Hz Hz0. destruct (degreesToCardinal_integer deg z Hz) as [_ ->].
  rewrite Z.rem_mod_nonneg by lia.
  pose proof (Z.mod_pos_bound z 8 ltac:(lia)) as Hb.
  destruct (nth_error_directions (z mod 8) Hb) as [l Hl].
  exists l. rewrite Hl. destruct (Z.ltb_spec (z mod 8) 0); [lia |]. auto.
Qed.

Lemma degreesToCardinal_nonneg_finite (deg : number) :
  nonneg_finite deg = true ->
  exists z l, 0 <= z /\ to_Z (Math_round (div deg (of_Z 45))) = Some z /\
              nth_error directions (Z.to_nat (z mod 8)) = Some l /\
              degreesToCardinal (Def deg) = Def l.
Proof.
  intros H. destruct (rounded_quotient_nonneg deg H) as (z & Hz0 & Hz).
  destruct (degreesToCardinal_nonneg deg z Hz Hz0) as (l & Hl & Hd).
  exists z, l. auto.
Qed.

End NumberFacts.

Section RegexFacts.
Import Regex.

Lemma matches_Nul (s : string) : matches Nul s = false.
Proof. induction s as [| c s IH]; simpl; auto. Qed.

Lemma matches_Eps (s : string) : matches Eps s = true <-> s = EmptyString.
Proof.
  destruct s as [| c s]; simpl; [tauto |].
  rewrite matches_Nul. split; discriminate.
Qed.

Lemma matches_Alt (r1 r2 : re) (s : string) :
  matches (Alt r1 r2) s = matches r1 s || matches r2 s.
Proof. revert r1 r2. induction s as [| c s IH]; intros r1 r2; simpl; auto. Qed.

Lemma matches_Chr (c : ascii) (s : string) :
  matches (Chr c) s = true <-> s = String c EmptyString.
Proof.
  destruct s as [| c' s]; simpl; [split; discriminate |].
  destruct (Ascii.eqb_spec c' c) as [-> | Hne].
  - rewrite matches_Eps. split; [intros ->; reflexivity | intros H; injection H; auto].
  - rewrite matches_Nul. split; [discriminate | intros H; injection H; congruence].
Qed.

Lemma matches_Range (lo hi : ascii) (s : string) :
  matches (Range lo hi) s = true <->
  exists c, s = String c EmptyString /\ in_range lo hi c = true.
Proof.
  destruct s as [| c' s]; simpl.
  - split; [discriminate | intros (c & H & _); discriminate].
  - destruct (in_range lo hi c') eqn:E.
    + rewrite matches_Eps. split.
      * intros ->. eauto.
      * intros (c & H & _). injection H; auto.
    + rewrite matches_Nul. split; [discriminate |].
      intros (c & H & Hc). injection H as -> ->. congruence.
Qed.

(** The derivative matcher splits the subject of a concatenation. *)
Lemma matches_Cat (r1 r2 : re) (s : string) :
  matches (Cat r1 r2) s = true <->
  exists s1 s2, s = (s1 ++ s2)%string /\ matches r1 s1 = true /\ matches r2 s2 = true.
Proof.
  revert r1. induction s as [| c s IH]; intros r1.
  - simpl. rewrite andb_true_iff. split.
    + intros [H1 H2]. exists EmptyString, EmptyString. auto.
    + intros (s1 & s2 & Hs & H1 & H2).
      destruct s1; [| discriminate]. destruct s2; [| discriminate]. auto.
  - simpl. destruct (nullable r1) eqn:Hn.
    + rewrite matches_Alt, orb_true_iff, IH. split.
      * intros [(s1 & s2 & -> & H1 & H2) | H].
        -- exists (String c s1), s2. auto.
        -- exists EmptyString, (String c s). auto.
      * intros (s1 & s2 & Hs & H1 & H2). destruct s1 as [| c1 s1].
        -- right. cbv beta iota fix delta [String.append] in Hs. subst s2. exact H2.
        -- left. cbv beta iota fix delta [String.append] in Hs. injection Hs as <- ->. exists s1, s2. auto.
    + rewrite IH. split.
      * intros (s1 & s2 & -> & H1 & H2). exists (String c s1), s2. auto.
      * intros (s1 & s2 & Hs & H1 & H2). destruct s1 as [| c1 s1].
        -- simpl in H1. congruence.
        -- cbv beta iota fix delta [String.append] in Hs. injection Hs as <- ->. exists s1, s2. auto.
Qed.

Lemma in_range_upper (c : ascii) : in_range "A" "Z" c = is_upper c.
Proof. reflexivity. Qed.

(** The pattern of the filter accepts exactly the four-letter
    identifiers that start with K. *)
Lemma matches_K_station (s : string) :
  matches K_station s = four_letter_K (Def s).
Proof.
  apply eq_true_iff_eq. unfold K_station. rewrite matches_Cat. split.
  - intros (s1 & s2 & -> & H1 & H2).
    apply matches_Chr in H1. subst s1.
    simpl rep in H2.
    apply matches_Cat in H2. destruct H2 as (a & s3 & -> & Ha & H3).
    apply matches_Cat in H3. destruct H3 as (b & s4 & -> & Hb & H4).
    apply matches_Cat in H4. destruct H4 as (c & s5 & -> & Hc & H5).
    apply matches_Eps in H5. subst s5.
    apply matches_Range in Ha, Hb, Hc.
    destruct Ha as (a' & -> & Ha), Hb as (b' & -> & Hb), Hc as (c' & -> & Hc).
    rewrite in_range_upper in Ha, Hb, Hc. simpl. rewrite Ha, Hb, Hc. reflexivity.
  - intros H. unfold four_letter_K in H.
    destruct s as [| k [| a [| b [| c [| d s]]]]]; try discriminate.
    rewrite !andb_true_iff in H. destruct H as [[[Hk Ha] Hb] Hc].
    apply Ascii.eqb_eq in Hk. subst k.
    exists (String "K" EmptyString), (String a (String b (String c EmptyString))).
    split; [reflexivity |]. split; [apply matches_Chr; reflexivity |].
    simpl rep.
    apply matches_Cat. exists (String a EmptyString), (String b (String c EmptyString)).
    split; [reflexivity |]. split; [apply matches_Range; eauto |].
    apply matches_Cat. exists (String b EmptyString), (String c EmptyString).
    split; [reflexivity |]. split; [apply matches_Range; eauto |].
    apply matches_Cat. exists (String c EmptyString), EmptyString.
    split; [reflexivity |]. split; [apply matches_Range; eauto | reflexivity].
Qed.

Lemma is_major_four_letter_K (id : JS.nullable string) : is_major id = four_letter_K id.
Proof.
  destruct id as [| | s]; try reflexivity.
  unfold is_major. destruct s as [| c s]; [reflexivity |]. apply matches_K_station.
Qed.

End RegexFacts.

Lemma filter_array_K (l : list (nullable Stn.feature)) :
  Forall has_properties l ->
  filter_array filter_callback l = Ok (List.filter (fun s => four_letter_K (identifier s)) l).
Proof.
  induction 1 as [| s l (f & p & -> & Hp) _ IH]; [reflexivity |].
  cbn [filter_array List.filter]. rewrite IH.
  unfold filter_callback, identifier. cbn [get optchain bind]. rewrite Hp.
  cbn [get optchain bind]. rewrite is_major_four_letter_K. reflexivity.
Qed.

(** C8.  In the filtering variant the station filter keeps exactly the
    stations whose identifier is a non-null string of four characters, K
    followed by three uppercase letters, in the order of the payload; the
    other variant hands the fetched stations on as they are.  KJFK and
    KDEN pass, PHNL, K1 and null do not. *)
Theorem station_filter_keeps_K_stations (l : list (nullable Stn.feature)) :
  Forall has_properties l ->
  stations_of_response KFiltered (Resolved (Def {| Stn.features := Def l |}))
    = Ok (Def (List.filter (fun s => four_letter_K (identifier s)) l)) /\
  stations_of_response Unfiltered (Resolved (Def {| Stn.features := Def l |}))
    = Ok (Def l) /\
  is_major (Def "KJFK"%string) = true /\ is_major (Def "KDEN"%string) = true /\
  is_major (Def "PHNL"%string) = false /\ is_major (Def "K1"%string) = false /\
  is_major Null = false.
Proof.
  intros Hl. split; [| repeat split].
  unfold stations_of_response. simpl. rewrite (filter_array_K l Hl). reflexivity.
Qed.

Lemma station_filter_keeps_K_stations_witness :
  Forall has_properties [Def KJFK; Def PHNL; Def KDEN] /\
  stations_of_response KFiltered sample_directory = Ok (Def [Def KJFK; Def KDEN]) /\
  stations_of_response Unfiltered sample_directory
    = Ok (Def [Def KJFK; Def PHNL; Def KDEN]).
Proof.
  assert (H : Forall has_properties [Def KJFK; Def PHNL; Def KDEN])
    by (repeat constructor; eexists _, _; split; reflexivity).
  split; [exact H |].
  destruct (station_filter_keeps_K_stations [Def KJFK; Def PHNL; Def KDEN] H)
    as (H1 & H2 & _).
  split; [exact H1 | exact H2].
Defined.

Section Conversions.
Local Open Scope Z_scope.
Local Open Scope string_scope.

(** Every whole bearing from 0 to 360 degrees gets one of the labels. *)
Lemma degreesToCardinal_bearings (d : Z) :
  0 <= d <= 360 -> exists l, In l directions /\ degreesToCardinal (Def (of_Z d)) = Def l.
Proof.
  intros Hd.
  assert (Hall : forallb (fun n =>
            match degreesToCardinal (Def (of_Z (Z.of_nat n))) with
            | Def l => existsb (String.eqb l) directions
            | _ => false
            end) (seq 0 361) = true) by (vm_compute; reflexivity).
  rewrite forallb_forall in Hall.
  specialize (Hall (Z.to_nat d)). rewrite Z2Nat.id in Hall by lia.
  destruct (degreesToCardinal (Def (of_Z d))) as [| | l].
  - discriminate Hall. apply in_seq. lia.
  - discriminate Hall. apply in_seq. lia.
  - exists l. split; [| reflexivity].
    assert (Hin : existsb (String.eqb l) directions = true) by (apply Hall, in_seq; lia).
    apply existsb_exists in Hin. destruct Hin as (l' & Hin & Heq).
    apply String.eqb_eq in Heq. subst l'. exact Hin.
Qed.

(** C3, as amended.  For every numeric [deg] whose rounded quotient
    [round(deg / 45)] is a non-negative integer, the index
    [round(deg / 45) % 8] lies in [0, 8) and [degreesToCardinal] returns
    the label of the table at that index. *)
Theorem degreesToCardinal_index_in_table (deg : number) (z : Z) :
  to_Z (Math_round (div deg (of_Z 45))) = Some z ->
  0 <= z ->
  exists i l,
    to_Z (js_rem (Math_round (div deg (of_Z 45))) (of_Z 8)) = Some i /\
    0 <= i < 8 /\
    nth_error directions (Z.to_nat i) = Some l /\
    degreesToCardinal (Def deg) = Def l.
Proof.
  intros Hz Hz0.
  destruct (degreesToCardinal_integer deg z Hz) as [Hi _].
  destruct (degreesToCardinal_nonneg deg z Hz Hz0) as (l & Hl & Hd).
  exists (Z.rem z 8), l. rewrite Z.rem_mod_nonneg by lia.
  rewrite Z.rem_mod_nonneg in Hi by lia.
  pose proof (Z.mod_pos_bound z 8 ltac:(lia)). auto.
Qed.

Lemma degreesToCardinal_index_in_table_witness :
  to_Z (Math_round (div (of_Z 270) (of_Z 45))) = Some 6 /\ 0 <= 6 /\
  exists i l,
    to_Z (js_rem (Math_round (div (of_Z 270) (of_Z 45))) (of_Z 8)) = Some i /\
    0 <= i < 8 /\
    nth_error directions (Z.to_nat i) = Some l /\
    degreesToCardinal (Def (of_Z 270)) = Def l.
Proof.
  split; [reflexivity |]. split; [lia |].
  apply (degreesToCardinal_index_in_table (of_Z 270) 6); [reflexivity | lia].
Defined.

(** At -90 degrees the index is -2 and the lookup leaves the table. *)
Lemma degreesToCardinal_negative_leaves_table :
  to_Z (js_rem (Math_round (div (of_Z (-90)) (of_Z 45))) (of_Z 8)) = Some (-2) /\
  degreesToCardinal (Def (of_Z (-90))) = Undefined /\
  ~ (exists i l,
       to_Z (js_rem (Math_round (div (of_Z (-90)) (of_Z 45))) (of_Z 8)) = Some i /\
       0 <= i < 8 /\ degreesToCardinal (Def (of_Z (-90))) = Def l).
Proof.
  split; [reflexivity |]. split; [reflexivity |].
  intros (i & l & Hi & Hr & _).
  assert (Hi' : to_Z (js_rem (Math_round (div (of_Z (-90)) (of_Z 45))) (of_Z 8)) = Some (-2))
    by reflexivity.
  rewrite Hi' in Hi. injection Hi as <-. lia.
Qed.

(** C7, as amended.  [degreesToCardinal] returns N for 0, NE for 45, N
    for 360 and null for null and undefined; for every numeric input
    whose rounded quotient [round(deg / 45)] is a non-negative integer it
    equals the label at index [round(deg / 45) mod 8] of the ordered
    list. *)
Theorem degreesToCardinal_values :
  degreesToCardinal (Def (of_Z 0)) = Def "N" /\
  degreesToCardinal (Def (of_Z 45)) = Def "NE" /\
  degreesToCardinal (Def (of_Z 360)) = Def "N" /\
  degreesToCardinal Null = Null /\
  degreesToCardinal Undefined = Null /\
  forall (deg : number) (z : Z),
    to_Z (Math_round (div deg (of_Z 45))) = Some z ->
    0 <= z ->
    degreesToCardinal (Def deg) = Def (cardinal_label z).
Proof.
  repeat (split; [reflexivity |]).
  intros deg z Hz Hz0.
  destruct (degreesToCardinal_nonneg deg z Hz Hz0) as (l & Hl & ->).
  unfold cardinal_label. f_equal. symmetry. apply nth_error_nth. exact Hl.
Qed.

Lemma degreesToCardinal_values_witness :
  to_Z (Math_round (div (of_Z 200) (of_Z 45))) = Some 4 /\ 0 <= 4 /\
  degreesToCardinal (Def (of_Z 200)) = Def "S".
Proof.
  split; [reflexivity |]. split; [lia |].
  apply (proj2 (proj2 (proj2 (proj2 (proj2 degreesToCardinal_values)))) (of_Z 200) 4);
    [reflexivity | lia].
Defined.

(** At -90 degrees the rounded quotient is -2; the label at index
    [-2 mod 8 = 6] is W, and the code returns [undefined]. *)
Lemma degreesToCardinal_negative_no_label :
  to_Z (Math_round (div (of_Z (-90)) (of_Z 45))) = Some (-2) /\
  cardinal_label (-2) = "W" /\
  degreesToCardinal (Def (of_Z (-90))) <> Def (cardinal_label (-2)).
Proof. split; [reflexivity |]. split; [reflexivity |]. discriminate. Qed.

(** C9.  The conversion of the wind speed gives null when
    [windSpeed?.value] is null or undefined, and [Math.round(mps * 2.237)]
    otherwise, where [Math.round] of a double with a fractional part is
    the integer [z] with [z - 1/2 <= x < z + 1/2]; 10 m/s gives 22 mph. *)
Theorem windSpeedMph_rounds :
  (forall props : Obs.props,
     neq_null (optchain (Obs.windSpeed props) Obs.value) = false ->
     windSpeedMph props = Null) /\
  (forall (props : Obs.props) (mps : number),
     optchain (Obs.windSpeed props) Obs.value = Def mps ->
     windSpeedMph props = Def (Math_round (mul mps lit_2_237))) /\
  (forall (s : bool) (m : positive) (e : Z),
     e < 0 -> Zpos m < 2 ^ 53 ->
     exists z, to_Z (Math_round (S754_finite s m e)) = Some z /\
               (2 * z - 1) * 2 ^ (- e) <= 2 * cond_Zopp s (Zpos m)
                 < (2 * z + 1) * 2 ^ (- e)) /\
  Math_round (mul (of_Z 10) lit_2_237) = of_Z 22.
Proof.
  split; [| split; [| split]].
  - intros props H. unfold windSpeedMph.
    destruct (optchain (Obs.windSpeed props) Obs.value); [reflexivity .. | discriminate].
  - intros props mps H. unfold windSpeedMph. rewrite H. reflexivity.
  - exact Math_round_nearest.
  - reflexivity.
Qed.

Lemma windSpeedMph_rounds_witness :
  optchain (Obs.windSpeed sample_props) Obs.value = Def (of_Z 10) /\
  windSpeedMph sample_props = Def (of_Z 22).
Proof.
  split; [reflexivity |].
  rewrite (proj1 (proj2 windSpeedMph_rounds) sample_props (of_Z 10) eq_refl).
  reflexivity.
Defined.

End Conversions.

Section ObservationFacts.
Local Open Scope Z_scope.
Local Open Scope string_scope.
Variable Number_toString : number -> string.

(** The [else] branch: a payload without data, without properties, or
    whose temperature object holds no value. *)
Lemma observation_callout_no_value (station : Stn.feature) (point : Point)
    (d : nullable Obs.data) (sp : Stn.props) :
  has_temperature d = Ok false ->
  Stn.properties station = Def sp ->
  observation_callout Number_toString station point (Resolved d) =
    Ok {| Callout.stationName := Stn.name sp;
          Callout.weather := Undefined;
          Callout.error := Def "No recent observation.";
          Callout.loading := false;
          Callout.position := point |}.
Proof.
  intros Ht Hsp. unfold observation_callout.
  change (mbind ?k ?r) with (bind r k). rewrite Ht. cbn [bind].
  change (mbind ?k ?r) with (bind r k). rewrite Hsp. reflexivity.
Qed.

Lemma has_temperature_value (d : Obs.data) (p : Obs.props) (q : Obs.quantity) :
  Obs.properties d = Def p -> Obs.temperature p = Def q ->
  has_temperature (Def d) = Ok (neq_null (Obs.value q)).
Proof. intros Hp Hq. unfold has_temperature. rewrite Hp. cbn. rewrite Hq. reflexivity. Qed.

(** A temperature object that is itself missing makes the condition
    throw. *)
Lemma has_temperature_throws (d : Obs.data) (p : Obs.props) :
  Obs.properties d = Def p -> neq_null (Obs.temperature p) = false ->
  has_temperature (Def d) = Throw (TypeError "value").
Proof.
  intros Hp Hq. unfold has_temperature. rewrite Hp. cbn.
  destruct (Obs.temperature p); [reflexivity .. | discriminate].
Qed.

(** The [then] branch. *)
Lemma observation_callout_ready (station : Stn.feature) (point : Point)
    (d : Obs.data) (p : Obs.props) (q : Obs.quantity) (c : number) (sp : Stn.props) :
  Obs.properties d = Def p -> Obs.temperature p = Def q -> Obs.value q = Def c ->
  Stn.properties station = Def sp ->
  observation_callout Number_toString station point (Resolved (Def d)) =
    Ok {| Callout.stationName := Stn.name sp;
          Callout.weather :=
            Def {| Weather.temp := toFixed1 Number_toString (fahrenheit c);
                   Weather.conditions := Obs.textDescription p;
                   Weather.windSpeed := windSpeedMph p;
                   Weather.windDirection := windDirectionCardinal p;
                   Weather.humidity := humidity p |};
          Callout.error := Undefined;
          Callout.loading := false;
          Callout.position := point |}.
Proof.
  intros Hp Hq Hc Hsp. unfold observation_callout.
  change (mbind ?k ?r) with (bind r k).
  rewrite (has_temperature_value d p q Hp Hq), Hc. cbn [bind neq_null].
  repeat change (mbind ?k ?r) with (bind r k).
  cbn [get bind]. rewrite Hp. cbn [get bind]. rewrite Hsp, Hq. cbn [get bind].
  rewrite Hc. reflexivity.
Qed.

(** C10, as amended.  In the Ready view-model the wind speed and the
    humidity are non-null exactly when their own source field is, and
    the wind direction is [degreesToCardinal] of its own source: null
    when the source is null, a label when the source is a number whose
    rounded quotient by 45 is a non-negative integer.  No field depends
    on the presence of its siblings. *)
Theorem derived_fields_follow_sources (station : Stn.feature) (point : Point)
    (d : Obs.data) (p : Obs.props) (q : Obs.quantity) (c : number) (sp : Stn.props) :
  Obs.properties d = Def p -> Obs.temperature p = Def q -> Obs.value q = Def c ->
  Stn.properties station = Def sp ->
  exists callout w,
    observation_callout Number_toString station point (Resolved (Def d)) = Ok callout /\
    classify callout = Ready /\
    Callout.weather callout = Def w /\
    neq_null (Weather.windSpeed w) = neq_null (optchain (Obs.windSpeed p) Obs.value) /\
    neq_null (Weather.humidity w) = neq_null (optchain (Obs.relativeHumidity p) Obs.value) /\
    Weather.windDirection w = degreesToCardinal (optchain (Obs.windDirection p) Obs.value) /\
    (neq_null (optchain (Obs.windDirection p) Obs.value) = false ->
     Weather.windDirection w = Null) /\
    (forall deg z,
       optchain (Obs.windDirection p) Obs.value = Def deg ->
       to_Z (Math_round (div deg (of_Z 45))) = Some z -> 0 <= z ->
       neq_null (Weather.windDirection w) = true).
Proof.
  intros Hp Hq Hc Hsp.
  eexists _, _. split; [apply (observation_callout_ready _ _ d p q c sp); assumption |].
  cbn [Callout.weather Weather.windSpeed Weather.humidity Weather.windDirection].
  split; [reflexivity |]. split; [reflexivity |].
  split; [unfold windSpeedMph; destruct (optchain (Obs.windSpeed p) Obs.value); reflexivity |].
  split; [unfold humidity; destruct (optchain (Obs.relativeHumidity p) Obs.value); reflexivity |].
  split; [reflexivity |]. unfold windDirectionCardinal. split.
  - destruct (optchain (Obs.windDirection p) Obs.value); [reflexivity .. | discriminate].
  - intros deg z -> Hz Hz0.
    destruct (degreesToCardinal_nonneg deg z Hz Hz0) as (l & _ & ->). reflexivity.
Qed.

End ObservationFacts.

Lemma derived_fields_follow_sources_witness :
  Obs.properties {| Obs.properties := Def sample_props |} = Def sample_props /\
  Obs.temperature sample_props = Def {| Obs.value := Def (of_Z 20) |} /\
  Obs.value {| Obs.value := Def (of_Z 20) |} = Def (of_Z 20) /\
  Stn.properties KJFK =
    Def {| Stn.stationIdentifier := Def "KJFK"%string;
           Stn.name := Def "New York, Kennedy International Airport"%string |} /\
  exists callout w,
    observation_callout sample_toString KJFK (sample_point 160 240)
      (observation sample_props) = Ok callout /\
    classify callout = Ready /\
    Callout.weather callout = Def w /\
    neq_null (Weather.windSpeed w) = true /\
    neq_null (Weather.humidity w) = true /\
    Weather.windDirection w = Def "W"%string.
Proof.
  repeat (split; [reflexivity |]).
  destruct (derived_fields_follow_sources sample_toString KJFK (sample_point 160 240)
              {| Obs.properties := Def sample_props |} sample_props
              {| Obs.value := Def (of_Z 20) |} (of_Z 20)
              {| Stn.stationIdentifier := Def "KJFK"%string;
                 Stn.name := Def "New York, Kennedy International Airport"%string |}
              eq_refl eq_refl eq_refl eq_refl)
    as (callout & w & H1 & H2 & H3 & H4 & H5 & H6 & _).
  exists callout, w. repeat split; assumption.
Defined.

(** A wind direction of -90 degrees is present in the payload and absent
    from the Ready view-model. *)
Lemma negative_direction_not_derived :
  exists callout w,
    observation_callout sample_toString KJFK (sample_point 160 240)
      (observation (with_windDirection (quantity (-90)) sample_props)) = Ok callout /\
    classify callout = Ready /\
    Callout.weather callout = Def w /\
    neq_null (optchain (Obs.windDirection (with_windDirection (quantity (-90)) sample_props))
                Obs.value) = true /\
    neq_null (Weather.windDirection w) = false.
Proof. eexists _, _. repeat split. Qed.

Section ScreenFacts.
Local Open Scope string_scope.
Variable Number_toString : number -> string.
Variable v : variant.


(** *** What is on the screen *)

Lemma render_MapScreen (st : state) (ms : list marker) (co : nullable callout_view) :
  render v st = Ok (MapScreen ms co) ->
  loading st = false /\
  exists l, stations st = Def l /\ map_array render_marker l = Ok ms /\
            co = render_callout v (calloutData st).
Proof.
  unfold render. destruct (loading st); [discriminate |].
  destruct (stations st) as [| | l]; unbind; try discriminate.
  destruct (map_array render_marker l) as [ms' | e] eqn:Hms; unbind; [| discriminate].
  intros H. injection H as <- <-. split; [reflexivity |]. exists l. auto.
Qed.

Lemma render_same_stations (st st' : state) (ms : list marker) (co : nullable callout_view) :
  render v st = Ok (MapScreen ms co) ->
  loading st' = loading st -> stations st' = stations st ->
  render v st' = Ok (MapScreen ms (render_callout v (calloutData st'))).
Proof.
  intros H Hl Hs. apply render_MapScreen in H.
  destruct H as (Hload & l & Hst & Hms & _).
  unfold render. rewrite Hl, Hload, Hs, Hst. unbind. cbn [get bind]. rewrite Hms. reflexivity.
Qed.

Lemma map_array_lookup {A B} (f : A -> result B) (l : list A) (ms : list B) (i : nat) (b : B) :
  map_array f l = Ok ms -> ms !! i = Some b -> exists a, l !! i = Some a /\ f a = Ok b.
Proof.
  revert ms i. induction l as [| a l IH]; intros ms i; cbn [map_array].
  - intros H. injection H as <-. discriminate.
  - destruct (f a) as [b' |] eqn:Hf; unbind; [| discriminate].
    destruct (map_array f l) as [r |]; unbind; [| discriminate].
    intros H. injection H as <-. destruct i as [| i]; cbn.
    + intros H. injection H as <-. eauto.
    + intros H. apply (IH r i); auto.
Qed.

(** A station behind a marker has properties and coordinates. *)
Lemma render_marker_wf (s : nullable Stn.feature) (mk : marker) :
  render_marker s = Ok mk ->
  s = Def (pressed mk) /\
  exists sp g c, Stn.properties (pressed mk) = Def sp /\
                 Stn.geometry (pressed mk) = Def g /\ Stn.coordinates g = Def c.
Proof.
  unfold render_marker.
  destruct s as [| | f]; unbind; try discriminate.
  destruct (Stn.geometry f) as [| | g] eqn:Hg; unbind; try discriminate.
  destruct (Stn.coordinates g) as [| | c] eqn:Hc; cbn [destructure2]; unbind; try discriminate.
  destruct (Stn.properties f) as [| | sp] eqn:Hp; unbind; try discriminate.
  intros H. injection H as <-. cbn. eauto 10.
Qed.

Lemma marker_wf (st : state) (ms : list marker) (co : nullable callout_view) (i : nat) (mk : marker) :
  render v st = Ok (MapScreen ms co) -> ms !! i = Some mk ->
  exists sp g c, Stn.properties (pressed mk) = Def sp /\
                 Stn.geometry (pressed mk) = Def g /\ Stn.coordinates g = Def c.
Proof.
  intros H Hi. apply render_MapScreen in H. destruct H as (_ & l & _ & Hms & _).
  destruct (map_array_lookup _ _ _ _ _ Hms Hi) as (s & _ & Hs).
  apply render_marker_wf in Hs. tauto.
Qed.

(** *** The steps of a selection *)

Lemma step_MarkerPress (st : state) (ms : list marker) (co : nullable callout_view)
    (i : nat) (mk : marker) :
  render v st = Ok (MapScreen ms co) -> ms !! i = Some mk ->
  exists latitude longitude,
    step Number_toString v st (MarkerPress i) =
      emit (EProject (next_task st) latitude longitude)
        {| stations := stations st; loading := loading st;
           calloutData := calloutData st;
           directory_pending := directory_pending st;
           tasks := <[next_task st := AwaitPoint (pressed mk)]> (tasks st);
           next_task := S (next_task st); trace := trace st |}.
Proof.
  intros H Hi. destruct (marker_wf _ _ _ _ _ H Hi) as (sp & g & c & _ & Hg & Hc).
  cbn [step]. rewrite H, Hi. unfold handleMarkerPress. unbind.
  rewrite Hg. cbn [get bind]. rewrite Hc. cbn [destructure2]. eauto.
Qed.

Lemma MarkerPress_fields (st : state) (ms : list marker) (co : nullable callout_view)
    (i : nat) (mk : marker) :
  render v st = Ok (MapScreen ms co) -> ms !! i = Some mk ->
  tasks (step Number_toString v st (MarkerPress i))
    = <[next_task st := AwaitPoint (pressed mk)]> (tasks st) /\
  next_task (step Number_toString v st (MarkerPress i)) = S (next_task st) /\
  loading (step Number_toString v st (MarkerPress i)) = loading st /\
  stations (step Number_toString v st (MarkerPress i)) = stations st /\
  calloutData (step Number_toString v st (MarkerPress i)) = calloutData st.
Proof.
  intros H Hi. destruct (step_MarkerPress st ms co i mk H Hi) as (lat & lon & ->).
  repeat split.
Qed.

Lemma step_Projected (st : state) (tid : nat) (A : Stn.feature) (sp : Stn.props) (p : Point) :
  tasks st !! tid = Some (AwaitPoint A) -> Stn.properties A = Def sp ->
  step Number_toString v st (Projected tid (Ok p)) =
    {| stations := stations st; loading := loading st;
       calloutData := Def (loading_callout sp p);
       directory_pending := directory_pending st;
       tasks := <[tid := AwaitObservation A p]> (delete tid (tasks st));
       next_task := next_task st;
       trace := trace st ++ [ESetCalloutData (Some tid) (Def (loading_callout sp p));
                             EGet (Task tid) (observation_url (Stn.stationIdentifier sp))] |}.
Proof.
  intros Ht Hsp. cbn [step]. rewrite Ht. unfold handleMarkerPress_projected.
  rewrite Hsp. cbn [get]. unfold emit, set_tasks, setCalloutData, emit. cbn.
  rewrite <- app_assoc. reflexivity.
Qed.

(** The view-model a settled observation request leads to, when the
    [try] block completes. *)
Lemma observation_callout_shape (station : Stn.feature) (point : Point)
    (r : axios Obs.data) (c : Callout.t) (sp : Stn.props) :
  observation_callout Number_toString station point r = Ok c ->
  Stn.properties station = Def sp ->
  Callout.stationName c = Stn.name sp /\ Callout.position c = point /\
  (classify c = Ready \/ classify c = NotAvailable).
Proof.
  intros H Hsp. unfold observation_callout in H.
  destruct r as [d | e]; [| discriminate].
  destruct (has_temperature d) as [[|] | e]; unbind; [| | discriminate].
  - destruct d as [| | d]; try discriminate. unbind.
    destruct (Obs.properties d) as [| | p]; try discriminate. unbind.
    rewrite Hsp in H. unbind.
    destruct (Obs.temperature p) as [| | q]; try discriminate. unbind.
    injection H as <-. cbn. auto.
  - rewrite Hsp in H. unbind. injection H as <-. cbn. auto.
Qed.

Lemma step_Observed (st : state) (tid : nat) (A : Stn.feature) (sp : Stn.props)
    (p : Point) (r : axios Obs.data) :
  tasks st !! tid = Some (AwaitObservation A p) -> Stn.properties A = Def sp ->
  exists c new,
    step Number_toString v st (Observed tid r) =
      {| stations := stations st; loading := loading st;
         calloutData := Def c;
         directory_pending := directory_pending st;
         tasks := delete tid (tasks st);
         next_task := next_task st;
         trace := trace st ++ new |} /\
    Callout.stationName c = Stn.name sp /\ Callout.position c = p /\
    (classify c = Ready \/ classify c = NotAvailable \/ classify c = FetchFailed) /\
    (new = [ESetCalloutData (Some tid) (Def c)] \/
     exists e, new = [EConsoleError "Failed to fetch observation" e;
                      ESetCalloutData (Some tid) (Def c)]).
Proof.
  intros Ht Hsp. cbn [step]. rewrite Ht. unfold handleMarkerPress_observed.
  destruct (observation_callout Number_toString A p r) as [c | e] eqn:Hc.
  - destruct (observation_callout_shape A p r c sp Hc Hsp) as (Hn & Hp & Hk).
    exists c, [ESetCalloutData (Some tid) (Def c)]. repeat split; auto. tauto.
  - unfold observation_catch. rewrite Hsp. cbn [get].
    eexists _, _. split.
    + unfold setCalloutData, console_error, emit, set_tasks. cbn.
      rewrite <- app_assoc. reflexivity.
    + cbn. repeat split; eauto.
Qed.

Lemma step_MapPress (st : state) (ms : list marker) (co : nullable callout_view) :
  render v st = Ok (MapScreen ms co) ->
  step Number_toString v st MapPress =
    {| stations := stations st; loading := loading st; calloutData := Null;
       directory_pending := directory_pending st; tasks := tasks st;
       next_task := next_task st;
       trace := trace st ++ [ESetCalloutData None Null] |}.
Proof. intros H. cbn [step]. rewrite H. reflexivity. Qed.

(** *** The claims about selections *)

(** C4, as amended.  A tap on the map background empties the view-model
    at once, whatever is in flight, and cancels nothing: the pending
    observation request stays in the table, and when it settles its
    view-model is published and shown, at the anchor of its selection. *)
Theorem dismissal_keeps_the_fetch_alive (st : state) (ms : list marker)
    (co : nullable callout_view) (tid : nat) (A : Stn.feature) (sp : Stn.props)
    (p : Point) (r : axios Obs.data) :
  render v st = Ok (MapScreen ms co) ->
  tasks st !! tid = Some (AwaitObservation A p) ->
  Stn.properties A = Def sp ->
  calloutData (step Number_toString v st MapPress) = Null /\
  tasks (step Number_toString v st MapPress) = tasks st /\
  exists c,
    calloutData (run Number_toString v st [MapPress; Observed tid r]) = Def c /\
    Callout.stationName c = Stn.name sp /\ Callout.position c = p /\
    (classify c = Ready \/ classify c = NotAvailable \/ classify c = FetchFailed).
Proof.
  intros H Ht Hsp. rewrite (step_MapPress st ms co H). cbn [calloutData tasks].
  split; [reflexivity |]. split; [reflexivity |].
  unfold run. cbn [fold_left]. rewrite (step_MapPress st ms co H).
  edestruct (step_Observed) as (c & new & -> & Hn & Hp & Hk & _);
    [cbn [tasks]; exact Ht | exact Hsp |].
  exists c. cbn [calloutData]. auto.
Qed.

(** C1.  Station A is selected, then station B, both projections
    settle, and B's view-model is on display (Loading, or B's result when
    B's request has settled).  When A's request settles then, its
    view-model is published without any comparison of identifiers: the
    view-model on display carries A's name. *)
Theorem stale_observation_overwrites (st : state) (ms : list marker)
    (co : nullable callout_view) (a b : nat) (mkA mkB : marker)
    (pA pB : Point) (rA : axios Obs.data) (rB : option (axios Obs.data)) :
  render v st = Ok (MapScreen ms co) ->
  ms !! a = Some mkA -> ms !! b = Some mkB ->
  exists cB cA,
    calloutData (run Number_toString v st
                   ([MarkerPress a; Projected (next_task st) (Ok pA);
                     MarkerPress b; Projected (S (next_task st)) (Ok pB)]
                    ++ settle (S (next_task st)) rB)) = Def cB /\
    Callout.stationName cB = station_name (pressed mkB) /\
    calloutData (run Number_toString v st
                   ([MarkerPress a; Projected (next_task st) (Ok pA);
                     MarkerPress b; Projected (S (next_task st)) (Ok pB)]
                    ++ settle (S (next_task st)) rB
                    ++ [Observed (next_task st) rA])) = Def cA /\
    Callout.stationName cA = station_name (pressed mkA) /\
    Callout.position cA = pA.
Proof.
  intros H Ha Hb.
  destruct (marker_wf _ _ _ _ _ H Ha) as (spA & _ & _ & HspA & _).
  destruct (marker_wf _ _ _ _ _ H Hb) as (spB & _ & _ & HspB & _).
  unfold station_name. rewrite HspA, HspB. cbn [optchain].
  set (t := next_task st).
  (* A is selected *)
  destruct (MarkerPress_fields st ms co a mkA H Ha) as (T1 & N1 & L1 & S1 & _).
  set (st1 := step Number_toString v st (MarkerPress a)) in *.
  assert (R1 : render v st1 = Ok (MapScreen ms (render_callout v (calloutData st1))))
    by (apply (render_same_stations st st1 ms co); assumption).
  assert (E2 := step_Projected st1 t (pressed mkA) spA pA
                  ltac:(rewrite T1; apply lookup_insert_eq) HspA).
  set (st2 := step Number_toString v st1 (Projected t (Ok pA))) in *.
  assert (R2 : render v st2 = Ok (MapScreen ms (render_callout v (calloutData st2))))
    by (apply (render_same_stations st1 st2 ms _ R1); rewrite E2; reflexivity).
  (* B is selected *)
  destruct (MarkerPress_fields st2 ms _ b mkB R2 Hb) as (T3 & N3 & L3 & S3 & _).
  assert (N2 : next_task st2 = S t) by (rewrite E2; exact N1).
  rewrite N2 in T3.
  set (st3 := step Number_toString v st2 (MarkerPress b)) in *.
  assert (E4 := step_Projected st3 (S t) (pressed mkB) spB pB
                  ltac:(rewrite T3; apply lookup_insert_eq) HspB).
  set (st4 := step Number_toString v st3 (Projected (S t) (Ok pB))) in *.
  assert (T4 : tasks st4 !! t = Some (AwaitObservation (pressed mkA) pA)).
  { rewrite E4. cbn [tasks]. rewrite lookup_insert_ne, lookup_delete_ne by lia.
    rewrite T3, lookup_insert_ne by lia. rewrite E2. cbn [tasks].
    apply lookup_insert_eq. }
  assert (T4' : tasks st4 !! S t = Some (AwaitObservation (pressed mkB) pB)).
  { rewrite E4. cbn [tasks]. apply lookup_insert_eq. }
  assert (C4 : calloutData st4 = Def (loading_callout spB pB)) by (rewrite E4; reflexivity).
  assert (Hrun : forall evs,
            run Number_toString v st
              ([MarkerPress a; Projected t (Ok pA); MarkerPress b; Projected (S t) (Ok pB)]
               ++ evs) = run Number_toString v st4 evs) by reflexivity.
  rewrite !Hrun.
  destruct rB as [rB |]; cbn [settle].
  - destruct (step_Observed st4 (S t) (pressed mkB) spB pB rB T4' HspB)
      as (cB & newB & E5 & HnB & _).
    assert (T5 : tasks (step Number_toString v st4 (Observed (S t) rB)) !! t
                 = Some (AwaitObservation (pressed mkA) pA)).
    { rewrite E5. cbn [tasks]. rewrite lookup_delete_ne by lia. exact T4. }
    destruct (step_Observed _ t (pressed mkA) spA pA rA T5 HspA)
      as (cA & newA & E6 & HnA & HpA & _).
    exists cB, cA. unfold run. cbn [fold_left app]. rewrite E6, E5. cbn [calloutData]. auto.
  - destruct (step_Observed st4 t (pressed mkA) spA pA rA T4 HspA)
      as (cA & newA & E6 & HnA & HpA & _).
    exists (loading_callout spB pB), cA. unfold run. cbn [fold_left app].
    rewrite E6. cbn [calloutData]. auto.
Qed.

(** *** The directory load *)

Lemma load_always_clears_loading (r : axios Stn.data) :
  loading (step Number_toString v (init v) (StationsResponse r)) = false.
Proof. reflexivity. Qed.

(** A load whose handler throws inside its [try] block: the failure is
    logged, the station collection stays empty, and the screen goes from
    Loading to the map, with no marker and no error state. *)
Lemma failed_load_leaves_empty_map (r : axios Stn.data) (e : exn) :
  stations_of_response v r = Throw e ->
  render v (init v) = Ok LoadingScreen /\
  stations (step Number_toString v (init v) (StationsResponse r)) = Def [] /\
  loading (step Number_toString v (init v) (StationsResponse r)) = false /\
  trace (step Number_toString v (init v) (StationsResponse r)) =
    [EGet Directory (stations_url v);
     EConsoleError "Failed to fetch station data:" e;
     ESetLoading false] /\
  render v (step Number_toString v (init v) (StationsResponse r)) = Ok (MapScreen [] Null).
Proof.
  intros H. cbn [step init directory_pending]. unfold fetchStations_resume.
  rewrite H. repeat split.
Qed.

End ScreenFacts.

(** The loads that throw: a rejected request and a response without
    data in both variants; in the filtering variant also a body without
    [features] and an entry that is null. *)
Lemma load_failures :
  (forall v e, stations_of_response v (Rejected e) = Throw e) /\
  (forall v d, neq_null d = false ->
     stations_of_response v (Resolved d) = Throw (TypeError "features")) /\
  (forall d, neq_null (Stn.features d) = false ->
     stations_of_response KFiltered (Resolved (Def d)) = Throw (TypeError "filter")) /\
  (forall s l, neq_null s = false ->
     stations_of_response KFiltered (Resolved (Def {| Stn.features := Def (s :: l) |}))
       = Throw (TypeError "properties")).
Proof.
  repeat split.
  - intros v d H. destruct d; [reflexivity .. | discriminate].
  - intros d H. unfold stations_of_response. cbn [get bind].
    destruct (Stn.features d); [reflexivity .. | discriminate].
  - intros s l H. destruct s; [reflexivity .. | discriminate].
Qed.

(** C5, at the failing input.  A directory response whose body has no
    [features] (the body [{}], or [features: null]) is a malformed
    payload.  In [App.js] nothing throws inside the [try] block:
    [setStations] is called with [undefined], nothing is logged, the
    loading flag is cleared, and the render of the map throws at
    [stations.map].  The sibling calls [filter] on the missing list inside
    its [try] block: the failure is logged, the collection stays empty and
    the map is shown with no marker. *)
Theorem load_without_features_not_handled (Number_toString : number -> string) :
  trace (step Number_toString Unfiltered (init Unfiltered)
           (StationsResponse (Resolved (Def {| Stn.features := Undefined |}))))
    = [EGet Directory (stations_url Unfiltered); ESetStations Undefined; ESetLoading false] /\
  stations (step Number_toString Unfiltered (init Unfiltered)
              (StationsResponse (Resolved (Def {| Stn.features := Undefined |}))))
    = Undefined /\
  loading (step Number_toString Unfiltered (init Unfiltered)
             (StationsResponse (Resolved (Def {| Stn.features := Undefined |}))))
    = false /\
  render Unfiltered
    (step Number_toString Unfiltered (init Unfiltered)
       (StationsResponse (Resolved (Def {| Stn.features := Undefined |}))))
    = Throw (TypeError "map") /\
  trace (step Number_toString Unfiltered (init Unfiltered)
           (StationsResponse (Resolved (Def {| Stn.features := Null |}))))
    = [EGet Directory (stations_url Unfiltered); ESetStations Null; ESetLoading false] /\
  render Unfiltered
    (step Number_toString Unfiltered (init Unfiltered)
       (StationsResponse (Resolved (Def {| Stn.features := Null |}))))
    = Throw (TypeError "map") /\
  trace (step Number_toString KFiltered (init KFiltered)
           (StationsResponse (Resolved (Def {| Stn.features := Undefined |}))))
    = [EGet Directory (stations_url KFiltered);
       EConsoleError "Failed to fetch station data:" (TypeError "filter");
       ESetLoading false] /\
  stations (step Number_toString KFiltered (init KFiltered)
              (StationsResponse (Resolved (Def {| Stn.features := Undefined |}))))
    = Def [] /\
  render KFiltered
    (step Number_toString KFiltered (init KFiltered)
       (StationsResponse (Resolved (Def {| Stn.features := Undefined |}))))
    = Ok (MapScreen [] Null).
Proof. repeat split. Qed.

(** A payload whose temperature object holds no value is classified
    NotAvailable. *)
Lemma temperature_without_value_not_available (nts : number -> string)
    (station : Stn.feature) (point : Point) (d : Obs.data) (p : Obs.props)
    (q : Obs.quantity) (sp : Stn.props) :
  Obs.properties d = Def p -> Obs.temperature p = Def q ->
  neq_null (Obs.value q) = false -> Stn.properties station = Def sp ->
  exists c, observation_callout nts station point (Resolved (Def d)) = Ok c /\
            classify c = NotAvailable.
Proof.
  intros Hp Hq Hv Hsp. eexists. split.
  - apply (observation_callout_no_value nts station point (Def d) sp); [| exact Hsp].
    rewrite (has_temperature_value d p q Hp Hq), Hv. reflexivity.
  - reflexivity.
Qed.

(** C2, at the failing input.  A payload with properties whose
    temperature object is itself null (or absent) makes the condition of
    [handleMarkerPress] throw; the [catch] block publishes the Fetch
    failed view-model, not No recent observation. *)
Theorem missing_temperature_reported_as_fetch_failed :
  has_temperature (Def {| Obs.properties := Def (with_temperature Null sample_props) |})
    = Throw (TypeError "value") /\
  has_temperature (Def {| Obs.properties := Def (with_temperature Undefined sample_props) |})
    = Throw (TypeError "value") /\
  exists c,
    calloutData
      (run sample_toString Unfiltered (init Unfiltered)
         [StationsResponse sample_directory; MarkerPress 0;
          Projected 0 (Ok (sample_point 160 240));
          Observed 0 (observation (with_temperature Null sample_props))]) = Def c /\
    classify c = FetchFailed /\
    Callout.error c = Def "Fetch failed."%string.
Proof. split; [reflexivity |]. split; [reflexivity |]. eexists. repeat split. Qed.

Lemma dismissal_keeps_the_fetch_alive_witness :
  (exists ms co,
     render Unfiltered
       (run sample_toString Unfiltered (init Unfiltered)
          [StationsResponse sample_directory; MarkerPress 0;
           Projected 0 (Ok (sample_point 160 240))]) = Ok (MapScreen ms co)) /\
  tasks (run sample_toString Unfiltered (init Unfiltered)
           [StationsResponse sample_directory; MarkerPress 0;
            Projected 0 (Ok (sample_point 160 240))]) !! 0
    = Some (AwaitObservation KJFK (sample_point 160 240)) /\
  exists c,
    calloutData
      (run sample_toString Unfiltered (init Unfiltered)
         [StationsResponse sample_directory; MarkerPress 0;
          Projected 0 (Ok (sample_point 160 240));
          MapPress; Observed 0 (observation sample_props)]) = Def c /\
    Callout.stationName c = Def "New York, Kennedy International Airport"%string /\
    Callout.position c = sample_point 160 240.
Proof.
  assert (Hr : exists ms co,
             render Unfiltered
               (run sample_toString Unfiltered (init Unfiltered)
                  [StationsResponse sample_directory; MarkerPress 0;
                   Projected 0 (Ok (sample_point 160 240))]) = Ok (MapScreen ms co))
    by (eexists _, _; vm_compute; reflexivity).
  assert (Ht : tasks (run sample_toString Unfiltered (init Unfiltered)
                        [StationsResponse sample_directory; MarkerPress 0;
                         Projected 0 (Ok (sample_point 160 240))]) !! 0
               = Some (AwaitObservation KJFK (sample_point 160 240)))
    by (vm_compute; reflexivity).
  split; [exact Hr |]. split; [exact Ht |].
  destruct Hr as (ms & co & Hr).
  destruct (dismissal_keeps_the_fetch_alive sample_toString Unfiltered
              (run sample_toString Unfiltered (init Unfiltered)
                 [StationsResponse sample_directory; MarkerPress 0;
                  Projected 0 (Ok (sample_point 160 240))])
              ms co 0 KJFK
              {| Stn.stationIdentifier := Def "KJFK"%string;
                 Stn.name := Def "New York, Kennedy International Airport"%string |}
              (sample_point 160 240) (observation sample_props)
              Hr Ht eq_refl) as (_ & _ & c & H1 & H2 & H3 & _).
  exists c. split; [| split; assumption].
  change [StationsResponse sample_directory; MarkerPress 0;
          Projected 0 (Ok (sample_point 160 240));
          MapPress; Observed 0 (observation sample_props)]
    with ([StationsResponse sample_directory; MarkerPress 0;
           Projected 0 (Ok (sample_point 160 240))]
          ++ [MapPress; Observed 0 (observation sample_props)]).
  unfold run in H1 |- *. rewrite fold_left_app. exact H1.
Defined.

(** The fetch in flight at the dismissal is shown when it settles. *)
Lemma dismissed_fetch_is_displayed :
  calloutData
    (run sample_toString Unfiltered (init Unfiltered)
       [StationsResponse sample_directory; MarkerPress 0;
        Projected 0 (Ok (sample_point 160 240)); MapPress]) = Null /\
  exists c,
    calloutData
      (run sample_toString Unfiltered (init Unfiltered)
         [StationsResponse sample_directory; MarkerPress 0;
          Projected 0 (Ok (sample_point 160 240)); MapPress;
          Observed 0 (observation sample_props)]) = Def c /\
    classify c = Ready /\
    Callout.stationName c = Def "New York, Kennedy International Airport"%string.
Proof. split; [reflexivity |]. eexists. repeat split. Qed.

Lemma stale_observation_overwrites_witness :
  (exists ms co mkA mkB,
     render KFiltered
       (run sample_toString KFiltered (init KFiltered) [StationsResponse sample_directory])
       = Ok (MapScreen ms co) /\
     ms !! 0 = Some mkA /\ ms !! 1 = Some mkB /\
     pressed mkA = KJFK /\ pressed mkB = KDEN) /\
  exists cB cA,
    calloutData
      (run sample_toString KFiltered
         (run sample_toString KFiltered (init KFiltered) [StationsResponse sample_directory])
         ([MarkerPress 0; Projected 0 (Ok (sample_point 160 240));
           MarkerPress 1; Projected 1 (Ok (sample_point 90 300))]
          ++ settle 1 (Some (observation sample_props)))) = Def cB /\
    Callout.stationName cB = Def "Denver International Airport"%string /\
    calloutData
      (run sample_toString KFiltered
         (run sample_toString KFiltered (init KFiltered) [StationsResponse sample_directory])
         ([MarkerPress 0; Projected 0 (Ok (sample_point 160 240));
           MarkerPress 1; Projected 1 (Ok (sample_point 90 300))]
          ++ settle 1 (Some (observation sample_props))
          ++ [Observed 0 (observation sample_props)])) = Def cA /\
    Callout.stationName cA = Def "New York, Kennedy International Airport"%string /\
    Callout.position cA = sample_point 160 240.
Proof.
  split; [eexists _, _, _, _; repeat split; reflexivity |].
  exact (stale_observation_overwrites sample_toString KFiltered
           (run sample_toString KFiltered (init KFiltered) [StationsResponse sample_directory])
           _ _ 0 1 _ _ (sample_point 160 240) (sample_point 90 300)
           (observation sample_props) (Some (observation sample_props))
           eq_refl eq_refl eq_refl).
Defined.

(** *** Traces *)

Section TraceFacts.

Lemma projections_app (tid : nat) (tr new : list effect) :
  projections tid (tr ++ new) = projections tid tr + projections tid new.
Proof. unfold projections. rewrite List.filter_app, List.length_app. reflexivity. Qed.

Lemma published_app (tid : nat) (tr new : list effect) :
  published tid (tr ++ new) = published tid tr ++ published tid new.
Proof. unfold published. apply flat_map_app. Qed.

Lemma not_of_task_projections (tid : nat) (tr : list effect) :
  (forall e, In e tr -> of_task tid e = false) -> projections tid tr = 0.
Proof.
  induction tr as [| e tr IH]; intros H; [reflexivity |].
  unfold projections in *. cbn [List.filter].
  assert (He : is_project tid e = false).
  { specialize (H e (or_introl eq_refl)). destruct e; auto. }
  rewrite He. apply IH. intros e' He'. apply H. right. exact He'.
Qed.

Lemma only_projections_published (tid : nat) (tr : list effect) :
  (forall e, In e tr -> of_task tid e = true -> is_project tid e = true) ->
  published tid tr = [] /\ forall url, ~ In (EGet (Task tid) url) tr.
Proof.
  induction tr as [| e tr IH]; intros H; [split; [reflexivity | intros url []] |].
  destruct IH as [IH1 IH2]; [intros e' He'; apply H; right; exact He' |].
  specialize (H e (or_introl eq_refl)).
  split.
  - unfold published in *. cbn [flat_map]. rewrite IH1.
    destruct e as [| | | | [t |] [| | c] |]; try reflexivity.
    cbn in *. destruct (Nat.eqb t tid); [| reflexivity]. discriminate (H eq_refl).
  - intros url [-> | Hin]; [| exact (IH2 url Hin)].
    cbn in H. rewrite Nat.eqb_refl in H. discriminate (H eq_refl).
Qed.

Lemma own_other_task (tid tid' : nat) (p : Point) (e : effect) :
  own tid p e -> tid' <> tid -> of_task tid' e = false.
Proof.
  intros [H | (c & -> & _)] Hne.
  - destruct e as [[|] | | | | [|] |]; try discriminate; reflexivity.
  - cbn. apply Nat.eqb_neq. congruence.
Qed.

Lemma own_not_project (tid tid' : nat) (p : Point) (new : list effect) :
  Forall (own tid p) new -> projections tid' new = 0.
Proof.
  induction 1 as [| e new He _ IH]; [reflexivity |].
  unfold projections in *. cbn [List.filter].
  destruct He as [He | (c & -> & _)]; [| exact IH].
  destruct e; try discriminate; exact IH.
Qed.

Lemma own_published (tid : nat) (p : Point) (new : list effect) (c : Callout.t) :
  Forall (own tid p) new -> In c (published tid new) ->
  Callout.position c = p /\ classify c <> Other.
Proof.
  induction 1 as [| e new He _ IH]; [intros [] |].
  unfold published in *. cbn [flat_map]. rewrite in_app_iff. intros [Hin | Hin]; [| auto].
  destruct He as [He | (c' & -> & Hp & Hk)].
  - destruct e as [| | | | [|] |]; try discriminate; destruct Hin.
  - cbn in Hin. rewrite Nat.eqb_refl in Hin. destruct Hin as [<- | []]. auto.
Qed.

Lemma other_task_published (tid : nat) (new : list effect) :
  (forall e, In e new -> of_task tid e = false) -> published tid new = [].
Proof.
  induction new as [| e new IH]; intros H; [reflexivity |].
  unfold published in *. cbn [flat_map]. rewrite IH by (intros e' He'; apply H; right; exact He').
  specialize (H e (or_introl eq_refl)).
  destruct e as [| | | | [t |] [| | c] |]; try reflexivity.
  cbn in *. rewrite H. reflexivity.
Qed.

Lemma fetch_after_anchor_snoc (tr : list effect) (e : effect) :
  fetch_after_anchor tr ->
  (forall tid url, e = EGet (Task tid) url ->
     projections tid tr = 1 /\ exists c, In c (published tid tr) /\ classify c = Loading) ->
  fetch_after_anchor (tr ++ [e]).
Proof.
  intros Htr He tid pre url post Heq.
  destruct post as [| y post] using rev_ind.
  - apply app_inj_tail in Heq. destruct Heq as [-> ->]. apply (He tid url eq_refl).
  - clear IHpost. rewrite app_comm_cons, app_assoc in Heq.
    apply app_inj_tail in Heq. destruct Heq as [-> _]. eapply Htr. reflexivity.
Qed.

Lemma fetch_after_anchor_app (tr new : list effect) :
  fetch_after_anchor tr ->
  (forall tid url, ~ In (EGet (Task tid) url) new) ->
  fetch_after_anchor (tr ++ new).
Proof.
  revert tr. induction new as [| e new IH]; intros tr Htr Hnew.
  - rewrite app_nil_r. exact Htr.
  - replace (tr ++ e :: new) with ((tr ++ [e]) ++ new) by (rewrite <- app_assoc; reflexivity).
    apply IH.
    + apply fetch_after_anchor_snoc; [exact Htr |].
      intros tid url ->. exfalso. apply (Hnew tid url). left. reflexivity.
    + intros tid url Hin. apply (Hnew tid url). right. exact Hin.
Qed.

Lemma own_no_fetch (tid : nat) (p : Point) (new : list effect) :
  Forall (own tid p) new -> forall tid' url, ~ In (EGet (Task tid') url) new.
Proof.
  intros H tid' url Hin. rewrite List.Forall_forall in H. specialize (H _ Hin).
  destruct H as [H | (c & H & _)]; discriminate.
Qed.

End TraceFacts.

Section ShapeFacts.
Variable Number_toString : number -> string.
Variable v : variant.

Lemma shape_refl (st : state) : shape st st.
Proof.
  apply (shape_quiet st st []); auto. symmetry. apply app_nil_r.
Qed.

Lemma observation_callout_own (tid : nat) (station : Stn.feature) (point : Point)
    (r : axios Obs.data) (c : Callout.t) :
  observation_callout Number_toString station point r = Ok c ->
  own tid point (ESetCalloutData (Some tid) (Def c)).
Proof.
  intros H. right. exists c. split; [reflexivity |].
  unfold observation_callout in H.
  destruct r as [d | e]; [| discriminate].
  destruct (has_temperature d) as [[|] | e]; unbind; [| | discriminate].
  - destruct d as [| | d]; try discriminate. unbind.
    destruct (Obs.properties d) as [| | p]; try discriminate. unbind.
    destruct (Stn.properties station) as [| | sp]; try discriminate. unbind.
    destruct (Obs.temperature p) as [| | q]; try discriminate. unbind.
    injection H as <-. cbn. split; [reflexivity | discriminate].
  - destruct (Stn.properties station) as [| | sp]; try discriminate. unbind.
    injection H as <-. cbn. split; [reflexivity | discriminate].
Qed.

Lemma observation_catch_trace (tid : nat) (station : Stn.feature) (point : Point)
    (e : exn) (st : state) :
  tasks (observation_catch tid station point e st) = tasks st /\
  next_task (observation_catch tid station point e st) = next_task st /\
  exists new, trace (observation_catch tid station point e st) = trace st ++ new /\
              Forall (own tid point) new.
Proof.
  unfold observation_catch.
  destruct (get (Stn.properties station) "name"%string Stn.name) as [nm | e'].
  - split; [reflexivity |]. split; [reflexivity |]. eexists. split.
    + cbn. rewrite <- app_assoc. reflexivity.
    + constructor; [left; reflexivity |]. constructor; [| constructor].
      right. eexists. split; [reflexivity |].
      cbn. split; [reflexivity | discriminate].
  - split; [reflexivity |]. split; [reflexivity |]. eexists. split; [reflexivity |].
    constructor; [left; reflexivity | constructor].
Qed.

(** Every step has one of the four shapes. *)
Lemma step_shape (st : state) (ev : event) : shape st (step Number_toString v st ev).
Proof.
  destruct ev as [r | i | tid r | tid r |]; cbn [step].
  - destruct (directory_pending st); [| apply shape_refl].
    unfold fetchStations_resume.
    destruct (stations_of_response v r) as [s | e].
    + apply (shape_quiet _ _ [ESetStations s; ESetLoading false]); auto.
      cbn. rewrite <- app_assoc. reflexivity.
    + apply (shape_quiet _ _ [EConsoleError "Failed to fetch station data:"%string e;
                              ESetLoading false]); auto.
      cbn. rewrite <- app_assoc. reflexivity.
  - destruct (render v st) as [[| ms co] | e]; try apply shape_refl.
    destruct (ms !! i) as [mk |]; [| apply shape_refl].
    unfold handleMarkerPress.
    destruct (c ← get (Stn.geometry (pressed mk)) "coordinates"%string Stn.coordinates;
              destructure2 c) as [[longitude latitude] | e]; [| apply shape_refl].
    apply (shape_press _ _ (pressed mk) latitude longitude); reflexivity.
  - destruct (tasks st !! tid) as [[f | f p] |] eqn:Ht; try apply shape_refl.
    unfold handleMarkerPress_projected.
    destruct r as [point | e].
    + destruct (get (Stn.properties f) "name"%string Stn.name) as [nm | e].
      * destruct (get (Stn.properties f) "stationIdentifier"%string Stn.stationIdentifier)
          as [id | e].
        -- eapply (shape_load _ _ tid f point);
             [exact Ht | reflexivity | reflexivity
             | cbn; rewrite <- app_assoc; reflexivity | reflexivity | reflexivity].
        -- match goal with
           | |- shape _ (observation_catch ?t ?f ?p ?e ?s) =>
               destruct (observation_catch_trace t f p e s) as (T & N & new & Tr & Hown)
           end.
           eapply (shape_end _ _ tid (AwaitPoint f) point
                     (ESetCalloutData (Some tid) _ :: new));
             [exact Ht | discriminate | rewrite T; reflexivity | rewrite N; reflexivity
             | rewrite Tr; cbn; rewrite <- app_assoc; reflexivity |].
           constructor; [| exact Hown].
           right. eexists. split; [reflexivity |]. cbn. split; [reflexivity | discriminate].
      * apply (shape_quiet _ _ []); auto.
        -- cbn. intros t k Hk. apply lookup_delete_Some in Hk. tauto.
        -- cbn. symmetry. apply app_nil_r.
    + apply (shape_quiet _ _ []); auto.
      * cbn. intros t k Hk. apply lookup_delete_Some in Hk. tauto.
      * cbn. symmetry. apply app_nil_r.
  - destruct (tasks st !! tid) as [[f | f p] |] eqn:Ht; try apply shape_refl.
    unfold handleMarkerPress_observed.
    destruct (observation_callout Number_toString f p r) as [c | e] eqn:Hc.
    + apply (shape_end _ _ tid (AwaitObservation f p) p [ESetCalloutData (Some tid) (Def c)]);
        try reflexivity; [exact Ht | congruence |].
      constructor; [| constructor]. exact (observation_callout_own tid f p r c Hc).
    + match goal with
      | |- shape _ (observation_catch ?t ?f ?p ?e ?s) =>
          destruct (observation_catch_trace t f p e s) as (T & N & new & Tr & Hown)
      end.
      apply (shape_end _ _ tid (AwaitObservation f p) p new);
        [exact Ht | congruence | rewrite T; reflexivity | rewrite N; reflexivity
        | rewrite Tr; reflexivity | exact Hown].
  - destruct (render v st) as [[| ms co] | e]; try apply shape_refl.
    apply (shape_quiet _ _ [ESetCalloutData None Null]); auto.
Qed.

End ShapeFacts.

Section InvariantFacts.

Lemma neutral_not_of_task (tid : nat) (e : effect) : neutral e = true -> of_task tid e = false.
Proof. destruct e as [[|] | | | | [|] |]; try discriminate; reflexivity. Qed.

Lemma in_published_app (tid : nat) (tr new : list effect) (c : Callout.t) :
  In c (published tid (tr ++ new)) <-> In c (published tid tr) \/ In c (published tid new).
Proof. rewrite published_app. apply in_app_iff. Qed.

Lemma task_is_old (st : state) (tid : nat) (k : task) :
  Inv st -> tasks st !! tid = Some k -> tid < next_task st.
Proof.
  intros I Hk. destruct (Nat.lt_ge_cases tid (next_task st)) as [H | H]; [exact H |].
  rewrite (inv_fresh_task st I tid H) in Hk. discriminate.
Qed.

(** What a task has published sits at the point of its view-models to
    come. *)
Lemma published_at (st : state) (tid : nat) (k : task) (p : Point) (c : Callout.t) :
  Inv st -> tasks st !! tid = Some k ->
  (forall f p', k = AwaitObservation f p' -> p' = p) ->
  In c (published tid (trace st)) -> Callout.position c = p.
Proof.
  intros I Hk Hp Hc. destruct k as [f | f p'].
  - destruct (only_projections_published tid (trace st)) as [E _].
    + intros e He. exact (inv_await_point st I tid f e Hk He).
    + rewrite E in Hc. destruct Hc.
  - rewrite <- (Hp f p' eq_refl). exact (inv_await_observation st I tid f p' c Hk Hc).
Qed.

(** A step whose new effects are all the task's own, at its point,
    and which starts no task, keeps the invariant. *)
Lemma Inv_own (st st' : state) (tid : nat) (k : task) (p : Point) (new : list effect) :
  Inv st ->
  tasks st !! tid = Some k ->
  (forall f p', k = AwaitObservation f p' -> p' = p) ->
  tasks st' = delete tid (tasks st) ->
  next_task st' = next_task st ->
  trace st' = trace st ++ new ->
  Forall (own tid p) new ->
  Inv st'.
Proof.
  intros I Hk Hp T N Tr Hown.
  pose proof (task_is_old st tid k I Hk) as Hold.
  assert (Hother : forall t e, t <> tid -> In e new -> of_task t e = false).
  { intros t e Ht He. rewrite List.Forall_forall in Hown.
    exact (own_other_task tid t p e (Hown e He) Ht). }
  constructor; rewrite ?T, ?N, ?Tr.
  - intros t Ht. rewrite lookup_delete_None. right. exact (inv_fresh_task st I t Ht).
  - intros t e Ht He. apply in_app_iff in He. destruct He as [He | He].
    + exact (inv_fresh_trace st I t e Ht He).
    + apply Hother; [lia | exact He].
  - intros t Ht. rewrite projections_app, (own_not_project tid t p new Hown).
    rewrite (inv_once st I t Ht). reflexivity.
  - intros t f e Ht He Hof. apply lookup_delete_Some in Ht. destruct Ht as [Hne Ht].
    apply in_app_iff in He. destruct He as [He | He].
    + exact (inv_await_point st I t f e Ht He Hof).
    + rewrite (Hother t e) in Hof by auto. discriminate.
  - intros t f p' c Ht Hc. apply lookup_delete_Some in Ht. destruct Ht as [Hne Ht].
    apply in_published_app in Hc. destruct Hc as [Hc | Hc].
    + exact (inv_await_observation st I t f p' c Ht Hc).
    + rewrite (other_task_published t new) in Hc by (intros e He; apply Hother; auto).
      destruct Hc.
  - intros t c c' Hc Hc'. destruct (Nat.eq_dec t tid) as [-> | Hne].
    + assert (Hat : forall c0, In c0 (published tid (trace st ++ new)) ->
                               Callout.position c0 = p).
      { intros c0 H0. apply in_published_app in H0. destruct H0 as [H0 | H0].
        - exact (published_at st tid k p c0 I Hk Hp H0).
        - exact (proj1 (own_published tid p new c0 Hown H0)). }
      rewrite (Hat c Hc), (Hat c' Hc'). reflexivity.
    + rewrite published_app, (other_task_published t new), app_nil_r in Hc, Hc'
        by (intros e He; apply Hother; auto).
      exact (inv_same_anchor st I t c c' Hc Hc').
  - intros t c Hc. apply in_published_app in Hc. destruct Hc as [Hc | Hc].
    + exact (inv_status st I t c Hc).
    + destruct (Nat.eq_dec t tid) as [-> | Hne].
      * exact (proj2 (own_published tid p new c Hown Hc)).
      * rewrite (other_task_published t new) in Hc by (intros e He; apply Hother; auto).
        destruct Hc.
  - apply fetch_after_anchor_app; [exact (inv_order st I) |].
    exact (own_no_fetch tid p new Hown).
Qed.

Lemma Inv_quiet (st st' : state) (new : list effect) :
  Inv st ->
  (forall t k, tasks st' !! t = Some k -> tasks st !! t = Some k) ->
  next_task st' = next_task st ->
  trace st' = trace st ++ new ->
  Forall (fun e => neutral e = true) new ->
  Inv st'.
Proof.
  intros I T N Tr Hnew.
  assert (Hnot : forall t e, In e new -> of_task t e = false).
  { intros t e He. rewrite List.Forall_forall in Hnew.
    apply neutral_not_of_task, Hnew, He. }
  assert (Hpub : forall t, published t new = [])
    by (intros t; apply other_task_published; intros e He; apply Hnot; exact He).
  assert (Hproj : forall t, projections t new = 0)
    by (intros t; apply not_of_task_projections; intros e He; apply Hnot; exact He).
  constructor; rewrite ?N, ?Tr.
  - intros t Ht. destruct (tasks st' !! t) as [k |] eqn:E; [| reflexivity].
    apply T in E. rewrite (inv_fresh_task st I t Ht) in E. discriminate.
  - intros t e Ht He. apply in_app_iff in He. destruct He as [He | He]; auto.
    exact (inv_fresh_trace st I t e Ht He).
  - intros t Ht. rewrite projections_app, Hproj, (inv_once st I t Ht). reflexivity.
  - intros t f e Ht He Hof. apply in_app_iff in He. destruct He as [He | He].
    + exact (inv_await_point st I t f e (T _ _ Ht) He Hof).
    + rewrite (Hnot t e He) in Hof. discriminate.
  - intros t f p c Ht Hc. rewrite published_app, Hpub, app_nil_r in Hc.
    exact (inv_await_observation st I t f p c (T _ _ Ht) Hc).
  - intros t c c' Hc Hc'. rewrite published_app, Hpub, app_nil_r in Hc, Hc'.
    exact (inv_same_anchor st I t c c' Hc Hc').
  - intros t c Hc. rewrite published_app, Hpub, app_nil_r in Hc.
    exact (inv_status st I t c Hc).
  - apply fetch_after_anchor_app; [exact (inv_order st I) |].
    intros t url Hin. specialize (Hnot t _ Hin). cbn in Hnot.
    rewrite Nat.eqb_refl in Hnot. discriminate.
Qed.

Lemma Inv_press (st st' : state) (f : Stn.feature) (latitude longitude : nullable number) :
  Inv st ->
  tasks st' = <[next_task st := AwaitPoint f]> (tasks st) ->
  next_task st' = S (next_task st) ->
  trace st' = trace st ++ [EProject (next_task st) latitude longitude] ->
  Inv st'.
Proof.
  intros I T N Tr. set (n := next_task st) in *.
  assert (Hpub : forall t, published t (trace st ++ [EProject n latitude longitude])
                           = published t (trace st))
    by (intros t; rewrite published_app; apply app_nil_r).
  constructor; rewrite ?T, ?N, ?Tr.
  - intros t Ht. rewrite lookup_insert_ne by lia. apply (inv_fresh_task st I). unfold n in *. lia.
  - intros t e Ht He. apply in_app_iff in He. destruct He as [He | [<- | []]].
    + apply (inv_fresh_trace st I t e); [unfold n in *; lia | exact He].
    + cbn. apply Nat.eqb_neq. lia.
  - intros t Ht. rewrite projections_app. destruct (Nat.eq_dec t n) as [-> | Hne].
    + rewrite (not_of_task_projections n (trace st)).
      * unfold projections. cbn. rewrite Nat.eqb_refl. reflexivity.
      * intros e He. apply (inv_fresh_trace st I n e); [reflexivity | exact He].
    + rewrite (inv_once st I t) by (unfold n in *; lia).
      unfold projections. cbn. apply Nat.eqb_neq in Hne. rewrite Nat.eqb_sym, Hne. reflexivity.
  - intros t f' e Ht He Hof. apply in_app_iff in He.
    destruct (Nat.eq_dec t n) as [-> | Hne].
    + destruct He as [He | [<- | []]]; [| exact Hof].
      rewrite (inv_fresh_trace st I n e) in Hof; [discriminate | reflexivity | exact He].
    + rewrite lookup_insert_ne in Ht by auto.
      destruct He as [He | [<- | []]]; [| exact Hof].
      exact (inv_await_point st I t f' e Ht He Hof).
  - intros t f' p c Ht Hc. destruct (Nat.eq_dec t n) as [-> | Hne].
    + rewrite lookup_insert_eq in Ht. discriminate.
    + rewrite lookup_insert_ne in Ht by auto. rewrite Hpub in Hc.
      exact (inv_await_observation st I t f' p c Ht Hc).
  - intros t c c' Hc Hc'. rewrite Hpub in Hc, Hc'.
    exact (inv_same_anchor st I t c c' Hc Hc').
  - intros t c Hc. rewrite Hpub in Hc. exact (inv_status st I t c Hc).
  - apply fetch_after_anchor_snoc; [exact (inv_order st I) | discriminate].
Qed.

Lemma Inv_load (st st' : state) (tid : nat) (f : Stn.feature) (p : Point)
    (c : Callout.t) (url : string) :
  Inv st ->
  tasks st !! tid = Some (AwaitPoint f) ->
  tasks st' = <[tid := AwaitObservation f p]> (delete tid (tasks st)) ->
  next_task st' = next_task st ->
  trace st' = trace st ++ [ESetCalloutData (Some tid) (Def c); EGet (Task tid) url] ->
  Callout.position c = p ->
  classify c = Loading ->
  Inv st'.
Proof.
  intros I Hk T N Tr Hp Hc.
  pose proof (task_is_old st tid _ I Hk) as Hold.
  destruct (only_projections_published tid (trace st)) as [Hnone _];
    [intros e He; exact (inv_await_point st I tid f e Hk He) |].
  set (new := [ESetCalloutData (Some tid) (Def c); EGet (Task tid) url]) in *.
  assert (Hother : forall t e, t <> tid -> In e new -> of_task t e = false).
  { intros t e Ht [<- | [<- | []]]; cbn; apply Nat.eqb_neq; congruence. }
  assert (Hmine : published tid (trace st ++ new) = [c]).
  { rewrite published_app, Hnone. cbn. rewrite Nat.eqb_refl. reflexivity. }
  assert (Htheirs : forall t, t <> tid -> published t (trace st ++ new) = published t (trace st)).
  { intros t Ht. rewrite published_app, (other_task_published t new), app_nil_r; auto. }
  constructor; rewrite ?T, ?N, ?Tr.
  - intros t Ht. rewrite lookup_insert_ne, lookup_delete_ne by lia.
    exact (inv_fresh_task st I t Ht).
  - intros t e Ht He. apply in_app_iff in He. destruct He as [He | He].
    + exact (inv_fresh_trace st I t e Ht He).
    + apply Hother; [lia | exact He].
  - intros t Ht. rewrite projections_app, (inv_once st I t Ht). reflexivity.
  - intros t f' e Ht He Hof. destruct (Nat.eq_dec t tid) as [-> | Hne].
    + rewrite lookup_insert_eq in Ht. discriminate.
    + rewrite lookup_insert_ne, lookup_delete_ne in Ht by auto.
      apply in_app_iff in He. destruct He as [He | He].
      * exact (inv_await_point st I t f' e Ht He Hof).
      * rewrite (Hother t e) in Hof by auto. discriminate.
  - intros t f' p' c0 Ht H0. destruct (Nat.eq_dec t tid) as [-> | Hne].
    + rewrite lookup_insert_eq in Ht. injection Ht as <- <-.
      rewrite Hmine in H0. destruct H0 as [<- | []]. exact Hp.
    + rewrite lookup_insert_ne, lookup_delete_ne in Ht by auto.
      rewrite Htheirs in H0 by auto.
      exact (inv_await_observation st I t f' p' c0 Ht H0).
  - intros t c1 c2 H1 H2. destruct (Nat.eq_dec t tid) as [-> | Hne].
    + rewrite Hmine in H1, H2. destruct H1 as [<- | []], H2 as [<- | []]. reflexivity.
    + rewrite Htheirs in H1, H2 by auto. exact (inv_same_anchor st I t c1 c2 H1 H2).
  - intros t c0 H0. destruct (Nat.eq_dec t tid) as [-> | Hne].
    + rewrite Hmine in H0. destruct H0 as [<- | []]. rewrite Hc. discriminate.
    + rewrite Htheirs in H0 by auto. exact (inv_status st I t c0 H0).
  - replace (trace st ++ new)
      with ((trace st ++ [ESetCalloutData (Some tid) (Def c)]) ++ [EGet (Task tid) url])
      by (rewrite <- app_assoc; reflexivity).
    apply fetch_after_anchor_snoc.
    + apply fetch_after_anchor_snoc; [exact (inv_order st I) | discriminate].
    + intros t url' E. injection E as <- <-. split.
      * rewrite projections_app, (inv_once st I tid Hold). reflexivity.
      * exists c. split; [| exact Hc].
        rewrite published_app, Hnone. cbn. rewrite Nat.eqb_refl. left. reflexivity.
Qed.

Lemma shape_preserves (st st' : state) : Inv st -> shape st st' -> Inv st'.
Proof.
  intros I [new T N Tr Hnew | f lat lon T N Tr | tid f p c url Hk T N Tr Hp Hc
            | tid k p new Hk Hp T N Tr Hown].
  - exact (Inv_quiet st st' new I T N Tr Hnew).
  - exact (Inv_press st st' f lat lon I T N Tr).
  - exact (Inv_load st st' tid f p c url I Hk T N Tr Hp Hc).
  - exact (Inv_own st st' tid k p new I Hk Hp T N Tr Hown).
Qed.

End InvariantFacts.

Section AnchorFacts.
Variable Number_toString : number -> string.
Variable v : variant.

Lemma run_snoc (st : state) (evs : list event) (ev : event) :
  run Number_toString v st (evs ++ [ev])
    = step Number_toString v (run Number_toString v st evs) ev.
Proof. unfold run. apply fold_left_app. Qed.

Lemma Inv_init : Inv (init v).
Proof.
  constructor; cbn [init tasks next_task trace].
  - intros tid _. apply lookup_empty.
  - intros tid e _ [<- | []]. reflexivity.
  - intros tid H. lia.
  - intros tid f e H. rewrite lookup_empty in H. discriminate.
  - intros tid f p c H. rewrite lookup_empty in H. discriminate.
  - intros tid c c' [].
  - intros tid c [].
  - intros tid pre url post H. destruct pre as [| e pre]; [discriminate |].
    injection H as _ H. destruct pre; discriminate.
Qed.

Lemma Inv_run (evs : list event) : Inv (run Number_toString v (init v) evs).
Proof.
  induction evs as [| ev evs IH] using rev_ind; [exact Inv_init |].
  rewrite run_snoc. exact (shape_preserves _ _ IH (step_shape Number_toString v _ ev)).
Qed.

(** A tap on a marker either changes nothing or starts one task, whose
    projection is asked for in that very step. *)
Lemma projection_at_selection (st : state) (i : nat) :
  step Number_toString v st (MarkerPress i) = st \/
  exists latitude longitude,
    trace (step Number_toString v st (MarkerPress i))
      = trace st ++ [EProject (next_task st) latitude longitude] /\
    next_task (step Number_toString v st (MarkerPress i)) = S (next_task st).
Proof.
  cbn [step]. destruct (render v st) as [[| ms co] | e]; auto.
  destruct (ms !! i) as [mk |]; auto. unfold handleMarkerPress.
  destruct (c ← get (Stn.geometry (pressed mk)) "coordinates"%string Stn.coordinates;
            destructure2 c) as [[longitude latitude] | e]; auto.
  right. exists latitude, longitude. split; reflexivity.
Qed.

Lemma classify_cases (c : Callout.t) :
  classify c <> Other ->
  classify c = Loading \/ classify c = Ready \/
  classify c = NotAvailable \/ classify c = FetchFailed.
Proof. destruct (classify c); auto. congruence. Qed.

End AnchorFacts.

(** * Further properties of the conversions *)

Section ConversionExtras.
Local Open Scope Z_scope.
Local Open Scope string_scope.

Lemma in_Zrange (lo : Z) (n : nat) (d : Z) :
  lo <= d < lo + Z.of_nat n -> In d (Zrange lo n).
Proof.
  intros H. unfold Zrange. apply in_map_iff. exists (Z.to_nat (d - lo)).
  split; [lia |]. apply in_seq. lia.
Qed.

(** X1.  For every finite double that is not negative, [degreesToCardinal]
    returns one of the eight labels: on a compass bearing the lookup never
    leaves the table. *)
Theorem degreesToCardinal_label_on_bearings (deg : number) :
  nonneg_finite deg = true ->
  exists l, In l directions /\ degreesToCardinal (Def deg) = Def l.
Proof.
  intros H.
  destruct (degreesToCardinal_nonneg_finite deg H) as (z & l & _ & _ & Hl & Hd).
  exists l. split; [exact (nth_error_In _ _ Hl) | exact Hd].
Qed.

Lemma degreesToCardinal_label_on_bearings_witness :
  nonneg_finite (div (of_Z 675) (of_Z 2)) = true /\
  exists l, In l directions /\ degreesToCardinal (Def (div (of_Z 675) (of_Z 2))) = Def l.
Proof.
  split; [reflexivity |].
  apply (degreesToCardinal_label_on_bearings (div (of_Z 675) (of_Z 2))). reflexivity.
Defined.

(** X2.  When the rounded quotient [round(deg / 45)] is a negative
    integer, [degreesToCardinal] returns [undefined] unless that integer
    is a multiple of 8, in which case it returns N; it returns
    [undefined] for NaN and for the infinities. *)
Theorem degreesToCardinal_negative_or_not_finite :
  (forall (deg : number) (z : Z),
     to_Z (Math_round (div deg (of_Z 45))) = Some z -> z < 0 -> z mod 8 <> 0 ->
     degreesToCardinal (Def deg) = Undefined) /\
  (forall (deg : number) (z : Z),
     to_Z (Math_round (div deg (of_Z 45))) = Some z -> z < 0 -> z mod 8 = 0 ->
     degreesToCardinal (Def deg) = Def "N") /\
  degreesToCardinal (Def S754_nan) = Undefined /\
  (forall s, degreesToCardinal (Def (S754_infinity s)) = Undefined).
Proof.
  split; [| split; [| split]].
  - intros deg z Hz Hneg Hmod.
    destruct (degreesToCardinal_integer deg z Hz) as [_ ->].
    assert (Hrem : Z.rem z 8 < 0).
    { assert (Hb : 0 <= Z.rem (- z) 8 < 8) by (apply Z.rem_bound_pos; lia).
      rewrite Z.rem_opp_l in Hb by lia.
      assert (Z.rem z 8 <> 0); [| lia].
      intros H0. apply Hmod. apply Z.rem_divide in H0; [| lia].
      apply Z.mod_divide; [lia | exact H0]. }
    destruct (Z.ltb_spec (Z.rem z 8) 0); [reflexivity | lia].
  - intros deg z Hz Hneg Hmod.
    destruct (degreesToCardinal_integer deg z Hz) as [_ ->].
    assert (Hrem : Z.rem z 8 = 0).
    { apply Z.rem_divide; [lia |]. apply Z.mod_divide; [lia | exact Hmod]. }
    rewrite Hrem. reflexivity.
  - reflexivity.
  - intros [|]; reflexivity.
Qed.

Lemma degreesToCardinal_negative_or_not_finite_witness :
  to_Z (Math_round (div (of_Z (-100)) (of_Z 45))) = Some (-2) /\
  degreesToCardinal (Def (of_Z (-100))) = Undefined /\
  to_Z (Math_round (div (of_Z (-350)) (of_Z 45))) = Some (-8) /\
  degreesToCardinal (Def (of_Z (-350))) = Def "N".
Proof.
  split; [reflexivity |]. split.
  - apply (proj1 degreesToCardinal_negative_or_not_finite (of_Z (-100)) (-2));
      [reflexivity | lia | discriminate].
  - split; [reflexivity |].
    apply (proj1 (proj2 degreesToCardinal_negative_or_not_finite) (of_Z (-350)) (-8));
      [reflexivity | lia | reflexivity].
Defined.

(** X3.  On every whole bearing from 0 to 720 degrees [degreesToCardinal]
    gives the label of the 45-degree sector around a direction: N for 0
    to 22 and 338 to 382, NE for 23 to 67, and so on, the second turn
    like the first. *)
Theorem degreesToCardinal_sectors (d : Z) :
  0 <= d <= 720 -> degreesToCardinal (Def (of_Z d)) = Def (sector_label d).
Proof.
  intros Hd.
  assert (Hall : forallb (fun d =>
            match degreesToCardinal (Def (of_Z d)) with
            | Def l => String.eqb l (sector_label d)
            | _ => false
            end) (Zrange 0 721) = true) by (vm_compute; reflexivity).
  rewrite forallb_forall in Hall.
  specialize (Hall d (in_Zrange 0 721 d ltac:(lia))).
  destruct (degreesToCardinal (Def (of_Z d))) as [| | l]; try discriminate.
  apply String.eqb_eq in Hall. congruence.
Qed.

Lemma degreesToCardinal_sectors_witness :
  0 <= 338 <= 720 /\ degreesToCardinal (Def (of_Z 338)) = Def "N" /\
  degreesToCardinal (Def (of_Z 337)) = Def "NW".
Proof.
  split; [lia |]. split.
  - apply (degreesToCardinal_sectors 338). lia.
  - apply (degreesToCardinal_sectors 337). lia.
Defined.

End ConversionExtras.

Section FormatExtras.
Local Open Scope Z_scope.
Local Open Scope string_scope.


(** X4.  The humidity of the view-model is null when
    [relativeHumidity?.value] is null or undefined; for a finite source it
    is a whole number, the one nearest to the source (the larger one on a
    tie). *)
Theorem humidity_rounds_to_nearest :
  (forall props : Obs.props,
     neq_null (optchain (Obs.relativeHumidity props) Obs.value) = false ->
     humidity props = Null) /\
  (forall (props : Obs.props) (s : bool) (m : positive) (e : Z),
     optchain (Obs.relativeHumidity props) Obs.value = Def (S754_finite s m e) ->
     Zpos m < 2 ^ 53 ->
     exists r z,
       humidity props = Def r /\ to_Z r = Some z /\
       (2 * z - 1) * 2 ^ Z.max (- e) 0
         <= 2 * cond_Zopp s (Zpos m) * 2 ^ Z.max e 0
         < (2 * z + 1) * 2 ^ Z.max (- e) 0).
Proof.
  split.
  - intros props H. unfold humidity.
    destruct (optchain (Obs.relativeHumidity props) Obs.value); [reflexivity .. | discriminate].
  - intros props s m e Hsrc Hm. unfold humidity. rewrite Hsrc.
    destruct (Z.leb_spec 0 e) as [He | He].
    + exists (S754_finite s m e), (cond_Zopp s (Zpos m) * 2 ^ e).
      split; [unfold Math_round; apply Z.leb_le in He; rewrite He; reflexivity |].
      split; [unfold to_Z; apply Z.leb_le in He; rewrite He; reflexivity |].
      replace (Z.max (- e) 0) with 0 by lia. replace (Z.max e 0) with e by lia.
      change (2 ^ 0) with 1. lia.
    + destruct (Math_round_nearest s m e He Hm) as (z & Hz & Hb).
      exists (Math_round (S754_finite s m e)), z.
      split; [reflexivity |]. split; [exact Hz |].
      replace (Z.max (- e) 0) with (- e) by lia. replace (Z.max e 0) with 0 by lia.
      change (2 ^ 0) with 1. lia.
Qed.

Lemma humidity_rounds_to_nearest_witness :
  optchain (Obs.relativeHumidity
              (with_humidity (Def {| Obs.value := Def (div (of_Z 85) (of_Z 2)) |}) sample_props))
    Obs.value = Def (S754_finite false 5981343255101440 (-47)) /\
  5981343255101440 < 2 ^ 53 /\
  exists r,
    humidity (with_humidity (Def {| Obs.value := Def (div (of_Z 85) (of_Z 2)) |}) sample_props)
      = Def r /\
    to_Z r = Some 43.
Proof.
  split; [reflexivity |]. split; [reflexivity |].
  destruct (proj2 humidity_rounds_to_nearest
              (with_humidity (Def {| Obs.value := Def (div (of_Z 85) (of_Z 2)) |}) sample_props)
              false 5981343255101440%positive (-47) eq_refl eq_refl) as (r & z & Hr & Hz & Hb).
  exists r. split; [exact Hr |]. rewrite Hz. f_equal.
  change (Z.max (- -47) 0) with 47 in Hb. change (Z.max (-47) 0) with 0 in Hb.
  change (2 ^ 47) with 140737488355328 in Hb. change (2 ^ 0) with 1 in Hb.
  change (cond_Zopp false 5981343255101440) with 5981343255101440 in Hb. lia.
Defined.




(** X6.  For every whole Celsius temperature from -273 to 1000 degrees
    the temperature shown, [(c * 9/5 + 32).toFixed(1)], is the exact
    Fahrenheit value [(18 c + 320) / 10] written with one decimal digit:
    the double arithmetic loses nothing at this precision. *)
Theorem fahrenheit_exact_on_whole_degrees (Number_toString : number -> string) (c : Z) :
  -273 <= c <= 1000 ->
  toFixed1 Number_toString (fahrenheit (of_Z c)) = tenths (18 * c + 320).
Proof.
  intros Hc.
  assert (Hall : forallb (fun c =>
            String.eqb (toFixed1 Number_toString (fahrenheit (of_Z c)))
                       (tenths (18 * c + 320))) (Zrange (-273) 1274) = true)
    by (vm_compute; reflexivity).
  rewrite forallb_forall in Hall.
  specialize (Hall c (in_Zrange (-273) 1274 c ltac:(lia))).
  apply String.eqb_eq in Hall. exact Hall.
Qed.

Lemma fahrenheit_exact_on_whole_degrees_witness :
  -273 <= -40 <= 1000 /\
  toFixed1 sample_toString (fahrenheit (of_Z (-40))) = "-40.0".
Proof.
  split; [lia |].
  apply (fahrenheit_exact_on_whole_degrees sample_toString (-40)). lia.
Defined.

End FormatExtras.

Section WindExtras.
Local Open Scope Z_scope.

(** X7.  For every whole wind speed from 0 to 500 metres per second
    the speed shown is the exact product with 2.237 rounded to the
    nearest whole number of miles per hour, halves upward: neither the
    double nearest to 2.237 nor the double product changes the result. *)
Theorem windSpeedMph_exact_on_whole_speeds (props : Obs.props) (s : Z) :
  0 <= s <= 500 ->
  optchain (Obs.windSpeed props) Obs.value = Def (of_Z s) ->
  exists r, windSpeedMph props = Def r /\ to_Z r = Some ((2237 * s + 500) / 1000).
Proof.
  intros Hs Hv. unfold windSpeedMph. rewrite Hv. eexists. split; [reflexivity |].
  assert (Hall : forallb (fun s =>
            match to_Z (Math_round (mul (of_Z s) lit_2_237)) with
            | Some z => z =? (2237 * s + 500) / 1000
            | None => false
            end) (Zrange 0 501) = true)
    by (vm_compute; reflexivity).
  rewrite forallb_forall in Hall.
  specialize (Hall s (in_Zrange 0 501 s ltac:(lia))).
  destruct (to_Z (Math_round (mul (of_Z s) lit_2_237))) as [z |]; [| discriminate].
  apply Z.eqb_eq in Hall. rewrite Hall. reflexivity.
Qed.

Lemma windSpeedMph_exact_on_whole_speeds_witness :
  0 <= 7 <= 500 /\
  exists r, windSpeedMph (with_windSpeed (quantity 7) sample_props) = Def r /\
            to_Z r = Some 16.
Proof.
  split; [lia |].
  apply (windSpeedMph_exact_on_whole_speeds (with_windSpeed (quantity 7) sample_props) 7);
    [lia | reflexivity].
Defined.

End WindExtras.

(** * Further properties of the screen *)

(** ** The directory and the markers *)

Section DirectoryExtras.
Local Open Scope string_scope.
Variable Number_toString : number -> string.

Lemma filter_callback_Ok (s : nullable Stn.feature) (keep : bool) :
  filter_callback s = Ok keep -> neq_null (optchain s Stn.properties) = true.
Proof.
  unfold filter_callback. destruct s as [| | f]; cbn [get bind optchain]; try discriminate.
  destruct (Stn.properties f); cbn [get bind]; try discriminate. reflexivity.
Qed.

Lemma filter_array_Throw (l : list (nullable Stn.feature)) (s : nullable Stn.feature) :
  In s l -> neq_null (optchain s Stn.properties) = false ->
  exists e, filter_array filter_callback l = Throw e.
Proof.
  induction l as [| a l IH]; intros Hin Hs; [destruct Hin |].
  cbn [filter_array]. destruct (filter_callback a) as [keep | e] eqn:Ha; [| eauto].
  cbn [bind]. destruct Hin as [-> | Hin].
  - apply filter_callback_Ok in Ha. congruence.
  - destruct (IH Hin Hs) as (e & ->). eauto.
Qed.

Lemma render_marker_Throw (s : nullable Stn.feature) :
  neq_null (optchain s Stn.properties) = false -> exists e, render_marker s = Throw e.
Proof.
  unfold render_marker. destruct s as [| | f]; cbn [get optchain]; unbind; eauto.
  destruct (Stn.geometry f) as [| | g]; unbind; eauto.
  destruct (Stn.coordinates g) as [| | c]; cbn [destructure2]; unbind; eauto.
  destruct (Stn.properties f); unbind; eauto. discriminate.
Qed.

Lemma map_array_Throw {A B} (f : A -> result B) (l : list A) (a : A) :
  In a l -> (exists e, f a = Throw e) -> exists e, map_array f l = Throw e.
Proof.
  induction l as [| a' l IH]; intros Hin Ha; [destruct Hin |].
  cbn [map_array]. destruct (f a') as [b | e] eqn:Hf; unbind; [| eauto].
  destruct Hin as [-> | Hin].
  - destruct Ha as (e & Ha). congruence.
  - destruct (IH Hin Ha) as (e & ->). unbind. eauto.
Qed.

(** X8.  One entry of the directory without [properties] (or a null
    entry) is enough to lose the whole directory.  The filtering variant
    throws inside the filter: the failure is logged and the map is shown
    with no marker, the valid stations included.  The unfiltered variant
    stores the list as it is, and rendering the markers throws. *)
Theorem entry_without_properties_loses_the_directory
    (l : list (nullable Stn.feature)) (s : nullable Stn.feature) :
  In s l -> neq_null (optchain s Stn.properties) = false ->
  (exists e,
     trace (step Number_toString KFiltered (init KFiltered)
              (StationsResponse (Resolved (Def {| Stn.features := Def l |}))))
       = [EGet Directory (stations_url KFiltered);
          EConsoleError "Failed to fetch station data:" e;
          ESetLoading false]) /\
  render KFiltered
    (step Number_toString KFiltered (init KFiltered)
       (StationsResponse (Resolved (Def {| Stn.features := Def l |}))))
    = Ok (MapScreen [] Null) /\
  stations (step Number_toString Unfiltered (init Unfiltered)
              (StationsResponse (Resolved (Def {| Stn.features := Def l |})))) = Def l /\
  exists e,
    render Unfiltered
      (step Number_toString Unfiltered (init Unfiltered)
         (StationsResponse (Resolved (Def {| Stn.features := Def l |})))) = Throw e.
Proof.
  intros Hin Hs.
  destruct (filter_array_Throw l s Hin Hs) as (e & He).
  assert (HK : stations_of_response KFiltered (Resolved (Def {| Stn.features := Def l |}))
               = Throw e).
  { unfold stations_of_response. cbn [get bind Stn.features]. rewrite He. reflexivity. }
  cbn [step init directory_pending]. unfold fetchStations_resume. rewrite HK.
  split; [exists e; reflexivity |]. split; [reflexivity |].
  cbn [stations_of_response get bind Stn.features]. split; [reflexivity |].
  destruct (map_array_Throw render_marker l s Hin (render_marker_Throw s Hs)) as (e' & He').
  exists e'. unfold render. cbn. unbind. rewrite He'. reflexivity.
Qed.

Lemma map_array_length {A B} (f : A -> result B) (l : list A) (ms : list B) :
  map_array f l = Ok ms -> List.length ms = List.length l.
Proof.
  revert ms. induction l as [| a l IH]; intros ms; cbn [map_array].
  - intros H. injection H as <-. reflexivity.
  - destruct (f a) as [b |]; unbind; [| discriminate].
    destruct (map_array f l) as [r |]; unbind; [| discriminate].
    intros H. injection H as <-. cbn. rewrite (IH r eq_refl). reflexivity.
Qed.

Lemma render_marker_fields (s : nullable Stn.feature) (mk : marker) :
  render_marker s = Ok mk ->
  s = Def (pressed mk) /\ key mk = identifier s /\
  exists g c, Stn.geometry (pressed mk) = Def g /\ Stn.coordinates g = Def c /\
              coordinate mk = (nth 1 c Undefined, nth 0 c Undefined).
Proof.
  unfold render_marker, identifier.
  destruct s as [| | f]; unbind; try discriminate.
  destruct (Stn.geometry f) as [| | g] eqn:Hg; unbind; try discriminate.
  destruct (Stn.coordinates g) as [| | c] eqn:Hc; cbn [destructure2]; unbind; try discriminate.
  destruct (Stn.properties f) as [| | sp] eqn:Hp; unbind; try discriminate.
  intros H. injection H as <-. cbn. rewrite Hp. cbn. eauto 10.
Qed.

(** X9.  When the map is shown there is one marker per station of the
    collection, in the order of the collection; the marker's key is the
    station's identifier, its coordinate is the station's GeoJSON position
    [[longitude, latitude]] with the two components swapped into
    (latitude, longitude), and a tap passes on that very station. *)
Theorem markers_mirror_stations (v : variant) (st : state) (ms : list marker)
    (co : nullable callout_view) :
  render v st = Ok (MapScreen ms co) ->
  exists l,
    stations st = Def l /\ List.length ms = List.length l /\
    forall i mk, ms !! i = Some mk ->
      l !! i = Some (Def (pressed mk)) /\
      key mk = identifier (Def (pressed mk)) /\
      exists g c, Stn.geometry (pressed mk) = Def g /\ Stn.coordinates g = Def c /\
                  coordinate mk = (nth 1 c Undefined, nth 0 c Undefined).
Proof.
  intros H. apply render_MapScreen in H. destruct H as (_ & l & Hst & Hms & _).
  exists l. split; [exact Hst |]. split; [exact (map_array_length _ _ _ Hms) |].
  intros i mk Hi. destruct (map_array_lookup _ _ _ _ _ Hms Hi) as (s & Hl & Hs).
  destruct (render_marker_fields s mk Hs) as (-> & Hk & Hc). auto.
Qed.

Lemma markers_mirror_stations_witness :
  exists ms co,
    render Unfiltered (step sample_toString Unfiltered (init Unfiltered)
                         (StationsResponse sample_directory)) = Ok (MapScreen ms co) /\
    List.length ms = 3%nat /\
    exists mk, ms !! 2%nat = Some mk /\ pressed mk = KDEN /\
               key mk = Def "KDEN" /\
               coordinate mk = (Def (of_Z 40), Def (of_Z (-105))).
Proof.
  assert (Hr : exists ms co,
            render Unfiltered (step sample_toString Unfiltered (init Unfiltered)
                                 (StationsResponse sample_directory)) = Ok (MapScreen ms co))
    by (eexists _, _; vm_compute; reflexivity).
  destruct Hr as (ms & co & Hr). exists ms, co. split; [exact Hr |].
  destruct (markers_mirror_stations Unfiltered _ ms co Hr) as (l & Hst & Hlen & Hmk).
  assert (Hl : l = [Def KJFK; Def PHNL; Def KDEN]) by (cbn in Hst; congruence).
  subst l. split; [exact Hlen |].
  destruct ms as [| m0 [| m1 [| m2 ms]]]; try discriminate Hlen.
  exists m2. destruct (Hmk 2%nat m2 eq_refl) as (H1 & H2 & g & c & H3 & H4 & H5).
  injection H1 as H1. rewrite <- H1 in *. split; [reflexivity |]. split; [reflexivity |].
  split; [exact H2 |]. cbn in H3. injection H3 as <-. cbn in H4. injection H4 as <-.
  exact H5.
Defined.

End DirectoryExtras.

Lemma entry_without_properties_loses_the_directory_witness :
  In Null [Def KJFK; Null; Def KDEN] /\
  neq_null (optchain (@Null Stn.feature) Stn.properties) = false /\
  render KFiltered
    (step sample_toString KFiltered (init KFiltered)
       (StationsResponse (Resolved (Def {| Stn.features := Def [Def KJFK; Null; Def KDEN] |}))))
    = Ok (MapScreen [] Null) /\
  exists e,
    render Unfiltered
      (step sample_toString Unfiltered (init Unfiltered)
         (StationsResponse (Resolved (Def {| Stn.features := Def [Def KJFK; Null; Def KDEN] |}))))
    = Throw e.
Proof.
  assert (Hin : In (@Null Stn.feature) [Def KJFK; Null; Def KDEN])
    by (right; left; reflexivity).
  split; [exact Hin |]. split; [reflexivity |].
  destruct (entry_without_properties_loses_the_directory sample_toString
              [Def KJFK; Null; Def KDEN] Null Hin eq_refl) as (_ & H1 & _ & H2).
  split; assumption.
Defined.

(** ** Selections *)

Section SelectionExtras.
Variable Number_toString : number -> string.
Variable v : variant.

(** X10.  A tap on a marker asks the map to project that marker's
    coordinate and shows nothing yet.  When the point arrives, the callout
    shows the station's name with the spinner at that point, and the
    observation is requested from the URL built from the marker's key.
    When the projection fails instead, nothing is shown and nothing is
    requested. *)
Theorem selection_requests_the_tapped_station (st : state) (ms : list marker)
    (co : nullable callout_view) (i : nat) (mk : marker) (p : Point) (e : exn) :
  render v st = Ok (MapScreen ms co) -> ms !! i = Some mk ->
  trace (step Number_toString v st (MarkerPress i))
    = trace st ++ [EProject (next_task st) (fst (coordinate mk)) (snd (coordinate mk))] /\
  calloutData (step Number_toString v st (MarkerPress i)) = calloutData st /\
  trace (run Number_toString v st [MarkerPress i; Projected (next_task st) (Ok p)])
    = trace (step Number_toString v st (MarkerPress i))
      ++ [ESetCalloutData (Some (next_task st))
            (Def {| Callout.stationName := station_name (pressed mk);
                    Callout.weather := Undefined;
                    Callout.error := Undefined;
                    Callout.loading := true;
                    Callout.position := p |});
          EGet (Task (next_task st)) (observation_url (key mk))] /\
  calloutData (run Number_toString v st [MarkerPress i; Projected (next_task st) (Ok p)])
    = Def {| Callout.stationName := station_name (pressed mk);
             Callout.weather := Undefined;
             Callout.error := Undefined;
             Callout.loading := true;
             Callout.position := p |} /\
  trace (run Number_toString v st [MarkerPress i; Projected (next_task st) (Throw e)])
    = trace (step Number_toString v st (MarkerPress i)) /\
  calloutData (run Number_toString v st [MarkerPress i; Projected (next_task st) (Throw e)])
    = calloutData st /\
  tasks (run Number_toString v st [MarkerPress i; Projected (next_task st) (Throw e)])
    !! next_task st = None.
Proof.
  intros H Hi.
  pose proof H as H'. apply render_MapScreen in H'. destruct H' as (_ & l & _ & Hms & _).
  destruct (map_array_lookup _ _ _ _ _ Hms Hi) as (s & _ & Hs).
  destruct (render_marker_fields s mk Hs) as (-> & Hk & g & c & Hg & Hc & Hco).
  assert (E1 : step Number_toString v st (MarkerPress i) =
               emit (EProject (next_task st) (fst (coordinate mk)) (snd (coordinate mk)))
                 {| stations := stations st; loading := loading st;
                    calloutData := calloutData st;
                    directory_pending := directory_pending st;
                    tasks := <[next_task st := AwaitPoint (pressed mk)]> (tasks st);
                    next_task := S (next_task st); trace := trace st |}).
  { cbn [step]. rewrite H, Hi. unfold handleMarkerPress. unbind.
    rewrite Hg. cbn [get bind]. rewrite Hc. cbn [destructure2]. rewrite Hco. reflexivity. }
  assert (Hsp : exists sp, Stn.properties (pressed mk) = Def sp).
  { destruct (render_marker_wf _ _ Hs) as (_ & sp & _ & _ & Hsp & _). eauto. }
  destruct Hsp as (sp & Hsp).
  assert (T1 : tasks (step Number_toString v st (MarkerPress i)) !! next_task st
               = Some (AwaitPoint (pressed mk))).
  { rewrite E1. cbn [emit tasks]. apply lookup_insert_eq. }
  assert (E3 : step Number_toString v (step Number_toString v st (MarkerPress i))
                 (Projected (next_task st) (Throw e))
               = set_tasks (delete (next_task st)) (step Number_toString v st (MarkerPress i))).
  { generalize dependent (step Number_toString v st (MarkerPress i)). intros st1 _ T1.
    cbn [step]. rewrite T1. reflexivity. }
  unfold run. cbn [fold_left].
  rewrite (step_Projected Number_toString v _ _ _ sp p T1 Hsp), E3.
  assert (Hname : station_name (pressed mk) = Stn.name sp)
    by (unfold station_name; rewrite Hsp; reflexivity).
  assert (Hkey : key mk = Stn.stationIdentifier sp)
    by (rewrite Hk; unfold identifier; cbn [optchain]; rewrite Hsp; reflexivity).
  rewrite Hname, Hkey. cbn [trace calloutData tasks set_tasks].
  split; [rewrite E1; reflexivity |]. split; [rewrite E1; reflexivity |].
  split; [reflexivity |]. split; [reflexivity |].
  split; [reflexivity |]. split; [rewrite E1; reflexivity |]. apply lookup_delete_eq.
Qed.

End SelectionExtras.

Lemma selection_requests_the_tapped_station_witness :
  exists ms co,
    render Unfiltered (step sample_toString Unfiltered (init Unfiltered)
                         (StationsResponse sample_directory)) = Ok (MapScreen ms co) /\
    exists mk,
      ms !! 1%nat = Some mk /\
      trace (run sample_toString Unfiltered
               (step sample_toString Unfiltered (init Unfiltered)
                  (StationsResponse sample_directory))
               [MarkerPress 1; Projected 0 (Ok (sample_point 160 240))])
      = trace (step sample_toString Unfiltered
                 (step sample_toString Unfiltered (init Unfiltered)
                    (StationsResponse sample_directory)) (MarkerPress 1))
        ++ [ESetCalloutData (Some 0%nat)
              (Def {| Callout.stationName := station_name (pressed mk);
                      Callout.weather := Undefined;
                      Callout.error := Undefined;
                      Callout.loading := true;
                      Callout.position := sample_point 160 240 |});
            EGet (Task 0) (observation_url (key mk))] /\
      key mk = Def "PHNL"%string.
Proof.
  assert (Hr : exists ms co mk,
            render Unfiltered (step sample_toString Unfiltered (init Unfiltered)
                                 (StationsResponse sample_directory)) = Ok (MapScreen ms co)
            /\ ms !! 1%nat = Some mk /\ key mk = Def "PHNL"%string)
    by (eexists _, _, _; vm_compute; repeat split; reflexivity).
  destruct Hr as (ms & co & mk & Hr & Hi & Hk).
  exists ms, co. split; [exact Hr |]. exists mk. split; [exact Hi |].
  destruct (selection_requests_the_tapped_station sample_toString Unfiltered _ ms co 1 mk
              (sample_point 160 240) (TypeError "pointForCoordinate"%string) Hr Hi)
    as (_ & _ & H & _).
  split; [exact H | exact Hk].
Defined.

Section QuietExtras.
Variable Number_toString : number -> string.
Variable v : variant.

(** X11.  Until the directory request settles the screen reacts to
    nothing: whatever taps and settlements are delivered, the state stays
    the initial one, with the loading screen and the one request on the
    trace. *)
Theorem nothing_happens_before_the_directory (evs : list event) :
  forallb (fun ev => negb (is_response ev)) evs = true ->
  run Number_toString v (init v) evs = init v /\
  render v (run Number_toString v (init v) evs) = Ok LoadingScreen.
Proof.
  intros H.
  assert (E : run Number_toString v (init v) evs = init v).
  { unfold run. induction evs as [| ev evs IH]; [reflexivity |].
    cbn [forallb] in H. apply andb_prop in H. destruct H as [Hev H].
    cbn [fold_left].
    assert (Hs : step Number_toString v (init v) ev = init v)
      by (destruct ev; try discriminate Hev; reflexivity).
    rewrite Hs. exact (IH H). }
  rewrite E. split; reflexivity.
Qed.

Lemma observation_catch_frame (tid : nat) (A : Stn.feature) (p : Point) (e : exn)
    (st : state) :
  exists new,
    trace (observation_catch tid A p e st) = trace st ++ new /\
    Forall (fun e => of_directory e = false) new /\
    stations (observation_catch tid A p e st) = stations st /\
    loading (observation_catch tid A p e st) = loading st /\
    directory_pending (observation_catch tid A p e st) = directory_pending st.
Proof.
  unfold observation_catch.
  destruct (get (Stn.properties A) "name"%string Stn.name) as [n | e'].
  - eexists. split; [cbn; rewrite <- app_assoc; reflexivity |].
    split; [repeat constructor | repeat split].
  - eexists. split; [reflexivity |]. split; [repeat constructor | repeat split].
Qed.

(** Outside the directory response no step touches the station
    collection or the loading flag, and none adds an effect of the
    directory load. *)
Lemma step_keeps_directory (st : state) (ev : event) :
  is_response ev = false ->
  exists new,
    trace (step Number_toString v st ev) = trace st ++ new /\
    Forall (fun e => of_directory e = false) new /\
    stations (step Number_toString v st ev) = stations st /\
    loading (step Number_toString v st ev) = loading st /\
    directory_pending (step Number_toString v st ev) = directory_pending st.
Proof.
  assert (Hst : exists new : list effect,
            trace st = trace st ++ new /\ Forall (fun e => of_directory e = false) new /\
            stations st = stations st /\ loading st = loading st /\
            directory_pending st = directory_pending st).
  { exists []. rewrite app_nil_r. repeat split. constructor. }
  intros Hev. destruct ev as [r | i | tid r | tid r |]; [discriminate | | | |]; cbn [step].
  - destruct (render v st) as [[| ms co] | e]; try exact Hst.
    destruct (ms !! i) as [mk |]; [| exact Hst].
    unfold handleMarkerPress.
    destruct (c ← get (Stn.geometry (pressed mk)) "coordinates"%string Stn.coordinates; destructure2 c)
      as [[lon lat] | e]; [| exact Hst].
    eexists. split; [reflexivity |]. split; [repeat constructor | repeat split].
  - destruct (tasks st !! tid) as [[A | A p] |]; try exact Hst.
    unfold handleMarkerPress_projected.
    destruct r as [p | e]; [| exists []; rewrite app_nil_r; repeat split; constructor].
    destruct (get (Stn.properties A) "name"%string Stn.name) as [n | e];
      [| exists []; rewrite app_nil_r; repeat split; constructor].
    destruct (get (Stn.properties A) "stationIdentifier"%string Stn.stationIdentifier) as [id | e].
    + eexists. split; [cbn; rewrite <- app_assoc; reflexivity |].
      split; [repeat constructor | repeat split].
    + destruct (observation_catch_frame tid A p e
                  (setCalloutData (Some tid)
                     (Def {| Callout.stationName := n; Callout.weather := Undefined;
                             Callout.error := Undefined; Callout.loading := true;
                             Callout.position := p |}) (set_tasks (delete tid) st)))
        as (new & -> & Hnew & -> & -> & ->).
      eexists. split; [cbn; rewrite <- app_assoc; reflexivity |].
      split; [constructor; [reflexivity | exact Hnew] | repeat split].
  - destruct (tasks st !! tid) as [[A | A p] |]; try exact Hst.
    unfold handleMarkerPress_observed.
    destruct (observation_callout Number_toString A p r) as [c | e].
    + eexists. split; [reflexivity |]. split; [repeat constructor | repeat split].
    + destruct (observation_catch_frame tid A p e (set_tasks (delete tid) st))
        as (new & -> & Hnew & -> & -> & ->).
      exists new. repeat split. exact Hnew.
  - destruct (render v st) as [[| ms co] | e]; try exact Hst.
    eexists. split; [reflexivity |]. split; [repeat constructor | repeat split].
Qed.

Lemma step_settled_response (st : state) (r : axios Stn.data) :
  directory_pending st = false -> step Number_toString v st (StationsResponse r) = st.
Proof. intros H. cbn [step]. rewrite H. reflexivity. Qed.

Lemma run_keeps_directory (st : state) (evs : list event) :
  directory_pending st = false ->
  stations (run Number_toString v st evs) = stations st /\
  loading (run Number_toString v st evs) = loading st /\
  directory_pending (run Number_toString v st evs) = false /\
  List.filter of_directory (trace (run Number_toString v st evs))
    = List.filter of_directory (trace st).
Proof.
  intros Hp. induction evs as [| ev evs IH] using rev_ind; [repeat split; assumption |].
  rewrite run_snoc. destruct IH as (IH1 & IH2 & IH3 & IH4).
  destruct (is_response ev) eqn:Hev.
  - destruct ev; try discriminate Hev. rewrite step_settled_response by exact IH3. auto.
  - destruct (step_keeps_directory (run Number_toString v st evs) ev Hev)
      as (new & -> & Hnew & -> & -> & ->).
    repeat split; try assumption.
    rewrite List.filter_app, IH4.
    assert (Hnil : List.filter of_directory new = []).
    { clear -Hnew. induction Hnew as [| e new He _ IH]; [reflexivity |].
      cbn [List.filter]. rewrite He. exact IH. }
    rewrite Hnil. apply app_nil_r.
Qed.

(** X12.  The directory is loaded once.  After the first response the
    station collection and the loading flag never change again, whatever
    is tapped and whatever settles (a second response included), and the
    trace holds no directory request and no call of [setStations] or
    [setLoading] but those of the load: the request, at most one
    [setStations], and [setLoading(false)]. *)
Theorem directory_is_loaded_once (r : axios Stn.data) (evs : list event) :
  stations (run Number_toString v (init v) (StationsResponse r :: evs))
    = stations (step Number_toString v (init v) (StationsResponse r)) /\
  loading (run Number_toString v (init v) (StationsResponse r :: evs)) = false /\
  (List.filter of_directory (trace (run Number_toString v (init v) (StationsResponse r :: evs)))
     = [EGet Directory (stations_url v); ESetLoading false] \/
   exists s,
     List.filter of_directory (trace (run Number_toString v (init v) (StationsResponse r :: evs)))
       = [EGet Directory (stations_url v); ESetStations s; ESetLoading false]).
Proof.
  change (run Number_toString v (init v) (StationsResponse r :: evs))
    with (run Number_toString v (step Number_toString v (init v) (StationsResponse r)) evs).
  destruct (run_keeps_directory (step Number_toString v (init v) (StationsResponse r)) evs)
    as (-> & -> & _ & ->).
  { cbn [step init directory_pending]. unfold fetchStations_resume.
    destruct (stations_of_response v r); reflexivity. }
  split; [reflexivity |]. split; [reflexivity |].
  cbn [step init directory_pending]. unfold fetchStations_resume.
  destruct (stations_of_response v r) as [s | e]; [right; exists s; reflexivity | left; reflexivity].
Qed.

End QuietExtras.

Lemma nothing_happens_before_the_directory_witness :
  forallb (fun ev => negb (is_response ev))
    [MarkerPress 0; MapPress; Projected 0 (Ok (sample_point 160 240));
     Observed 0 (observation sample_props)] = true /\
  run sample_toString KFiltered (init KFiltered)
    [MarkerPress 0; MapPress; Projected 0 (Ok (sample_point 160 240));
     Observed 0 (observation sample_props)] = init KFiltered.
Proof.
  split; [reflexivity |].
  apply (nothing_happens_before_the_directory sample_toString KFiltered
           [MarkerPress 0; MapPress; Projected 0 (Ok (sample_point 160 240));
            Observed 0 (observation sample_props)] eq_refl).
Defined.

(** ** The filtering variant stays on K stations *)

Section KExtras.
Variable Number_toString : number -> string.

Lemma list_lookup_In {A} (l : list A) (i : nat) (a : A) : l !! i = Some a -> In a l.
Proof.
  revert i. induction l as [| b l IH]; intros [| i]; cbn; try discriminate.
  - intros H. injection H as ->. left. reflexivity.
  - intros H. right. exact (IH i H).
Qed.

Lemma filter_array_sound (l ks : list (nullable Stn.feature)) :
  filter_array filter_callback l = Ok ks ->
  Forall (fun s => four_letter_K (identifier s) = true) ks.
Proof.
  revert ks. induction l as [| a l IH]; intros ks; cbn [filter_array].
  - intros H. injection H as <-. constructor.
  - destruct (filter_callback a) as [keep |] eqn:Ha; cbn [bind]; [| discriminate].
    destruct (filter_array filter_callback l) as [r |]; cbn [bind]; [| discriminate].
    intros H. injection H as <-. specialize (IH r eq_refl).
    destruct keep; [| exact IH]. constructor; [| exact IH].
    unfold filter_callback in Ha. destruct a as [| | f]; cbn [get bind] in Ha; try discriminate.
    unfold identifier. cbn [optchain].
    destruct (Stn.properties f) as [| | sp]; cbn [get bind] in Ha; try discriminate.
    injection Ha as Ha. cbn [optchain]. rewrite <- is_major_four_letter_K. exact Ha.
Qed.

Lemma K_station_properties (f : Stn.feature) :
  four_letter_K (identifier (Def f)) = true ->
  exists sp id, Stn.properties f = Def sp /\ Stn.stationIdentifier sp = Def id /\
                four_letter_K (Def id) = true.
Proof.
  unfold identifier. cbn [optchain].
  destruct (Stn.properties f) as [| | sp]; cbn [optchain]; try discriminate.
  destruct (Stn.stationIdentifier sp) as [| | id] eqn:Hid; try discriminate. eauto.
Qed.

Lemma Kinv_init : Kinv (init KFiltered).
Proof.
  constructor; cbn [init stations tasks trace].
  - exists []. split; [reflexivity | constructor].
  - intros tid k H. rewrite lookup_empty in H. discriminate.
  - intros tid url [H | []]. discriminate.
Qed.

Lemma Kinv_step (st : state) (ev : event) :
  Kinv st -> Kinv (step Number_toString KFiltered st ev).
Proof.
  intros [(l & Hst & Hl) Ht Hu].
  assert (Hsame : Kinv st) by (constructor; eauto).
  destruct ev as [r | i | tid r | tid r |].
  - cbn [step]. destruct (directory_pending st); [| exact Hsame].
    unfold fetchStations_resume.
    destruct (stations_of_response KFiltered r) as [s | e] eqn:Hr.
    + assert (Hs : exists ks, s = Def ks /\
                     Forall (fun s => four_letter_K (identifier s) = true) ks).
      { unfold stations_of_response in Hr. destruct r as [d | e]; [| discriminate].
        destruct d as [| | d]; cbn [get bind] in Hr; try discriminate.
        destruct (Stn.features d) as [| | fs]; cbn [get bind] in Hr; try discriminate.
        destruct (filter_array filter_callback fs) as [ks |] eqn:Hks; cbn [bind] in Hr;
          [| discriminate].
        injection Hr as <-. exists ks. split; [reflexivity |].
        exact (filter_array_sound fs ks Hks). }
      constructor; cbn.
      * exact Hs.
      * exact Ht.
      * intros tid url Hin. rewrite <- app_assoc in Hin. apply in_app_or in Hin.
        destruct Hin as [Hin | [Hin | [Hin | []]]]; try discriminate. eauto.
    + constructor; cbn.
      * eauto.
      * exact Ht.
      * intros tid url Hin. rewrite <- app_assoc in Hin. apply in_app_or in Hin.
        destruct Hin as [Hin | [Hin | [Hin | []]]]; try discriminate. eauto.
  - destruct (render KFiltered st) as [[| ms co] | e] eqn:Hr;
      try (cbn [step]; rewrite Hr; exact Hsame).
    destruct (ms !! i) as [mk |] eqn:Hi; [| cbn [step]; rewrite Hr, Hi; exact Hsame].
    destruct (step_MarkerPress Number_toString KFiltered st ms co i mk Hr Hi)
      as (lat & lon & ->).
    assert (Hmk : four_letter_K (identifier (Def (pressed mk))) = true).
    { pose proof Hr as Hr'. apply render_MapScreen in Hr'.
      destruct Hr' as (_ & l' & Hst' & Hms & _).
      destruct (map_array_lookup _ _ _ _ _ Hms Hi) as (s & Hs & Hrm).
      apply render_marker_wf in Hrm. destruct Hrm as (-> & _).
      assert (l' = l) by congruence. subst l'.
      rewrite List.Forall_forall in Hl. apply Hl.
      exact (list_lookup_In _ _ _ Hs). }
    constructor; cbn.
    + eauto.
    + intros tid k Hk. destruct (decide (tid = next_task st)) as [-> | Hne].
      * rewrite lookup_insert_eq in Hk. injection Hk as <-. exact Hmk.
      * rewrite lookup_insert_ne in Hk by congruence. eauto.
    + intros tid url Hin. apply in_app_or in Hin.
      destruct Hin as [Hin | [Hin | []]]; try discriminate. eauto.
  - destruct (tasks st !! tid) as [[A | A p] |] eqn:Hk;
      try (cbn [step]; rewrite Hk; exact Hsame).
    destruct (K_station_properties A (Ht tid _ Hk)) as (sp & id & Hsp & Hid & HK).
    destruct r as [p | e].
    + rewrite (step_Projected Number_toString KFiltered st tid A sp p Hk Hsp).
      constructor; cbn.
      * eauto.
      * intros tid' k' Hk'. destruct (decide (tid' = tid)) as [-> | Hne].
        -- rewrite lookup_insert_eq in Hk'. injection Hk' as <-. exact (Ht tid _ Hk).
        -- rewrite lookup_insert_ne, lookup_delete_ne in Hk' by congruence. eauto.
      * intros tid' url Hin. apply in_app_or in Hin.
        destruct Hin as [Hin | [Hin | [Hin | []]]]; try discriminate; [eauto |].
        injection Hin as _ <-. exists id. rewrite Hid. auto.
    + cbn [step]. rewrite Hk. unfold handleMarkerPress_projected.
      constructor; cbn.
      * eauto.
      * intros tid' k' Hk'. destruct (decide (tid' = tid)) as [-> | Hne].
        -- rewrite lookup_delete_eq in Hk'. discriminate.
        -- rewrite lookup_delete_ne in Hk' by congruence. eauto.
      * exact Hu.
  - destruct (tasks st !! tid) as [[A | A p] |] eqn:Hk;
      try (cbn [step]; rewrite Hk; exact Hsame).
    destruct (K_station_properties A (Ht tid _ Hk)) as (sp & id & Hsp & Hid & HK).
    destruct (step_Observed Number_toString KFiltered st tid A sp p r Hk Hsp)
      as (c & new & -> & _ & _ & _ & Hnew).
    constructor; cbn.
    + eauto.
    + intros tid' k' Hk'. destruct (decide (tid' = tid)) as [-> | Hne].
      * rewrite lookup_delete_eq in Hk'. discriminate.
      * rewrite lookup_delete_ne in Hk' by congruence. eauto.
    + intros tid' url Hin. apply in_app_or in Hin. destruct Hin as [Hin | Hin]; [eauto |].
      destruct Hnew as [-> | (e & ->)].
      * destruct Hin as [Hin | []]. discriminate.
      * destruct Hin as [Hin | [Hin | []]]; discriminate.
  - destruct (render KFiltered st) as [[| ms co] | e] eqn:Hr;
      try (cbn [step]; rewrite Hr; exact Hsame).
    rewrite (step_MapPress Number_toString KFiltered st ms co Hr).
    constructor; cbn.
    + eauto.
    + exact Ht.
    + intros tid url Hin. apply in_app_or in Hin.
      destruct Hin as [Hin | [Hin | []]]; try discriminate. eauto.
Qed.

Lemma Kinv_run (evs : list event) : Kinv (run Number_toString KFiltered (init KFiltered) evs).
Proof.
  induction evs as [| ev evs IH] using rev_ind; [exact Kinv_init |].
  rewrite run_snoc. apply Kinv_step. exact IH.
Qed.

(** X13.  In the filtering variant, along every run: each marker on the
    map has a key of four characters, K followed by three uppercase
    letters, and each observation request goes to the URL of such an
    identifier; no request is ever made for a null, undefined or foreign
    identifier. *)
Theorem filtering_variant_stays_on_K_stations (evs : list event) :
  (forall ms co i mk,
     render KFiltered (run Number_toString KFiltered (init KFiltered) evs)
       = Ok (MapScreen ms co) ->
     ms !! i = Some mk -> four_letter_K (key mk) = true) /\
  (forall tid url,
     In (EGet (Task tid) url) (trace (run Number_toString KFiltered (init KFiltered) evs)) ->
     exists id, four_letter_K (Def id) = true /\ url = observation_url (Def id)).
Proof.
  destruct (Kinv_run evs) as [(l & Hst & Hl) _ Hu]. split; [| exact Hu].
  intros ms co i mk Hr Hi. apply render_MapScreen in Hr.
  destruct Hr as (_ & l' & Hst' & Hms & _).
  destruct (map_array_lookup _ _ _ _ _ Hms Hi) as (s & Hs & Hrm).
  destruct (render_marker_fields s mk Hrm) as (_ & -> & _).
  assert (l' = l) by congruence. subst l'.
  rewrite List.Forall_forall in Hl. apply Hl.
  exact (list_lookup_In _ _ _ Hs).
Qed.

End KExtras.

Lemma filtering_variant_stays_on_K_stations_witness :
  In (EGet (Task 0) "https://api.weather.gov/stations/KDEN/observations/latest"%string)
    (trace (run sample_toString KFiltered (init KFiltered)
              [StationsResponse sample_directory; MarkerPress 1;
               Projected 0 (Ok (sample_point 160 240))])) /\
  exists id,
    four_letter_K (Def id) = true /\
    "https://api.weather.gov/stations/KDEN/observations/latest"%string
      = observation_url (Def id).
Proof.
  assert (Hin : In (EGet (Task 0) "https://api.weather.gov/stations/KDEN/observations/latest"%string)
                  (trace (run sample_toString KFiltered (init KFiltered)
                            [StationsResponse sample_directory; MarkerPress 1;
                             Projected 0 (Ok (sample_point 160 240))])))
    by (vm_compute; do 5 right; left; reflexivity).
  split; [exact Hin |].
  exact (proj2 (filtering_variant_stays_on_K_stations sample_toString
                  [StationsResponse sample_directory; MarkerPress 1;
                   Projected 0 (Ok (sample_point 160 240))]) 0%nat _ Hin).
Defined.

(** ** The outcome of an observation request *)

Section OutcomeExtras.
Variable Number_toString : number -> string.
Variable v : variant.

(** X14.  When the observation request of a selection settles, the
    callout shows the view-model decided by the response alone: Ready for
    a body with a non-null temperature value, No recent observation for a
    body without data, without properties or with a temperature whose
    value is null, Fetch failed for a rejected request and for properties
    without a temperature object.  The view-model carries the station's
    name at the anchor of the selection, the task is over, and the
    failure is logged in the Fetch failed case and in no other. *)
Theorem observation_outcome (st : state) (tid : nat) (A : Stn.feature) (sp : Stn.props)
    (p : Point) (r : axios Obs.data) :
  tasks st !! tid = Some (AwaitObservation A p) -> Stn.properties A = Def sp ->
  exists c,
    calloutData (step Number_toString v st (Observed tid r)) = Def c /\
    classify c = outcome r /\
    Callout.stationName c = Stn.name sp /\ Callout.position c = p /\
    tasks (step Number_toString v st (Observed tid r)) !! tid = None /\
    (outcome r <> FetchFailed ->
     trace (step Number_toString v st (Observed tid r))
       = trace st ++ [ESetCalloutData (Some tid) (Def c)]) /\
    (outcome r = FetchFailed ->
     exists e,
       trace (step Number_toString v st (Observed tid r))
         = trace st ++ [EConsoleError "Failed to fetch observation"%string e;
                        ESetCalloutData (Some tid) (Def c)]).
Proof.
  intros Ht Hsp. cbn [step]. rewrite Ht.
  unfold handleMarkerPress_observed, observation_callout, observation_catch, has_temperature.
  assert (Hdel : forall m : gmap nat task, delete tid m !! tid = None)
    by (intros m; apply lookup_delete_eq).
  destruct r as [[| | d] | e]; cbn [outcome optchain]; unbind; rewrite ?Hsp; unbind.
  1, 2: eexists; split; [reflexivity |]; cbn; repeat split; auto; discriminate.
  2: { eexists; split; [reflexivity |]; cbn. repeat split; auto; [congruence |].
       intros _. exists e. rewrite <- app_assoc. reflexivity. }
  destruct (Obs.properties d) as [| | props]; unbind; rewrite ?Hsp; unbind.
  1, 2: eexists; split; [reflexivity |]; cbn; repeat split; auto; discriminate.
  destruct (Obs.temperature props) as [| | q]; unbind; rewrite ?Hsp; unbind.
  1, 2: eexists; split; [reflexivity |]; cbn; repeat split; auto; [congruence |];
        intros _; eexists; rewrite <- app_assoc; reflexivity.
  destruct (Obs.value q) as [| | t]; cbn [neq_null]; unbind; rewrite ?Hsp; unbind.
  all: eexists; split; [reflexivity |]; cbn; repeat split; auto; discriminate.
Qed.

End OutcomeExtras.

Lemma observation_outcome_witness :
  tasks (run sample_toString Unfiltered (init Unfiltered)
           [StationsResponse sample_directory; MarkerPress 0;
            Projected 0 (Ok (sample_point 160 240))]) !! 0%nat
    = Some (AwaitObservation KJFK (sample_point 160 240)) /\
  exists c,
    calloutData (run sample_toString Unfiltered (init Unfiltered)
                   [StationsResponse sample_directory; MarkerPress 0;
                    Projected 0 (Ok (sample_point 160 240));
                    Observed 0 (observation (with_temperature (quantity 21) sample_props))])
      = Def c /\
    classify c = Ready.
Proof.
  assert (Ht : tasks (run sample_toString Unfiltered (init Unfiltered)
                        [StationsResponse sample_directory; MarkerPress 0;
                         Projected 0 (Ok (sample_point 160 240))]) !! 0%nat
               = Some (AwaitObservation KJFK (sample_point 160 240)))
    by (vm_compute; reflexivity).
  split; [exact Ht |].
  destruct (observation_outcome sample_toString Unfiltered _ 0 KJFK
              {| Stn.stationIdentifier := Def "KJFK"%string;
                 Stn.name := Def "New York, Kennedy International Airport"%string |}
              (sample_point 160 240)
              (observation (with_temperature (quantity 21) sample_props)) Ht eq_refl)
    as (c & H1 & H2 & _).
  exists c. split; [| exact H2].
  change [StationsResponse sample_directory; MarkerPress 0;
          Projected 0 (Ok (sample_point 160 240));
          Observed 0 (observation (with_temperature (quantity 21) sample_props))]
    with ([StationsResponse sample_directory; MarkerPress 0;
           Projected 0 (Ok (sample_point 160 240))]
          ++ [Observed 0 (observation (with_temperature (quantity 21) sample_props))]).
  unfold run in H1 |- *. rewrite fold_left_app. exact H1.
Defined.

(** ** What the callout shows *)

Section CalloutExtras.
Variable Number_toString : number -> string.
Variable v : variant.

Lemma observation_callout_presentable (A : Stn.feature) (p : Point) (r : axios Obs.data)
    (c : Callout.t) :
  observation_callout Number_toString A p r = Ok c -> presentable c.
Proof.
  unfold observation_callout. destruct r as [d | e]; [| discriminate].
  destruct (has_temperature d) as [[|] | e]; unbind; [| | discriminate].
  - destruct d as [| | d]; unbind; try discriminate.
    destruct (Obs.properties d) as [| | props]; unbind; try discriminate.
    destruct (Stn.properties A) as [| | sp]; unbind; try discriminate.
    destruct (Obs.temperature props) as [| | q]; unbind; try discriminate.
    intros H. injection H as <-. right. left. cbn. eauto.
  - destruct (Stn.properties A) as [| | sp]; unbind; try discriminate.
    intros H. injection H as <-. right. right. cbn. auto.
Qed.

Lemma observation_catch_shown (tid : nat) (A : Stn.feature) (p : Point) (e : exn)
    (st : state) :
  shown st -> shown (observation_catch tid A p e st).
Proof.
  intros H. unfold observation_catch.
  destruct (get (Stn.properties A) "name"%string Stn.name) as [n | e']; [| exact H].
  right. eexists. split; [reflexivity |]. right. right. cbn. auto.
Qed.

Lemma step_shown (st : state) (ev : event) :
  shown st -> shown (step Number_toString v st ev).
Proof.
  intros H. destruct ev as [r | i | tid r | tid r |]; cbn [step].
  - destruct (directory_pending st); [| exact H]. unfold fetchStations_resume.
    destruct (stations_of_response v r); exact H.
  - destruct (render v st) as [[| ms co] | e]; try exact H.
    destruct (ms !! i) as [mk |]; [| exact H]. unfold handleMarkerPress.
    destruct (c ← get (Stn.geometry (pressed mk)) "coordinates"%string Stn.coordinates;
              destructure2 c) as [[lon lat] | e]; exact H.
  - destruct (tasks st !! tid) as [[A | A p] |]; try exact H.
    unfold handleMarkerPress_projected. destruct r as [p | e]; [| exact H].
    destruct (get (Stn.properties A) "name"%string Stn.name) as [n | e] eqn:Hn; [| exact H].
    destruct (get (Stn.properties A) "stationIdentifier"%string Stn.stationIdentifier)
      as [id | e].
    + right. eexists. split; [reflexivity |]. left. cbn. auto.
    + apply observation_catch_shown.
      right. eexists. split; [reflexivity |]. left. cbn. auto.
  - destruct (tasks st !! tid) as [[A | A p] |]; try exact H.
    unfold handleMarkerPress_observed.
    destruct (observation_callout Number_toString A p r) as [c | e] eqn:Hc.
    + right. exists c. split; [reflexivity |].
      exact (observation_callout_presentable A p r c Hc).
    + apply observation_catch_shown. exact H.
  - destruct (render v st) as [[| ms co] | e]; try exact H. left. reflexivity.
Qed.

Lemma run_shown (evs : list event) : shown (run Number_toString v (init v) evs).
Proof.
  induction evs as [| ev evs IH] using rev_ind; [left; reflexivity |].
  rewrite run_snoc. apply step_shown. exact IH.
Qed.

(** X15.  Along every run the callout is either absent or shows the
    station name followed by exactly one thing: the spinner, or one of
    the two messages, or the weather block.  The view-model is a record
    of optional fields, and the handlers only ever fill it in these ways:
    never a spinner beside a result, never a message beside the weather,
    never an empty callout. *)
Theorem callout_shows_one_thing (evs : list event) :
  calloutData (run Number_toString v (init v) evs) = Null \/
  exists c,
    calloutData (run Number_toString v (init v) evs) = Def c /\
    (callout_children v c
       = [Text [Str (Callout.stationName c)]; ActivityIndicator; Nothing; Nothing] \/
     (exists msg,
        (msg = "No recent observation."%string \/ msg = "Fetch failed."%string) /\
        callout_children v c
          = [Text [Str (Callout.stationName c)]; Nothing; Text [Str (Def msg)]; Nothing]) \/
     (exists w,
        callout_children v c
          = [Text [Str (Callout.stationName c)]; Nothing; Nothing; weather_block v w])).
Proof.
  destruct (run_shown evs) as [H | (c & H & Hc)]; [left; exact H |].
  right. exists c. split; [exact H |]. unfold callout_children.
  destruct Hc as [(-> & -> & ->) | [(-> & (w & ->) & ->) | (-> & -> & [-> | ->])]].
  - left. reflexivity.
  - right. right. exists w. reflexivity.
  - right. left. eexists. split; [left; reflexivity | reflexivity].
  - right. left. eexists. split; [right; reflexivity | reflexivity].
Qed.

(** X16.  The lines of the weather block for an observation with a
    temperature, read off the payload.  The temperature line is always
    there.  The wind line is there exactly when the wind speed has a
    non-null value, a speed of zero included; it names the direction
    computed from the bearing, and ends after "from the" when the bearing
    is missing; a direction without a speed is not shown.  The humidity
    line is there exactly when the humidity has a non-null value.  The
    Conditions line exists in [App.js] only, where a missing or empty
    description reads "Not available". *)
Theorem weather_block_lines (A : Stn.feature) (sp : Stn.props) (p : Point)
    (props : Obs.props) (q : Obs.quantity) (t : number) :
  Stn.properties A = Def sp -> Obs.temperature props = Def q -> Obs.value q = Def t ->
  exists c w,
    observation_callout Number_toString A p (observation props) = Ok c /\
    Callout.weather c = Def w /\
    weather_block v w =
      View
        ([Text [Lit "Temp: "; Str (Def (toFixed1 Number_toString (fahrenheit t))); Lit " °F"]]
         ++ match v with
            | Unfiltered =>
                [match Obs.textDescription props with
                 | Def (String a s) =>
                     Text [Lit "Conditions: "; Str (Def (String a s))]
                 | _ => Text [Lit "Conditions: Not available"]
                 end]
            | KFiltered => []
            end
         ++ [match optchain (Obs.windSpeed props) Obs.value with
             | Def s =>
                 Text [Lit "Wind: "; Num (Math_round (mul s lit_2_237));
                       Lit " mph from the ";
                       Str (degreesToCardinal (optchain (Obs.windDirection props) Obs.value))]
             | _ => Nothing
             end;
             match optchain (Obs.relativeHumidity props) Obs.value with
             | Def h => Text [Lit "Humidity: "; Num (Math_round h); Lit "%"]
             | _ => Nothing
             end]).
Proof.
  intros Hsp Hq Ht.
  unfold observation_callout, observation, has_temperature. cbn [Obs.properties]. unbind.
  rewrite Hq. unbind. rewrite Ht. cbn [neq_null]. unbind. rewrite Hsp. unbind.
  cbn [Obs.properties]. unbind. rewrite Hq. unbind. rewrite Ht. unbind.
  eexists _, _. split; [reflexivity |]. split; [reflexivity |].
  unfold weather_block. cbn [Weather.temp Weather.conditions Weather.windSpeed
                              Weather.windDirection Weather.humidity to_number].
  unfold windSpeedMph, humidity, windDirectionCardinal.
  destruct (optchain (Obs.windSpeed props) Obs.value);
    destruct (optchain (Obs.relativeHumidity props) Obs.value);
    destruct v; cbn [neq_null app]; try reflexivity;
    destruct (Obs.textDescription props) as [| | [| a' s']]; reflexivity.
Qed.

End CalloutExtras.

Lemma weather_block_lines_witness :
  Stn.properties KJFK
    = Def {| Stn.stationIdentifier := Def "KJFK"%string;
             Stn.name := Def "New York, Kennedy International Airport"%string |} /\
  exists c w,
    observation_callout sample_toString KJFK (sample_point 160 240)
      (observation (with_windDirection Null sample_props)) = Ok c /\
    Callout.weather c = Def w /\
    weather_block Unfiltered w =
      View [Text [Lit "Temp: "; Str (Def "68.0"%string); Lit " °F"];
            Text [Lit "Conditions: "; Str (Def "Clear"%string)];
            Text [Lit "Wind: "; Num (of_Z 22); Lit " mph from the "; Str Null];
            Text [Lit "Humidity: "; Num (of_Z 40); Lit "%"]].
Proof.
  split; [reflexivity |].
  exact (weather_block_lines sample_toString Unfiltered KJFK _ (sample_point 160 240)
           (with_windDirection Null sample_props) {| Obs.value := Def (of_Z 20) |} (of_Z 20)
           eq_refl eq_refl eq_refl).
Defined.

(** ** What a selection publishes *)

Section PublicationExtras.
Variable Number_toString : number -> string.
Variable v : variant.

Lemma Pub_known (st : state) (tid : nat) (k : task) :
  Pub st -> tasks st !! tid = Some k -> tid < next_task st.
Proof.
  intros H Hk. destruct (le_lt_dec (next_task st) tid) as [Hle | Hlt]; [| exact Hlt].
  destruct (pub_fresh st H tid Hle) as (Hn & _). congruence.
Qed.

Lemma Pub_frame (st st' : state) (new : list effect) :
  Pub st -> tasks st' = tasks st -> next_task st' = next_task st ->
  trace st' = trace st ++ new -> (forall tid, published tid new = []) ->
  Pub st'.
Proof.
  intros [H1 H2 H3 H4] Ht Hn Htr Hnew.
  assert (Hp : forall tid, published tid (trace st') = published tid (trace st)).
  { intros tid. rewrite Htr, published_app, Hnew. apply app_nil_r. }
  constructor; intros tid; rewrite Ht, ?Hn, Hp; eauto.
Qed.

Lemma Pub_press (st st' : state) (f : Stn.feature) (latitude longitude : nullable number) :
  Pub st -> tasks st' = <[next_task st := AwaitPoint f]> (tasks st) ->
  next_task st' = S (next_task st) ->
  trace st' = trace st ++ [EProject (next_task st) latitude longitude] ->
  Pub st'.
Proof.
  intros H Ht Hn Htr. pose proof H as [H1 H2 H3 H4].
  assert (Hp : forall tid, published tid (trace st') = published tid (trace st)).
  { intros tid. rewrite Htr, published_app. apply app_nil_r. }
  constructor; intros tid; rewrite Ht, ?Hn, Hp.
  - intros Hle. rewrite lookup_insert_ne by lia. apply H1. lia.
  - intros f' Hk. destruct (decide (tid = next_task st)) as [-> | Hne].
    + apply (H1 (next_task st)). lia.
    + rewrite lookup_insert_ne in Hk by congruence. eauto.
  - intros f' p Hk. destruct (decide (tid = next_task st)) as [-> | Hne].
    + rewrite lookup_insert_eq in Hk. discriminate.
    + rewrite lookup_insert_ne in Hk by congruence. eauto.
  - intros Hk. destruct (decide (tid = next_task st)) as [-> | Hne].
    + rewrite lookup_insert_eq in Hk. discriminate.
    + rewrite lookup_insert_ne in Hk by congruence. eauto.
Qed.

Lemma Pub_load (st st' : state) (tid : nat) (f : Stn.feature) (sp : Stn.props) (p : Point)
    (c : Callout.t) (url : string) :
  Pub st -> tasks st !! tid = Some (AwaitPoint f) -> Stn.properties f = Def sp ->
  tasks st' = <[tid := AwaitObservation f p]> (delete tid (tasks st)) ->
  next_task st' = next_task st ->
  trace st' = trace st ++ [ESetCalloutData (Some tid) (Def c); EGet (Task tid) url] ->
  classify c = Loading ->
  Pub st'.
Proof.
  intros H Hk Hsp Ht Hn Htr Hc. pose proof H as [H1 H2 H3 H4].
  pose proof (Pub_known st tid _ H Hk) as Hlt.
  assert (Hp : forall tid', tid' <> tid ->
            published tid' (trace st') = published tid' (trace st)).
  { intros tid' Hne. rewrite Htr, published_app. cbn.
    destruct (Nat.eqb_spec tid tid') as [-> | _]; [congruence |]. apply app_nil_r. }
  assert (Hp' : published tid (trace st') = [c]).
  { rewrite Htr, published_app, (H2 tid f Hk). cbn. rewrite Nat.eqb_refl. reflexivity. }
  constructor; intros tid'; rewrite Ht, ?Hn.
  - intros Hle. rewrite lookup_insert_ne, lookup_delete_ne, Hp by lia. apply H1. exact Hle.
  - intros f' Hk'. destruct (decide (tid' = tid)) as [-> | Hne].
    + rewrite lookup_insert_eq in Hk'. discriminate.
    + rewrite lookup_insert_ne, lookup_delete_ne in Hk' by congruence.
      rewrite Hp by exact Hne. eauto.
  - intros f' p' Hk'. destruct (decide (tid' = tid)) as [-> | Hne].
    + rewrite lookup_insert_eq in Hk'. injection Hk' as <- <-.
      split; [eauto |]. exists c. auto.
    + rewrite lookup_insert_ne, lookup_delete_ne in Hk' by congruence.
      rewrite Hp by exact Hne. eauto.
  - intros Hk'. destruct (decide (tid' = tid)) as [-> | Hne].
    + rewrite lookup_insert_eq in Hk'. discriminate.
    + rewrite lookup_insert_ne, lookup_delete_ne in Hk' by congruence.
      rewrite Hp by exact Hne. eauto.
Qed.

Lemma Pub_abort (st st' : state) (tid : nat) (f : Stn.feature) :
  Pub st -> tasks st !! tid = Some (AwaitPoint f) ->
  tasks st' = delete tid (tasks st) -> next_task st' = next_task st ->
  trace st' = trace st ->
  Pub st'.
Proof.
  intros H Hk Ht Hn Htr. pose proof H as [H1 H2 H3 H4].
  pose proof (Pub_known st tid _ H Hk) as Hlt.
  constructor; intros tid'; rewrite Ht, ?Hn, Htr.
  - intros Hle. rewrite lookup_delete_ne by lia. apply H1. exact Hle.
  - intros f' Hk'. destruct (decide (tid' = tid)) as [-> | Hne].
    + rewrite lookup_delete_eq in Hk'. discriminate.
    + rewrite lookup_delete_ne in Hk' by congruence. eauto.
  - intros f' p' Hk'. destruct (decide (tid' = tid)) as [-> | Hne].
    + rewrite lookup_delete_eq in Hk'. discriminate.
    + rewrite lookup_delete_ne in Hk' by congruence. eauto.
  - intros Hk'. destruct (decide (tid' = tid)) as [-> | Hne].
    + left. eauto.
    + rewrite lookup_delete_ne in Hk' by congruence. eauto.
Qed.

Lemma Pub_end (st st' : state) (tid : nat) (f : Stn.feature) (p : Point)
    (c : Callout.t) (new : list effect) :
  Pub st -> tasks st !! tid = Some (AwaitObservation f p) ->
  tasks st' = delete tid (tasks st) -> next_task st' = next_task st ->
  trace st' = trace st ++ new ->
  (new = [ESetCalloutData (Some tid) (Def c)] \/
   exists e, new = [EConsoleError "Failed to fetch observation"%string e;
                    ESetCalloutData (Some tid) (Def c)]) ->
  final c ->
  Pub st'.
Proof.
  intros H Hk Ht Hn Htr Hnew Hc. pose proof H as [H1 H2 H3 H4].
  pose proof (Pub_known st tid _ H Hk) as Hlt.
  assert (Hp : forall tid', tid' <> tid ->
            published tid' (trace st') = published tid' (trace st)).
  { intros tid' Hne. rewrite Htr, published_app.
    destruct Hnew as [-> | (e & ->)]; cbn;
      destruct (Nat.eqb_spec tid tid') as [-> | _]; try congruence; apply app_nil_r. }
  assert (Hp' : exists l, published tid (trace st') = [l; c] /\ classify l = Loading).
  { destruct (H3 tid f p Hk) as (_ & l & Hl & Hload). exists l. split; [| exact Hload].
    rewrite Htr, published_app, Hl.
    destruct Hnew as [-> | (e & ->)]; cbn; rewrite Nat.eqb_refl; reflexivity. }
  constructor; intros tid'; rewrite Ht, ?Hn.
  - intros Hle. rewrite lookup_delete_ne, Hp by lia. apply H1. exact Hle.
  - intros f' Hk'. destruct (decide (tid' = tid)) as [-> | Hne].
    + rewrite lookup_delete_eq in Hk'. discriminate.
    + rewrite lookup_delete_ne in Hk' by congruence. rewrite Hp by exact Hne. eauto.
  - intros f' p' Hk'. destruct (decide (tid' = tid)) as [-> | Hne].
    + rewrite lookup_delete_eq in Hk'. discriminate.
    + rewrite lookup_delete_ne in Hk' by congruence. rewrite Hp by exact Hne. eauto.
  - intros Hk'. destruct (decide (tid' = tid)) as [-> | Hne].
    + right. destruct Hp' as (l & Hl & Hload). exists l, c. auto.
    + rewrite lookup_delete_ne in Hk' by congruence. rewrite Hp by exact Hne. eauto.
Qed.

Lemma Pub_init : Pub (init v).
Proof.
  constructor; cbn [init tasks next_task trace]; intros tid.
  - intros _. split; [apply lookup_empty | reflexivity].
  - intros f H. rewrite lookup_empty in H. discriminate.
  - intros f p H. rewrite lookup_empty in H. discriminate.
  - intros _. left. reflexivity.
Qed.

Lemma Pub_step (st : state) (ev : event) :
  Pub st -> Pub (step Number_toString v st ev).
Proof.
  intros H. destruct ev as [r | i | tid r | tid r |].
  - cbn [step]. destruct (directory_pending st); [| exact H].
    unfold fetchStations_resume.
    destruct (stations_of_response v r) as [s | e].
    + apply (Pub_frame st _ [ESetStations s; ESetLoading false] H); try reflexivity.
      cbn. rewrite <- app_assoc. reflexivity.
    + apply (Pub_frame st _ [EConsoleError "Failed to fetch station data:"%string e;
                             ESetLoading false] H); try reflexivity.
      cbn. rewrite <- app_assoc. reflexivity.
  - destruct (render v st) as [[| ms co] | e] eqn:Hr;
      try (cbn [step]; rewrite Hr; exact H).
    destruct (ms !! i) as [mk |] eqn:Hi; [| cbn [step]; rewrite Hr, Hi; exact H].
    destruct (step_MarkerPress Number_toString v st ms co i mk Hr Hi) as (lat & lon & ->).
    apply (Pub_press st _ (pressed mk) lat lon H); reflexivity.
  - destruct (tasks st !! tid) as [[A | A p] |] eqn:Hk;
      try (cbn [step]; rewrite Hk; exact H).
    destruct r as [p | e];
      [| cbn [step]; rewrite Hk; apply (Pub_abort st _ tid A H Hk); reflexivity].
    destruct (Stn.properties A) as [| | sp] eqn:Hsp.
    1, 2: cbn [step]; rewrite Hk; unfold handleMarkerPress_projected; rewrite Hsp;
          cbn [get]; apply (Pub_abort st _ tid A H Hk); reflexivity.
    rewrite (step_Projected Number_toString v st tid A sp p Hk Hsp).
    apply (Pub_load st _ tid A sp p (loading_callout sp p)
             (observation_url (Stn.stationIdentifier sp)) H Hk Hsp); reflexivity.
  - destruct (tasks st !! tid) as [[A | A p] |] eqn:Hk;
      try (cbn [step]; rewrite Hk; exact H).
    destruct (pub_observation st H tid A p Hk) as ((sp & Hsp) & _).
    destruct (step_Observed Number_toString v st tid A sp p r Hk Hsp)
      as (c & new & -> & _ & _ & Hc & Hnew).
    apply (Pub_end st _ tid A p c new H Hk); try reflexivity; assumption.
  - destruct (render v st) as [[| ms co] | e] eqn:Hr;
      try (cbn [step]; rewrite Hr; exact H).
    rewrite (step_MapPress Number_toString v st ms co Hr).
    apply (Pub_frame st _ [ESetCalloutData None Null] H); reflexivity.
Qed.

Lemma Pub_run (evs : list event) : Pub (run Number_toString v (init v) evs).
Proof.
  induction evs as [| ev evs IH] using rev_ind; [exact Pub_init |].
  rewrite run_snoc. apply Pub_step. exact IH.
Qed.

(** X17.  Along every run the view-models a selection has published
    are one of three lists: none; the Loading view-model alone, its
    request then being in flight; the Loading view-model followed by
    exactly one result (Ready, No recent observation or Fetch failed),
    its handler then being over.  No selection publishes two results, a
    result without Loading before it, or Loading twice. *)
Theorem selection_publishes_loading_then_one_result (evs : list event) (tid : nat) :
  published tid (trace (run Number_toString v (init v) evs)) = [] \/
  (exists c f p,
     published tid (trace (run Number_toString v (init v) evs)) = [c] /\
     classify c = Loading /\
     tasks (run Number_toString v (init v) evs) !! tid = Some (AwaitObservation f p)) \/
  (exists c c',
     published tid (trace (run Number_toString v (init v) evs)) = [c; c'] /\
     classify c = Loading /\ final c' /\
     tasks (run Number_toString v (init v) evs) !! tid = None).
Proof.
  pose proof (Pub_run evs) as H.
  destruct (tasks (run Number_toString v (init v) evs) !! tid) as [[f | f p] |] eqn:Hk.
  - left. exact (pub_point _ H tid f Hk).
  - right. left. destruct (pub_observation _ H tid f p Hk) as (_ & c & Hc & Hl).
    exists c, f, p. auto.
  - destruct (pub_done _ H tid Hk) as [Hn | (c & c' & Hc & Hl & Hf)]; [left; exact Hn |].
    right. right. exists c, c'. auto.
Qed.

End PublicationExtras.

(** * The anchor of a selection *)

(** ** The anchor of a selection *)

Section AnchorPointFacts.
Variable Number_toString : number -> string.
Variable v : variant.

Lemma run_app (st : state) (evs evs' : list event) :
  run Number_toString v st (evs ++ evs')
    = run Number_toString v (run Number_toString v st evs) evs'.
Proof. unfold run. apply fold_left_app. Qed.

Lemma step_grows (st : state) (ev : event) :
  next_task st <= next_task (step Number_toString v st ev) /\
  exists new, trace (step Number_toString v st ev) = trace st ++ new.
Proof.
  destruct (step_shape Number_toString v st ev)
    as [new _ Hn Htr _ | f lat lon _ Hn Htr | tid f p c url _ _ Hn Htr _ _
        | tid k p new _ _ _ Hn Htr _]; rewrite Hn; split; eauto.
Qed.

Lemma run_grows (st : state) (evs : list event) :
  next_task st <= next_task (run Number_toString v st evs) /\
  exists new, trace (run Number_toString v st evs) = trace st ++ new.
Proof.
  induction evs as [| ev evs IH] using rev_ind.
  - split; [reflexivity |]. exists []. symmetry. apply app_nil_r.
  - rewrite run_snoc. destruct IH as (Hn & new & Htr).
    destruct (step_grows (run Number_toString v st evs) ev) as (Hn' & new' & Htr').
    split; [lia |]. exists (new ++ new'). rewrite Htr', Htr. symmetry. apply app_assoc.
Qed.

(** A parked task stays as it is until an event settles its own
    [await]. *)
Lemma step_keeps_task (st : state) (ev : event) (tid : nat) (k : task) :
  tasks st !! tid = Some k -> tid < next_task st -> addressed tid ev = false ->
  tasks (step Number_toString v st ev) !! tid = Some k.
Proof.
  intros Hk Hlt Hev. destruct ev as [r | i | t r | t r |]; cbn [step].
  - destruct (directory_pending st); [| exact Hk]. unfold fetchStations_resume.
    destruct (stations_of_response v r); exact Hk.
  - destruct (render v st) as [[| ms co] | e]; try exact Hk.
    destruct (ms !! i) as [mk |]; [| exact Hk]. unfold handleMarkerPress.
    destruct (c ← get (Stn.geometry (pressed mk)) "coordinates"%string Stn.coordinates;
              destructure2 c) as [[lon lat] | e]; [| exact Hk].
    cbn [emit tasks]. rewrite lookup_insert_ne by lia. exact Hk.
  - cbn [addressed] in Hev. apply Nat.eqb_neq in Hev.
    destruct (tasks st !! t) as [[A | A p] |]; try exact Hk.
    unfold handleMarkerPress_projected.
    assert (Hdel : tasks (set_tasks (delete t) st) !! tid = Some k)
      by (cbn [set_tasks tasks]; rewrite lookup_delete_ne by congruence; exact Hk).
    destruct r as [p | e]; [| exact Hdel].
    destruct (get (Stn.properties A) "name"%string Stn.name) as [n | e]; [| exact Hdel].
    destruct (get (Stn.properties A) "stationIdentifier"%string Stn.stationIdentifier)
      as [id | e].
    + cbn [emit set_tasks setCalloutData tasks].
      rewrite lookup_insert_ne, lookup_delete_ne by congruence. exact Hk.
    + unfold observation_catch.
      destruct (get (Stn.properties A) "name"%string Stn.name) as [n' | e']; exact Hdel.
  - cbn [addressed] in Hev. apply Nat.eqb_neq in Hev.
    destruct (tasks st !! t) as [[A | A p] |]; try exact Hk.
    unfold handleMarkerPress_observed.
    assert (Hdel : tasks (set_tasks (delete t) st) !! tid = Some k)
      by (cbn [set_tasks tasks]; rewrite lookup_delete_ne by congruence; exact Hk).
    destruct (observation_callout Number_toString A p r) as [c | e]; [exact Hdel |].
    unfold observation_catch.
    destruct (get (Stn.properties A) "name"%string Stn.name) as [n' | e']; exact Hdel.
  - destruct (render v st) as [[| ms co] | e]; exact Hk.
Qed.

Lemma run_keeps_task (st : state) (evs : list event) (tid : nat) (k : task) :
  tasks st !! tid = Some k -> tid < next_task st ->
  forallb (fun ev => negb (addressed tid ev)) evs = true ->
  tasks (run Number_toString v st evs) !! tid = Some k.
Proof.
  intros Hk Hlt. induction evs as [| ev evs IH] using rev_ind; intros Hevs; [exact Hk |].
  rewrite forallb_app in Hevs. apply andb_prop in Hevs. destruct Hevs as [Hevs Hev].
  cbn [forallb] in Hev. rewrite andb_true_r in Hev. apply negb_true_iff in Hev.
  rewrite run_snoc. apply step_keeps_task; [exact (IH Hevs) | | exact Hev].
  destruct (run_grows st evs) as (Hn & _). lia.
Qed.

(** The step of a tap on a marker of the map. *)
Lemma tap_starts_task (st : state) (ms : list marker) (co : nullable callout_view)
    (i : nat) (mk : marker) :
  render v st = Ok (MapScreen ms co) -> ms !! i = Some mk ->
  step Number_toString v st (MarkerPress i) =
    emit (EProject (next_task st) (fst (coordinate mk)) (snd (coordinate mk)))
      {| stations := stations st; loading := loading st;
         calloutData := calloutData st;
         directory_pending := directory_pending st;
         tasks := <[next_task st := AwaitPoint (pressed mk)]> (tasks st);
         next_task := S (next_task st); trace := trace st |} /\
  exists sp, Stn.properties (pressed mk) = Def sp /\
             key mk = Stn.stationIdentifier sp /\
             station_name (pressed mk) = Stn.name sp.
Proof.
  intros H Hi.
  pose proof H as H'. apply render_MapScreen in H'. destruct H' as (_ & l & _ & Hms & _).
  destruct (map_array_lookup _ _ _ _ _ Hms Hi) as (s & _ & Hs).
  destruct (render_marker_fields s mk Hs) as (-> & Hk & g & c & Hg & Hc & Hco).
  destruct (render_marker_wf _ _ Hs) as (_ & sp & _ & _ & Hsp & _).
  split.
  - cbn [step]. rewrite H, Hi. unfold handleMarkerPress. unbind.
    rewrite Hg. cbn [get bind]. rewrite Hc. cbn [destructure2]. rewrite Hco. reflexivity.
  - exists sp. split; [exact Hsp |]. split.
    + rewrite Hk. unfold identifier. cbn [optchain]. rewrite Hsp. reflexivity.
    + unfold station_name. rewrite Hsp. reflexivity.
Qed.

Lemma published_In_app (tid : nat) (tr : list effect) (c : Callout.t) (post : list effect) :
  In c (published tid (tr ++ ESetCalloutData (Some tid) (Def c) :: post)).
Proof.
  rewrite published_app. apply in_or_app. right.
  unfold published. cbn [flat_map published_by]. rewrite Nat.eqb_refl. left. reflexivity.
Qed.

(** C6, as amended.  A selection is a tap on a marker of the map, after
    any run [evs]; [evs1] is whatever happens while the map computes the
    point (nothing addressed to this selection), [p] is the point the map
    delivers, [evs2] is whatever happens next.

    At the tap the projection of the marker's coordinate is asked for,
    for the first time, and nothing is published.  While the point is
    awaited the selection publishes nothing and requests nothing.  When
    the point [p] arrives the Loading view-model is published at [p] and
    the observation is requested right after it.  From then on the
    selection never asks for a projection again, every view-model it has
    published is Loading, Ready, NotAvailable or FetchFailed and sits at
    [p]; and once its request settles a result has been published, at
    [p]. *)
Theorem anchor_is_the_projected_point (evs : list event) (ms : list marker)
    (co : nullable callout_view) (i : nat) (mk : marker) (evs1 : list event)
    (p : Point) (evs2 : list event) :
  render v (run Number_toString v (init v) evs) = Ok (MapScreen ms co) ->
  ms !! i = Some mk ->
  forallb (fun ev => negb (addressed (next_task (run Number_toString v (init v) evs)) ev))
    evs1 = true ->
  projections (next_task (run Number_toString v (init v) evs))
    (trace (run Number_toString v (init v) evs)) = 0 /\
  trace (run Number_toString v (init v) (evs ++ [MarkerPress i]))
    = trace (run Number_toString v (init v) evs)
      ++ [EProject (next_task (run Number_toString v (init v) evs))
            (fst (coordinate mk)) (snd (coordinate mk))] /\
  published (next_task (run Number_toString v (init v) evs))
    (trace (run Number_toString v (init v) (evs ++ MarkerPress i :: evs1))) = [] /\
  (forall url,
     ~ In (EGet (Task (next_task (run Number_toString v (init v) evs))) url)
          (trace (run Number_toString v (init v) (evs ++ MarkerPress i :: evs1)))) /\
  (exists c post,
     trace (run Number_toString v (init v)
              (evs ++ MarkerPress i :: evs1
               ++ Projected (next_task (run Number_toString v (init v) evs)) (Ok p) :: evs2))
       = trace (run Number_toString v (init v) (evs ++ MarkerPress i :: evs1))
         ++ ESetCalloutData (Some (next_task (run Number_toString v (init v) evs))) (Def c)
            :: EGet (Task (next_task (run Number_toString v (init v) evs)))
                 (observation_url (key mk))
            :: post /\
     classify c = Loading /\ Callout.position c = p /\
     Callout.stationName c = station_name (pressed mk)) /\
  projections (next_task (run Number_toString v (init v) evs))
    (trace (run Number_toString v (init v)
              (evs ++ MarkerPress i :: evs1
               ++ Projected (next_task (run Number_toString v (init v) evs)) (Ok p) :: evs2)))
    = 1 /\
  (forall c',
     In c' (published (next_task (run Number_toString v (init v) evs))
              (trace (run Number_toString v (init v)
                        (evs ++ MarkerPress i :: evs1
                         ++ Projected (next_task (run Number_toString v (init v) evs)) (Ok p)
                            :: evs2)))) ->
     Callout.position c' = p /\
     (classify c' = Loading \/ classify c' = Ready \/
      classify c' = NotAvailable \/ classify c' = FetchFailed)) /\
  (forall (r : axios Obs.data) (evs3 : list event),
     forallb (fun ev => negb (addressed (next_task (run Number_toString v (init v) evs)) ev))
       evs2 = true ->
     exists c',
       In c' (published (next_task (run Number_toString v (init v) evs))
                (trace (run Number_toString v (init v)
                          (evs ++ MarkerPress i :: evs1
                           ++ Projected (next_task (run Number_toString v (init v) evs)) (Ok p)
                              :: evs2
                           ++ Observed (next_task (run Number_toString v (init v) evs)) r
                              :: evs3)))) /\
       Callout.position c' = p /\
       (classify c' = Ready \/ classify c' = NotAvailable \/ classify c' = FetchFailed)).
Proof.
  intros Hr Hi Hevs1.
  set (st := run Number_toString v (init v) evs) in *.
  set (tid := next_task st) in *.
  destruct (tap_starts_task st ms co i mk Hr Hi) as (Etap & sp & Hsp & Hkey & Hname).
  (* the tap *)
  assert (Rtap : run Number_toString v (init v) (evs ++ [MarkerPress i])
                 = step Number_toString v st (MarkerPress i)) by apply run_snoc.
  set (tapped := step Number_toString v st (MarkerPress i)) in *.
  assert (Ttap : tasks tapped !! tid = Some (AwaitPoint (pressed mk)))
    by (rewrite Etap; cbn [emit tasks]; apply lookup_insert_eq).
  assert (Ntap : tid < next_task tapped) by (rewrite Etap; cbn [emit next_task]; lia).
  (* while the point is awaited *)
  assert (Rwait : run Number_toString v (init v) (evs ++ MarkerPress i :: evs1)
                  = run Number_toString v tapped evs1).
  { change (MarkerPress i :: evs1) with ([MarkerPress i] ++ evs1).
    rewrite app_assoc, run_app, Rtap. reflexivity. }
  pose proof (Inv_run Number_toString v (evs ++ MarkerPress i :: evs1)) as Iwait.
  rewrite Rwait in *.
  set (waiting := run Number_toString v tapped evs1) in *.
  assert (Twait : tasks waiting !! tid = Some (AwaitPoint (pressed mk)))
    by (apply run_keeps_task; assumption).
  assert (Nwait : tid < next_task waiting)
    by (destruct (run_grows tapped evs1) as (Hn & _); fold waiting in Hn; lia).
  destruct (only_projections_published tid (trace waiting)
              (fun e => inv_await_point waiting Iwait tid (pressed mk) e Twait))
    as (Hpub & Hget).
  (* the point arrives *)
  pose proof (step_Projected Number_toString v waiting tid (pressed mk) sp p Twait Hsp)
    as Eload.
  set (loaded := step Number_toString v waiting (Projected tid (Ok p))) in *.
  assert (Rfin : forall evs',
            run Number_toString v (init v)
              (evs ++ MarkerPress i :: evs1 ++ Projected tid (Ok p) :: evs')
            = run Number_toString v loaded evs').
  { intros evs'.
    replace (evs ++ MarkerPress i :: evs1 ++ Projected tid (Ok p) :: evs')
      with ((evs ++ MarkerPress i :: evs1) ++ [Projected tid (Ok p)] ++ evs')
      by (rewrite <- !app_assoc; reflexivity).
    rewrite run_app, Rwait, run_app. reflexivity. }
  assert (Tload : tasks loaded !! tid = Some (AwaitObservation (pressed mk) p))
    by (rewrite Eload; cbn [tasks]; apply lookup_insert_eq).
  assert (Nload : tid < next_task loaded) by (rewrite Eload; exact Nwait).
  assert (Hafter : forall evs',
            exists post,
              trace (run Number_toString v loaded evs')
                = trace waiting
                  ++ ESetCalloutData (Some tid) (Def (loading_callout sp p))
                     :: EGet (Task tid) (observation_url (key mk)) :: post).
  { intros evs'. destruct (run_grows loaded evs') as (_ & post & ->).
    exists post. rewrite Eload, Hkey. cbn [trace]. rewrite <- app_assoc. reflexivity. }
  assert (Hat : forall evs' c',
            In c' (published tid (trace (run Number_toString v (init v)
                     (evs ++ MarkerPress i :: evs1 ++ Projected tid (Ok p) :: evs')))) ->
            Callout.position c' = p /\
            (classify c' = Loading \/ classify c' = Ready \/
             classify c' = NotAvailable \/ classify c' = FetchFailed)).
  { intros evs' c' Hin.
    pose proof (Inv_run Number_toString v
                  (evs ++ MarkerPress i :: evs1 ++ Projected tid (Ok p) :: evs')) as Ifin.
    split; [| exact (classify_cases c' (inv_status _ Ifin tid c' Hin))].
    rewrite (inv_same_anchor _ Ifin tid c' (loading_callout sp p) Hin); [reflexivity |].
    rewrite Rfin. destruct (Hafter evs') as (post & ->). apply published_In_app. }
  split; [| split; [| split; [| split; [| split; [| split; [| split]]]]]].
  - apply not_of_task_projections. intros e He.
    apply (inv_fresh_trace st (Inv_run Number_toString v evs) tid e); [reflexivity | exact He].
  - rewrite Rtap. subst tapped. rewrite Etap. reflexivity.
  - exact Hpub.
  - exact Hget.
  - rewrite Rfin. destruct (Hafter evs2) as (post & ->).
    exists (loading_callout sp p), post. split; [reflexivity |].
    split; [reflexivity |]. split; [reflexivity |]. symmetry. exact Hname.
  - apply (inv_once _ (Inv_run Number_toString v _)). rewrite Rfin.
    destruct (run_grows loaded evs2) as (Hn & _). lia.
  - exact (Hat evs2).
  - intros r evs3 Hevs2.
    replace (evs ++ MarkerPress i :: evs1 ++ Projected tid (Ok p) :: evs2
             ++ Observed tid r :: evs3)
      with (evs ++ MarkerPress i :: evs1 ++ Projected tid (Ok p)
            :: (evs2 ++ Observed tid r :: evs3)) by reflexivity.
    assert (Hone : exists c',
              In c' (published tid (trace (run Number_toString v (init v)
                       (evs ++ MarkerPress i :: evs1 ++ Projected tid (Ok p)
                        :: (evs2 ++ Observed tid r :: evs3))))) /\
              (classify c' = Ready \/ classify c' = NotAvailable \/
               classify c' = FetchFailed)).
    { rewrite Rfin.
      change (Observed tid r :: evs3) with ([Observed tid r] ++ evs3).
      rewrite !run_app.
      assert (Tfly : tasks (run Number_toString v loaded evs2) !! tid
                     = Some (AwaitObservation (pressed mk) p))
        by (apply run_keeps_task; assumption).
      destruct (step_Observed Number_toString v _ tid (pressed mk) sp p r Tfly Hsp)
        as (c' & new & Eobs & _ & _ & Hfin & Hnew).
      exists c'. split; [| exact Hfin].
      unfold run at 2. cbn [fold_left].
      destruct (run_grows (step Number_toString v (run Number_toString v loaded evs2)
                             (Observed tid r)) evs3) as (_ & post & ->).
      rewrite Eobs. cbn [trace].
      destruct Hnew as [-> | (e & ->)].
      - rewrite <- app_assoc. apply published_In_app.
      - replace ((trace (run Number_toString v loaded evs2)
                  ++ [EConsoleError "Failed to fetch observation"%string e;
                      ESetCalloutData (Some tid) (Def c')]) ++ post)
          with ((trace (run Number_toString v loaded evs2)
                 ++ [EConsoleError "Failed to fetch observation"%string e])
                ++ ESetCalloutData (Some tid) (Def c') :: post)
          by (rewrite <- !app_assoc; reflexivity).
        apply published_In_app. }
    destruct Hone as (c' & Hin & Hfin). exists c'. split; [exact Hin |].
    split; [exact (proj1 (Hat _ c' Hin)) | exact Hfin].
Qed.

End AnchorPointFacts.

Lemma anchor_is_the_projected_point_witness :
  (exists ms co mk,
     render Unfiltered
       (run sample_toString Unfiltered (init Unfiltered) [StationsResponse sample_directory])
       = Ok (MapScreen ms co) /\
     ms !! 1%nat = Some mk) /\
  forallb (fun ev => negb (addressed 0 ev)) [MapPress; MarkerPress 0]
    = true /\
  (exists c post,
     trace (run sample_toString Unfiltered (init Unfiltered)
              [StationsResponse sample_directory; MarkerPress 1;
               MapPress; MarkerPress 0;
               Projected 0 (Ok (sample_point 160 240))])
       = trace (run sample_toString Unfiltered (init Unfiltered)
                  [StationsResponse sample_directory; MarkerPress 1;
                   MapPress; MarkerPress 0])
         ++ ESetCalloutData (Some 0%nat) (Def c)
            :: EGet (Task 0) "https://api.weather.gov/stations/PHNL/observations/latest"%string
            :: post /\
     classify c = Loading /\ Callout.position c = sample_point 160 240) /\
  exists c',
    In c' (published 0
             (trace (run sample_toString Unfiltered (init Unfiltered)
                       [StationsResponse sample_directory; MarkerPress 1;
                        MapPress; MarkerPress 0;
                        Projected 0 (Ok (sample_point 160 240));
                        Observed 0 (observation sample_props)]))) /\
    Callout.position c' = sample_point 160 240 /\
    (classify c' = Ready \/ classify c' = NotAvailable \/ classify c' = FetchFailed).
Proof.
  assert (Hr : exists ms co mk,
            render Unfiltered
              (run sample_toString Unfiltered (init Unfiltered)
                 [StationsResponse sample_directory]) = Ok (MapScreen ms co) /\
            ms !! 1%nat = Some mk /\
            key mk = Def "PHNL"%string)
    by (eexists _, _, _; vm_compute; repeat split; reflexivity).
  destruct Hr as (ms & co & mk & Hr & Hi & Hk).
  assert (Hn : next_task (run sample_toString Unfiltered (init Unfiltered)
                            [StationsResponse sample_directory]) = 0%nat)
    by (vm_compute; reflexivity).
  split; [exists ms, co, mk; split; assumption |].
  split; [vm_compute; reflexivity |].
  destruct (anchor_is_the_projected_point sample_toString Unfiltered
              [StationsResponse sample_directory] ms co 1 mk
              [MapPress; MarkerPress 0]
              (sample_point 160 240) [] Hr Hi)
    as (_ & _ & _ & _ & (c & post & H1 & H2 & H3 & _) & _ & _ & H4).
  { rewrite Hn. vm_compute. reflexivity. }
  rewrite Hn, Hk in H1. rewrite Hn in H4.
  split.
  - exists c, post. split; [exact H1 |]. split; assumption.
  - destruct (H4 (observation sample_props) [] eq_refl) as (c' & Hin & Hp & Hc).
    exists c'. split; [exact Hin |]. split; assumption.
Defined.

(** The anchor is not there at selection time.  After the tap on KJFK
    the handler is parked at [pointForCoordinate]: nothing is published
    and no callout is shown.  A tap on the map before the point arrives
    dismisses nothing, and the Loading callout opens after it.  When the
    projection fails, the selection never gets an anchor, a view-model or
    a request. *)
Lemma anchor_arrives_after_the_selection :
  published 0
    (trace (run sample_toString Unfiltered (init Unfiltered)
              [StationsResponse sample_directory; MarkerPress 0])) = [] /\
  calloutData (run sample_toString Unfiltered (init Unfiltered)
                 [StationsResponse sample_directory; MarkerPress 0]) = Null /\
  tasks (run sample_toString Unfiltered (init Unfiltered)
           [StationsResponse sample_directory; MarkerPress 0]) !! 0%nat
    = Some (AwaitPoint KJFK) /\
  calloutData (run sample_toString Unfiltered (init Unfiltered)
                 [StationsResponse sample_directory; MarkerPress 0; MapPress]) = Null /\
  calloutData (run sample_toString Unfiltered (init Unfiltered)
                 [StationsResponse sample_directory; MarkerPress 0; MapPress;
                  Projected 0 (Ok (sample_point 160 240))])
    = Def {| Callout.stationName := Def "New York, Kennedy International Airport"%string;
             Callout.weather := Undefined;
             Callout.error := Undefined;
             Callout.loading := true;
             Callout.position := sample_point 160 240 |} /\
  trace (run sample_toString Unfiltered (init Unfiltered)
           [StationsResponse sample_directory; MarkerPress 0;
            Projected 0 (Throw (Rejection "pointForCoordinate"))])
    = trace (run sample_toString Unfiltered (init Unfiltered)
               [StationsResponse sample_directory; MarkerPress 0]) /\
  tasks (run sample_toString Unfiltered (init Unfiltered)
           [StationsResponse sample_directory; MarkerPress 0;
            Projected 0 (Throw (Rejection "pointForCoordinate"))]) !! 0%nat = None.
Proof. repeat split; vm_compute; reflexivity. Qed.
